(** * The activity store of FriendTracker.py (class SpotifyAnalyzer)

    A shallow embedding of the ingestion and storage core: the constructor,
    the per-thread connection, the retrying decorator [with_db_retry],
    [init_database], the derivation of per-listener table names,
    [create_user_table], [store_activity], the history queries,
    [analyze_recent_activity], [filter_active_friends], the body of
    [run_collection_loop] and [verify_database_structure].

    Python values are the values [json.loads] produces (integers only, no
    floats).  A Python [str] is a list of Unicode code points.  The SQLite
    file is seen through the worker's single connection: [disk] is the
    committed content and [tx] the working copy of the open transaction.
    What other processes do to the file shows up only as failures of engine
    steps, which a schedule of upcoming outcomes ([faults]) decides. *)

From Stdlib Require Import ZArith NArith QArith List String Ascii Bool Lia.
From stdpp Require Import base decidable option list countable gmap pretty.

Local Open Scope Z_scope.
Local Open Scope list_scope.

(** ** Python strings *)

Abbreviation str := (list N).

(** A literal of the source, as code points. *)
Definition py (s : string) : str :=
  List.map N_of_ascii (list_ascii_of_string s).

Arguments py : simpl never.

Definition str_eqb (a b : str) : bool := bool_decide (a = b).

Definition colon : N := 58%N.
Definition underscore : N := 95%N.

(** [s.split(sep)] for a one-character separator. *)
Fixpoint split_on (sep : N) (s : str) : list str :=
  match s with
  | [] => [[]]
  | c :: s' =>
      if N.eqb c sep then [] :: split_on sep s'
      else match split_on sep s' with
           | w :: ws => (c :: w) :: ws
           | [] => [[c]]
           end
  end.

(** [l[-1]] on a list of strings. *)
Definition last_item (l : list str) : str := List.last l [].

(** [c in s] for a character [c]. *)
Definition str_contains (c : N) (s : str) : bool :=
  List.existsb (N.eqb c) s.

Fixpoint is_prefix (p s : str) : bool :=
  match p, s with
  | [], _ => true
  | _ :: _, [] => false
  | a :: p', b :: s' => N.eqb a b && is_prefix p' s'
  end.

(** [p in s] for strings. *)
Fixpoint is_substring (p s : str) : bool :=
  is_prefix p s ||
  match s with
  | [] => false
  | _ :: s' => is_substring p s'
  end.

(** [s.replace(c, '')] for a character [c]. *)
Definition remove_char (c : N) (s : str) : str :=
  List.filter (fun x => negb (N.eqb x c)) s.

Definition ascii_alnum (c : N) : bool :=
  ((48 <=? c) && (c <=? 57) || (65 <=? c) && (c <=? 90)
   || (97 <=? c) && (c <=? 122))%N.

(** [str.isalnum] on U+0080..U+00FF: the letters, the superscript digits
    and the vulgar fractions of Latin-1. *)
Definition latin1_alnum (c : N) : bool :=
  (List.existsb (N.eqb c) [170; 178; 179; 181; 185; 186; 188; 189; 190]
   || (192 <=? c) && (c <=? 255) && negb (c =? 215) && negb (c =? 247))%N.

(** The word characters of the specification, [[A-Za-z0-9_]]. *)
Definition word_char (c : N) : bool := ascii_alnum c || N.eqb c underscore.

(** SQLite compares identifiers ignoring the case of ASCII letters only. *)
Definition sql_fold (s : str) : str :=
  List.map (fun c => if ((65 <=? c) && (c <=? 90))%N then (c + 32)%N else c) s.

(** ** Values *)

#[warnings="-register-all"]
Inductive json :=
| JNull
| JBool (b : bool)
| JNum (z : Z)
| JStr (s : str)
| JArr (l : list json)
| JObj (kv : list (str * json)).

Inductive sqlite_class :=
| OperationalError | IntegrityError | ProgrammingError | DatabaseError.

Inductive exn :=
| SqliteError (cls : sqlite_class) (msg : str)
| PandasDatabaseError (msg : str)
| ValueError (msg : str)
| AttributeError
| TypeError
| OverflowError.

Inductive result (A : Type) :=
| Ok (a : A)
| Raise (e : exn).
Arguments Ok {A} a.
Arguments Raise {A} e.

(** [except sqlite3.Error]. *)
Definition is_sqlite_error (e : exn) : bool :=
  match e with SqliteError _ _ => true | _ => false end.

(** [except sqlite3.OperationalError as e: if "database is locked" in str(e)]. *)
Definition is_locked (e : exn) : bool :=
  match e with
  | SqliteError OperationalError msg => is_substring (py "database is locked") msg
  | _ => false
  end.

(** Truth value of a Python object ([not x] is its negation). *)
Definition truthy (v : json) : bool :=
  match v with
  | JNull => false
  | JBool b => b
  | JNum z => negb (z =? 0)
  | JStr s => negb (bool_decide (s = []))
  | JArr l => negb (bool_decide (length l = 0%nat))
  | JObj kv => negb (bool_decide (length kv = 0%nat))
  end.

(** A dict is an association list; the first binding of a key counts. *)
Fixpoint assoc (k : str) (kv : list (str * json)) : option json :=
  match kv with
  | [] => None
  | (k', v) :: rest => if str_eqb k k' then Some v else assoc k rest
  end.

(** [o.get(k, default)]: only a dict has [get]. *)
Definition dict_get (o : json) (k : str) (default : json) : result json :=
  match o with
  | JObj kv => Ok (match assoc k kv with Some v => v | None => default end)
  | _ => Raise AttributeError
  end.

(** [a or b]. *)
Definition py_or (a b : json) : json := if truthy a then a else b.

Definition isinstance_dict (v : json) : bool :=
  match v with JObj _ => true | _ => false end.

(** [':' in x]: substring test on a str, element test on a list, key test
    on a dict, TypeError on the other types. *)
Definition contains_colon (v : json) : result bool :=
  match v with
  | JStr s => Ok (str_contains colon s)
  | JArr l =>
      Ok (List.existsb
            (fun x => match x with JStr s => str_eqb s [colon] | _ => false end) l)
  | JObj kv => Ok (List.existsb (fun p => str_eqb (fst p) [colon]) kv)
  | _ => Raise TypeError
  end.

(** ** The database *)

Inductive sqlval :=
| VNull
| VInt (z : Z)
| VText (s : str).

#[global] Instance sqlval_eq_dec : EqDecision sqlval.
Proof. solve_decision. Defined.

(** What the sqlite3 module does with a Python value bound to a [?]. *)
Definition adapt (v : json) : result sqlval :=
  match v with
  | JNull => Ok VNull
  | JBool b => Ok (VInt (if b then 1 else 0))
  | JNum z =>
      if (- 2 ^ 63 <=? z) && (z <? 2 ^ 63) then Ok (VInt z)
      else Raise OverflowError
  | JStr s => Ok (VText s)
  | JArr _ | JObj _ =>
      Raise (SqliteError ProgrammingError
               (py "Error binding parameter: type is not supported"))
  end.

(** What a fetched column value is in Python. *)
Definition fetched (v : sqlval) : json :=
  match v with
  | VNull => JNull
  | VInt z => JNum z
  | VText s => JStr s
  end.

(** A column declared TEXT stores an integer as its decimal text.  (The
    converse coercion of numeric-looking text in INTEGER columns is left
    out: such a column keeps what was bound.) *)
Definition text_affinity (v : sqlval) : sqlval :=
  match v with
  | VInt z => VText (py (pretty z))
  | _ => v
  end.

Record user_row := UserRow {
  u_uri : sqlval; u_name : sqlval; u_image_url : sqlval }.

Record track_row := TrackRow {
  t_uri : sqlval; t_name : sqlval; t_image_url : sqlval;
  t_album_uri : sqlval; t_album_name : sqlval;
  t_artist_uri : sqlval; t_artist_name : sqlval }.

Record registry_row := RegistryRow {
  r_user_uri : sqlval; r_table_name : sqlval; r_created_at : sqlval }.

Record activity_row := ActivityRow {
  a_id : Z; a_timestamp : sqlval; a_track_uri : sqlval;
  a_context_uri : sqlval; a_context_name : sqlval; a_context_index : sqlval }.

(** A per-listener table: the name it was created under, its rows in rowid
    order and the AUTOINCREMENT counter kept in sqlite_sequence. *)
Record stream_table := StreamTable {
  st_name : str; st_rows : list activity_row; st_seq : Z }.

(** The three core tables ([None]: the table does not exist), the
    per-listener tables keyed by their case-folded names, and the names of
    the timestamp indexes. *)
Record db := Db {
  users : option (list user_row);
  tracks : option (list track_row);
  user_tables : option (list registry_row);
  streams : gmap str stream_table;
  indexes : gset str }.

Definition empty_db : db := Db None None None ∅ ∅.

(** Two key values collide under a PRIMARY KEY; NULLs never do. *)
Definition key_conflict (a b : sqlval) : bool :=
  match a, b with
  | VNull, _ | _, VNull => false
  | _, _ => bool_decide (a = b)
  end.

(** INSERT OR REPLACE: rows with the same key go, the new row is added
    last. *)
Definition replace_into {R} (key : R -> sqlval) (r : R) (t : list R) : list R :=
  List.filter (fun x => negb (key_conflict (key x) (key r))) t ++ [r].

(** The script of [init_database]: three CREATE TABLE IF NOT EXISTS. *)
Definition create_core_tables (d : db) : db :=
  Db (Some (default [] (users d))) (Some (default [] (tracks d)))
     (Some (default [] (user_tables d))) (streams d) (indexes d).

(** SELECT name FROM sqlite_master WHERE type='table' AND name=?
    (the stored name is compared exactly). *)
Definition master_has_table (name : str) (d : db) : bool :=
  if str_eqb name (py "users") then bool_decide (is_Some (users d))
  else if str_eqb name (py "tracks") then bool_decide (is_Some (tracks d))
  else if str_eqb name (py "user_tables") then bool_decide (is_Some (user_tables d))
  else match streams d !! sql_fold name with
       | Some t => str_eqb (st_name t) name
       | None => false
       end.

(** SELECT name FROM sqlite_master WHERE type='table' AND
    name IN ('users', 'tracks', 'user_tables'): the number of rows. *)
Definition core_tables_found (d : db) : nat :=
  ((if users d is Some _ then 1 else 0) + (if tracks d is Some _ then 1 else 0)
   + (if user_tables d is Some _ then 1 else 0))%nat.

(** CREATE TABLE IF NOT EXISTS <name> (id INTEGER PRIMARY KEY
    AUTOINCREMENT, timestamp ..., ...). *)
Definition create_stream_table (name : str) (d : db) : db :=
  match streams d !! sql_fold name with
  | Some _ => d
  | None =>
      Db (users d) (tracks d) (user_tables d)
         (<[sql_fold name := StreamTable name [] 0]> (streams d)) (indexes d)
  end.

Definition index_name (table_name : str) : str :=
  py "idx_" ++ table_name ++ py "_timestamp".

Definition no_such_table (name : str) : exn :=
  SqliteError OperationalError (py "no such table: " ++ name).

(** CREATE INDEX IF NOT EXISTS idx_<name>_timestamp ON <name>(timestamp). *)
Definition create_stream_index (name : str) (d : db) : result db :=
  if bool_decide (sql_fold (index_name name) ∈ indexes d) then Ok d
  else match streams d !! sql_fold name with
       | None => Raise (no_such_table name)
       | Some _ =>
           Ok (Db (users d) (tracks d) (user_tables d) (streams d)
                  ({[ sql_fold (index_name name) ]} ∪ indexes d))
       end.

Definition not_null (column : str) : exn :=
  SqliteError IntegrityError (py "NOT NULL constraint failed: " ++ column).

(** INSERT OR REPLACE INTO user_tables (user_uri, table_name, created_at). *)
Definition replace_registry (r : registry_row) (d : db) : result db :=
  match user_tables d with
  | None => Raise (no_such_table (py "user_tables"))
  | Some t =>
      if bool_decide (r_table_name r = VNull) then Raise (not_null (py "user_tables.table_name"))
      else if bool_decide (r_created_at r = VNull) then Raise (not_null (py "user_tables.created_at"))
      else Ok (Db (users d) (tracks d) (Some (replace_into r_user_uri r t))
                  (streams d) (indexes d))
  end.

(** INSERT OR REPLACE INTO users (uri, name, image_url). *)
Definition replace_user (r : user_row) (d : db) : result db :=
  match users d with
  | None => Raise (no_such_table (py "users"))
  | Some t =>
      if bool_decide (u_name r = VNull) then Raise (not_null (py "users.name"))
      else Ok (Db (Some (replace_into u_uri r t)) (tracks d) (user_tables d)
                  (streams d) (indexes d))
  end.

(** INSERT OR REPLACE INTO tracks (uri, name, image_url, album_uri,
    album_name, artist_uri, artist_name). *)
Definition replace_track (r : track_row) (d : db) : result db :=
  match tracks d with
  | None => Raise (no_such_table (py "tracks"))
  | Some t =>
      if bool_decide (t_name r = VNull) then Raise (not_null (py "tracks.name"))
      else Ok (Db (users d) (Some (replace_into t_uri r t)) (user_tables d)
                  (streams d) (indexes d))
  end.

Definition max_rowid (rows : list activity_row) : Z :=
  List.fold_right (fun r m => Z.max (a_id r) m) 0 rows.

(** The rowid AUTOINCREMENT gives the next row. *)
Definition next_rowid (t : stream_table) : Z :=
  Z.max (st_seq t) (max_rowid (st_rows t)) + 1.

(** INSERT INTO <name> (timestamp, track_uri, context_uri, context_name,
    context_index). *)
Definition insert_activity (name : str)
    (ts track ctx_uri ctx_name ctx_index : sqlval) (d : db) : result db :=
  match streams d !! sql_fold name with
  | None => Raise (no_such_table name)
  | Some t =>
      if bool_decide (ts = VNull) then Raise (not_null (name ++ py ".timestamp"))
      else if bool_decide (track = VNull) then Raise (not_null (name ++ py ".track_uri"))
      else
        let row := ActivityRow (next_rowid t) ts track ctx_uri ctx_name ctx_index in
        Ok (Db (users d) (tracks d) (user_tables d)
               (<[sql_fold name :=
                    StreamTable (st_name t) (st_rows t ++ [row]) (next_rowid t)]>
                  (streams d))
               (indexes d))
  end.

(** ** The worker and its effects *)

Inductive level := INFO | WARNING | ERROR.

(** The state one worker thread acts on.  [disk] is the committed
    database; [tx] is the working copy of the transaction open on the
    worker's connection, if any; [thread_conn] is
    [thread_local.connection]; connections are told apart by a number.
    [faults] lists what the engine answers to the coming steps: [Some]
    failure (another process holds a lock, say) or [None]; past its end
    every step goes through. *)
Record world := World {
  disk : db;
  tx : option db;
  thread_conn : option nat;
  next_conn : nat;
  faults : list (option (sqlite_class * str));
  clock : Z;
  slept : list Z;
  log : list (level * str) }.

Definition set_store (d : db) (t : option db) (w : world) : world :=
  World d t (thread_conn w) (next_conn w) (faults w) (clock w) (slept w) (log w).

Definition set_faults (f : list (option (sqlite_class * str))) (w : world) : world :=
  World (disk w) (tx w) (thread_conn w) (next_conn w) f (clock w) (slept w) (log w).

(** The database as the connection sees it. *)
Definition view (w : world) : db := default (disk w) (tx w).

Definition M (A : Type) : Type := world -> result A * world.

Definition ret {A} (a : A) : M A := fun w => (Ok a, w).
Definition raise {A} (e : exn) : M A := fun w => (Raise e, w).
Definition lift {A} (r : result A) : M A := fun w => (r, w).

Definition bind {A B} (m : M A) (k : A -> M B) : M B :=
  fun w =>
    match m w with
    | (Ok a, w') => k a w'
    | (Raise e, w') => (Raise e, w')
    end.

Notation "'do' x <- m ; k" := (bind m (fun x => k))
  (at level 10, x name, m at level 100, k at level 200).
Notation "m ;; k" := (bind m (fun _ => k))
  (at level 100, k at level 200, right associativity).

(** [try: body  except <catches> as e: handler e]. *)
Definition try_except {A} (body : M A) (catches : exn -> bool)
    (handler : exn -> M A) : M A :=
  fun w =>
    match body w with
    | (Ok a, w') => (Ok a, w')
    | (Raise e, w') => if catches e then handler e w' else (Raise e, w')
    end.

Definition any_exception (e : exn) : bool := true.

(** A record of the logger at level INFO (debug records are dropped); the
    formatted arguments are left out of the message. *)
Definition logger (l : level) (msg : string) : M unit :=
  fun w =>
    (Ok tt, World (disk w) (tx w) (thread_conn w) (next_conn w) (faults w)
                  (clock w) (slept w) (log w ++ [(l, py msg)])).

Definition time_sleep (seconds : Z) : M unit :=
  fun w =>
    (Ok tt, World (disk w) (tx w) (thread_conn w) (next_conn w) (faults w)
                  (clock w + seconds) (slept w ++ [seconds]) (log w)).

(** [int(time.time())]. *)
Definition time_time : M Z := fun w => (Ok (clock w), w).

(** [get_db_connection]: the thread's connection, opened on first use. *)
Definition get_db_connection : M nat :=
  fun w =>
    match thread_conn w with
    | Some c => (Ok c, w)
    | None =>
        (Ok (next_conn w),
         World (disk w) (tx w) (Some (next_conn w)) (S (next_conn w))
               (faults w) (clock w) (slept w) (log w))
    end.

(** [close_db_connection]: closing drops the work that was not committed. *)
Definition close_db_connection : M unit :=
  fun w =>
    match thread_conn w with
    | Some _ =>
        (Ok tt, World (disk w) None None (next_conn w) (faults w) (clock w)
                      (slept w) (log w))
    | None => (Ok tt, w)
    end.

Definition live (c : nat) (w : world) : bool :=
  bool_decide (thread_conn w = Some c).

Definition closed_database : exn :=
  SqliteError ProgrammingError (py "Cannot operate on a closed database.").

(** [conn.cursor()]. *)
Definition cursor_of (c : nat) : M nat :=
  fun w => if live c w then (Ok c, w) else (Raise closed_database, w).

Inductive stmt_kind := Query | DML | DDL.

(** Where the result of a statement goes: a DML statement writes into the
    transaction; DDL joins an open transaction and is committed at once
    outside of one. *)
Definition write_back (k : stmt_kind) (d : db) (w : world) : world :=
  match k with
  | Query => w
  | DML => set_store (disk w) (Some d) w
  | DDL => match tx w with
           | Some _ => set_store (disk w) (Some d) w
           | None => set_store d None w
           end
  end.

(** The module opens a transaction before a DML statement. *)
Definition begin_for (k : stmt_kind) (w : world) : world :=
  match k with
  | DML => set_store (disk w) (Some (view w)) w
  | _ => w
  end.

(** The next answer of the engine. *)
Definition next_fault (w : world) : option (sqlite_class * str) * world :=
  match faults w with
  | [] => (None, w)
  | f :: rest => (f, set_faults rest w)
  end.

(** [cursor.execute(sql, params)].  The statement is compiled against the
    schema ([prepare]), the transaction is opened for DML, the parameters
    are bound, and the engine runs the statement. *)
Definition execute {P A} (cur : nat) (k : stmt_kind)
    (prepare : db -> option exn) (params : result P)
    (run : P -> db -> result (A * db)) : M A :=
  fun w =>
    if negb (live cur w) then (Raise closed_database, w)
    else match prepare (view w) with
         | Some e => (Raise e, w)
         | None =>
             let w1 := begin_for k w in
             match params with
             | Raise e => (Raise e, w1)
             | Ok p =>
                 match next_fault w1 with
                 | (Some (cls, msg), w2) => (Raise (SqliteError cls msg), w2)
                 | (None, w2) =>
                     match run p (view w2) with
                     | Raise e => (Raise e, w2)
                     | Ok (a, d) => (Ok a, write_back k d w2)
                     end
                 end
             end
         end.

(** [conn.commit()]. *)
Definition commit (c : nat) : M unit :=
  fun w =>
    if negb (live c w) then (Raise closed_database, w)
    else match next_fault w with
         | (Some (cls, msg), w1) => (Raise (SqliteError cls msg), w1)
         | (None, w1) => (Ok tt, set_store (view w1) None w1)
         end.

(** [conn.rollback()]. *)
Definition rollback (c : nat) : M unit :=
  fun w =>
    if negb (live c w) then (Raise closed_database, w)
    else (Ok tt, set_store (disk w) None w).

(** [conn.executescript(script)] for a script of DDL: pending work is
    committed first, then the script runs outside of a transaction. *)
Definition executescript (c : nat) (script : db -> db) : M unit :=
  fun w =>
    if negb (live c w) then (Raise closed_database, w)
    else match next_fault w with
         | (Some (cls, msg), w1) => (Raise (SqliteError cls msg), w1)
         | (None, w1) => (Ok tt, set_store (script (view w1)) None w1)
         end.

(** [with self.get_db_connection() as conn: body]: commit on leaving
    normally (rolling back if the commit fails), roll back on leaving by
    an exception; the connection stays open. *)
Definition with_connection {A} (body : nat -> M A) : M A :=
  do c <- get_db_connection;
  fun w =>
    match body c w with
    | (Ok a, w') =>
        (try_except (commit c) any_exception (fun e => rollback c;; raise e);;
         ret a) w'
    | (Raise e, w') => (rollback c;; raise e) w'
    end.

(** ** with_db_retry *)

(** The state the decorator leaves before the next attempt: a warning, the
    sleep, the connection closed and forgotten. *)
Definition back_off (wait_time : Z) : M unit :=
  logger WARNING "Database locked, retrying" ;;
  time_sleep wait_time ;;
  close_db_connection.

(** The [for attempt in range(max_attempts)] loop of the wrapper, from
    attempt number [attempt] with [remaining] attempts to go. *)
Fixpoint retry_loop {A} (delay : Z) (func : M A) (remaining : nat)
    (attempt : Z) (last_error : option exn) : M A :=
  match remaining with
  | O =>
      match last_error with
      | Some e => raise e
      | None => raise TypeError
      end
  | S k =>
      fun w =>
        match func w with
        | (Ok a, w') => (Ok a, w')
        | (Raise e, w') =>
            if is_locked e
            then (back_off (delay * 2 ^ attempt) ;;
                  retry_loop delay func k (attempt + 1) (Some e)) w'
            else (Raise e, w')
        end
  end.

Definition with_db_retry {A} (max_attempts : nat) (delay : Z) (func : M A) : M A :=
  retry_loop delay func max_attempts 0 None.

(** The number of times the wrapper calls [func]. *)
Fixpoint retry_attempts {A} (delay : Z) (func : M A) (remaining : nat)
    (attempt : Z) (w : world) : nat :=
  match remaining with
  | O => O
  | S k =>
      match func w with
      | (Ok _, _) => 1%nat
      | (Raise e, w') =>
          if is_locked e
          then S (retry_attempts delay func k (attempt + 1)
                    (snd (back_off (delay * 2 ^ attempt) w')))
          else 1%nat
      end
  end.

(** ** Table names *)

Section Analyzer.

Set Default Proof Using "Type".

(** [str.isalnum] above U+00FF is given by the Unicode database of the
    Python runtime. *)
Variable isalnum_wide : N -> bool.

Definition isalnum_char (c : N) : bool :=
  if (c <? 128)%N then ascii_alnum c
  else if (c <? 256)%N then latin1_alnum c
  else isalnum_wide c.

(** [s.isalnum()]: false on the empty string. *)
Definition isalnum (s : str) : bool :=
  negb (bool_decide (s = [])) && List.forallb isalnum_char s.

(** [''.join(c if c.isalnum() else '_' for c in username)]. *)
Definition sanitize (username : str) : str :=
  List.map (fun c => if isalnum_char c then c else underscore) username.

Definition table_name_of (username : str) : str :=
  py "user_" ++ sanitize username ++ py "_listening_activity".

(** The body of the [try] in [get_user_table_name], on a str. *)
Definition derive_table_name (user_uri : str) : result str :=
  let username := last_item (split_on colon user_uri) in
  let table_name := table_name_of username in
  if negb (isalnum (remove_char underscore table_name))
  then Raise (ValueError (py "Invalid table name generated from URI"))
  else Ok table_name.

(** [strftime(format, datetime(timestamp/1000, 'unixepoch'))] of the
    engine, on a stored timestamp. *)
Variable sqlite_strftime : str -> sqlval -> sqlval.

(** [get_user_table_name]: [split] exists on a str only. *)
Definition get_user_table_name (user_uri : json) : M str :=
  try_except
    (match user_uri with
     | JStr s => lift (derive_table_name s)
     | _ => raise AttributeError
     end)
    any_exception
    (fun e => logger ERROR "Error generating table name for URI" ;; raise e).

(** ** init_database *)

Definition init_database : M unit :=
  with_connection (fun conn =>
    executescript conn create_core_tables ;;
    commit conn).

(** ** create_user_table *)

Definition table_missing (name : str) (d : db) : option exn :=
  match streams d !! sql_fold name with
  | Some _ => None
  | None => Some (no_such_table name)
  end.

Definition registry_missing (d : db) : option exn :=
  match user_tables d with
  | Some _ => None
  | None => Some (no_such_table (py "user_tables"))
  end.

Definition no_params : result unit := Ok tt.

(** The three parameters of the registry INSERT. *)
Definition registry_params (user_uri : json) (table_name : str) (now : Z)
    : result registry_row :=
  match adapt user_uri with
  | Raise e => Raise e
  | Ok u =>
      match adapt (JNum now) with
      | Raise e => Raise e
      | Ok t => Ok (RegistryRow (text_affinity u) (VText table_name) t)
      end
  end.

Definition create_user_table_body (user_uri : json) : M str :=
  try_except
    (do table_name <- get_user_table_name user_uri;
     do conn <- get_db_connection;
     do cursor <- cursor_of conn;
     do found <- execute cursor Query (fun _ => None) no_params
                   (fun _ d => Ok (master_has_table table_name d, d));
     if negb found then
       logger INFO "Creating new table for user" ;;
       execute cursor DDL (fun _ => None) no_params
         (fun _ d => Ok (tt, create_stream_table table_name d)) ;;
       execute cursor DDL (fun _ => None) no_params
         (fun _ d => match create_stream_index table_name d with
                     | Ok d' => Ok (tt, d')
                     | Raise e => Raise e
                     end) ;;
       do now <- time_time;
       execute cursor DML registry_missing
         (registry_params user_uri table_name now)
         (fun r d => match replace_registry r d with
                     | Ok d' => Ok (tt, d')
                     | Raise e => Raise e
                     end) ;;
       commit conn ;;
       ret table_name
     else ret table_name)
    any_exception
    (fun e => logger ERROR "Error creating table for user" ;; raise e).

Definition create_user_table (user_uri : json) : M str :=
  with_db_retry 3 1 (create_user_table_body user_uri).

(** ** store_activity *)

Definition users_missing (d : db) : option exn :=
  match users d with
  | Some _ => None
  | None => Some (no_such_table (py "users"))
  end.

Definition tracks_missing (d : db) : option exn :=
  match tracks d with
  | Some _ => None
  | None => Some (no_such_table (py "tracks"))
  end.

(** The dataclasses [User] and [Track]; the fields hold whatever the
    payload has. *)
Record User := MkUser { uri : json; name : json; image_url : json }.

Record Track := MkTrack {
  track_uri : json; track_name : json; track_image_url : json;
  album_uri : json; album_name : json; artist_uri : json;
  artist_name : json; context_uri : json; context_name : json;
  context_index : json }.

Definition adapt3 (a b c : json) : result (sqlval * sqlval * sqlval) :=
  match adapt a with
  | Raise e => Raise e
  | Ok x =>
      match adapt b with
      | Raise e => Raise e
      | Ok y =>
          match adapt c with
          | Raise e => Raise e
          | Ok z => Ok (x, y, z)
          end
      end
  end.

Definition user_params (u : User) : result user_row :=
  match adapt3 (uri u) (name u) (image_url u) with
  | Raise e => Raise e
  | Ok (a, b, c) => Ok (UserRow (text_affinity a) (text_affinity b) (text_affinity c))
  end.

Definition track_params (t : Track) : result track_row :=
  match adapt3 (track_uri t) (track_name t) (track_image_url t) with
  | Raise e => Raise e
  | Ok (a, b, c) =>
      match adapt3 (album_uri t) (album_name t) (artist_uri t) with
      | Raise e => Raise e
      | Ok (d, e, f) =>
          match adapt (artist_name t) with
          | Raise e => Raise e
          | Ok g =>
              Ok (TrackRow (text_affinity a) (text_affinity b) (text_affinity c)
                    (text_affinity d) (text_affinity e) (text_affinity f)
                    (text_affinity g))
          end
      end
  end.

(** The parameters of the INSERT into the listener's table, in the order
    timestamp, track_uri, context_uri, context_name, context_index. *)
Definition activity_params (timestamp : json) (t : Track)
    : result (sqlval * sqlval * sqlval * sqlval * sqlval) :=
  match adapt timestamp with
  | Raise e => Raise e
  | Ok ts =>
      match adapt3 (track_uri t) (context_uri t) (context_name t) with
      | Raise e => Raise e
      | Ok (a, b, c) =>
          match adapt (context_index t) with
          | Raise e => Raise e
          | Ok i => Ok (ts, text_affinity a, text_affinity b, text_affinity c, i)
          end
      end
  end.

Definition lift_db (r : result db) : result (unit * db) :=
  match r with
  | Ok d => Ok (tt, d)
  | Raise e => Raise e
  end.

(** The inner [try] of [store_activity], from the call of
    [create_user_table] to the commit. *)
Definition store_rows (conn : nat) (activity_data : json) (user : User)
    (track : Track) : M unit :=
  do table_name <-
    try_except (create_user_table (uri user)) is_sqlite_error
      (fun e => logger ERROR "SQLite error while storing activity" ;; raise e);
  try_except
    (do cursor <- cursor_of conn;
     execute cursor DML users_missing (user_params user)
       (fun r d => lift_db (replace_user r d)) ;;
     execute cursor DML tracks_missing (track_params track)
       (fun r d => lift_db (replace_track r d)) ;;
     do timestamp <- lift (dict_get activity_data (py "timestamp") JNull);
     execute cursor DML (table_missing table_name)
       (activity_params timestamp track)
       (fun '(ts, tr, cu, cn, ci) d =>
          lift_db (insert_activity table_name ts tr cu cn ci d)) ;;
     commit conn)
    is_sqlite_error
    (fun e =>
       logger ERROR "SQLite error while storing activity" ;;
       logger ERROR "Table name" ;;
       raise e).

Definition store_activity_body (activity_data : json) : M unit :=
  try_except
    (if negb (isinstance_dict activity_data) then
       logger ERROR "Invalid activity data"
     else
       do user_data <- lift (dict_get activity_data (py "user") (JObj []));
       do track_data <- lift (dict_get activity_data (py "track") (JObj []));
       do album_data <- lift (dict_get track_data (py "album") (JObj []));
       do artist_data <- lift (dict_get track_data (py "artist") (JObj []));
       do context_data <- lift (dict_get track_data (py "context") (JObj []));
       if negb (truthy user_data) || negb (truthy track_data) then
         logger ERROR "Missing required fields in activity data"
       else
         do u_uri <- lift (dict_get user_data (py "uri") (JStr []));
         do u_name <- lift (dict_get user_data (py "name") (JStr (py "Unknown")));
         do u_img1 <- lift (dict_get user_data (py "imageUrl") JNull);
         do u_img2 <- lift (dict_get user_data (py "image_url") JNull);
         let user := MkUser u_uri u_name (py_or u_img1 u_img2) in
         do has_colon <-
           (if negb (truthy (uri user)) then ret false
            else lift (contains_colon (uri user)));
         if negb (truthy (uri user)) || negb has_colon then
           logger ERROR "Invalid user URI"
         else
           do t_uri <- lift (dict_get track_data (py "uri") (JStr []));
           do t_name <- lift (dict_get track_data (py "name") (JStr (py "Unknown")));
           do t_img1 <- lift (dict_get track_data (py "imageUrl") JNull);
           do t_img2 <- lift (dict_get track_data (py "image_url") JNull);
           do al_uri <- lift (dict_get album_data (py "uri") JNull);
           do al_name <- lift (dict_get album_data (py "name") JNull);
           do ar_uri <- lift (dict_get artist_data (py "uri") JNull);
           do ar_name <- lift (dict_get artist_data (py "name") JNull);
           do c_uri <- lift (dict_get context_data (py "uri") JNull);
           do c_name <- lift (dict_get context_data (py "name") JNull);
           do c_index <- lift (dict_get context_data (py "index") JNull);
           let track := MkTrack t_uri t_name (py_or t_img1 t_img2) al_uri al_name
                          ar_uri ar_name c_uri c_name c_index in
           do conn <- get_db_connection;
           store_rows conn activity_data user track)
    any_exception
    (fun e =>
       logger ERROR "Error storing activity" ;;
       logger ERROR "Activity data" ;;
       raise e).

Definition store_activity (activity_data : json) : M unit :=
  with_db_retry 3 1 (store_activity_body activity_data).

(** ** The history queries *)

Fixpoint str_compare (a b : str) : comparison :=
  match a, b with
  | [], [] => Eq
  | [], _ :: _ => Lt
  | _ :: _, [] => Gt
  | x :: a', y :: b' =>
      match N.compare x y with
      | Eq => str_compare a' b'
      | c => c
      end
  end.

(** The order of the engine on stored values: NULL, then numbers, then
    text. *)
Definition sql_compare (a b : sqlval) : comparison :=
  match a, b with
  | VNull, VNull => Eq
  | VNull, _ => Lt
  | _, VNull => Gt
  | VInt x, VInt y => Z.compare x y
  | VInt _, VText _ => Lt
  | VText _, VInt _ => Gt
  | VText x, VText y => str_compare x y
  end.

(** [a >= b] as a WHERE condition: a comparison with NULL selects
    nothing. *)
Definition sql_ge (a b : sqlval) : bool :=
  match a, b with
  | VNull, _ | _, VNull => false
  | _, _ => match sql_compare a b with Lt => false | _ => true end
  end.

Definition sql_le (a b : sqlval) : bool := sql_ge b a.

(** [a = b] as a join condition. *)
Definition sql_eq (a b : sqlval) : bool := key_conflict a b.

Fixpoint insert_desc (r : list sqlval) (l : list (list sqlval)) : list (list sqlval) :=
  match l with
  | [] => [r]
  | x :: l' =>
      match sql_compare (List.hd VNull r) (List.hd VNull x) with
      | Lt => x :: insert_desc r l'
      | _ => r :: l
      end
  end.

(** ORDER BY timestamp DESC, the timestamp being the first column (rows
    with equal timestamps keep their order). *)
Definition order_by_timestamp_desc (rows : list (list sqlval)) : list (list sqlval) :=
  List.fold_right insert_desc [] rows.

(** What [pd.read_sql_query] returns; [pd.DataFrame()] is [empty_frame]. *)
Record dataframe := DataFrame {
  columns : list str; data : list (list sqlval) }.

Definition empty_frame : dataframe := DataFrame [] [].

(** [pd.read_sql_query(query, conn, params=params)]: pandas rolls back and
    raises its own DatabaseError when the execution fails. *)
Definition read_sql_query {P} (conn : nat) (prepare : db -> option exn)
    (params : result P) (cols : list string)
    (run : P -> db -> list (list sqlval)) : M dataframe :=
  try_except
    (do cursor <- cursor_of conn;
     execute cursor Query prepare params
       (fun p d => Ok (DataFrame (List.map py cols) (run p d), d)))
    any_exception
    (fun e =>
       try_except (rollback conn) any_exception
         (fun _ => raise (PandasDatabaseError (py "unable to rollback"))) ;;
       raise (PandasDatabaseError (py "Execution failed on sql"))).

(** [if start_time:] adds the condition and its parameter. *)
Definition time_bound (t : option Z) : result (option sqlval) :=
  match t with
  | None => Ok None
  | Some z =>
      if z =? 0 then Ok None
      else match adapt (JNum z) with
           | Ok v => Ok (Some v)
           | Raise e => Raise e
           end
  end.

Definition after (bound : option sqlval) (ts : sqlval) : bool :=
  match bound with Some b => sql_ge ts b | None => true end.

Definition before (bound : option sqlval) (ts : sqlval) : bool :=
  match bound with Some b => sql_le ts b | None => true end.

Definition rows_of (name : str) (d : db) : list activity_row :=
  match streams d !! sql_fold name with
  | Some t => st_rows t
  | None => []
  end.

(** SELECT la.timestamp, t.name, t.artist_name, la.context_name
    FROM <name> la JOIN tracks t ON la.track_uri = t.uri
    WHERE ... ORDER BY la.timestamp DESC. *)
Definition select_user_activity (name : str)
    (bounds : option sqlval * option sqlval) (d : db) : list (list sqlval) :=
  order_by_timestamp_desc
    (List.flat_map (fun la =>
       List.flat_map (fun t =>
         if sql_eq (a_track_uri la) (t_uri t)
            && after (fst bounds) (a_timestamp la)
            && before (snd bounds) (a_timestamp la)
         then [[a_timestamp la; t_name t; t_artist_name t; a_context_name la]]
         else [])
         (default [] (tracks d)))
       (rows_of name d)).

Definition first_error (a b : option exn) : option exn :=
  match a with Some e => Some e | None => b end.

Definition both_bounds (s e : option Z)
    : result (option sqlval * option sqlval) :=
  match time_bound s, time_bound e with
  | Raise x, _ => Raise x
  | _, Raise x => Raise x
  | Ok a, Ok b => Ok (a, b)
  end.

Definition get_user_activity (user_uri : json)
    (start_time end_time : option Z) : M dataframe :=
  do table_name <- get_user_table_name user_uri;
  with_connection (fun conn =>
    read_sql_query conn
      (fun d => first_error (table_missing table_name d) (tracks_missing d))
      (both_bounds start_time end_time)
      ["timestamp"; "track_name"; "artist_name"; "context_name"]%string
      (select_user_activity table_name)).

(** SELECT user_uri, table_name FROM user_tables, fetched. *)
Definition registry_listing (d : db) : list (json * json) :=
  List.map (fun r => (fetched (r_user_uri r), fetched (r_table_name r)))
    (default [] (user_tables d)).

(** The table a fetched handle names in FROM {table_name}; a handle that is
    not text names none. *)
Definition handle_missing (table_name : json) (d : db) : option exn :=
  match table_name with
  | JStr s => table_missing s d
  | _ => Some (SqliteError OperationalError (py "no such table"))
  end.

Definition handle_rows (table_name : json) (d : db) : list activity_row :=
  match table_name with
  | JStr s => rows_of s d
  | _ => []
  end.

(** The FROM ... JOIN users u ON u.uri = ? JOIN tracks t ON la.track_uri =
    t.uri [AND la.timestamp >= ?] part of one term of the UNION ALL. *)
Definition joined (entry : json * json) (bound : option sqlval) (d : db)
    : list (activity_row * user_row * track_row) :=
  match adapt (fst entry) with
  | Raise _ => []
  | Ok key =>
      List.flat_map (fun la =>
        List.flat_map (fun u =>
          List.flat_map (fun t =>
            if sql_eq (u_uri u) key && sql_eq (a_track_uri la) (t_uri t)
               && after bound (a_timestamp la)
            then [(la, u, t)] else [])
            (default [] (tracks d)))
          (default [] (users d)))
        (handle_rows (snd entry) d)
  end.

Definition union_missing (entries : list (json * json)) (d : db) : option exn :=
  List.fold_right
    (fun entry acc => first_error (handle_missing (snd entry) d) acc)
    (first_error (users_missing d) (tracks_missing d)) entries.

Definition union_params (entries : list (json * json)) (start : option Z)
    : result (option sqlval) :=
  match List.fold_right
          (fun entry acc =>
             match adapt (fst entry) with Raise e => Some e | Ok _ => acc end)
          None entries with
  | Some e => Raise e
  | None => time_bound start
  end.

Definition get_all_user_activities (start_time : option Z) : M dataframe :=
  with_connection (fun conn =>
    do cursor <- cursor_of conn;
    do entries <- execute cursor Query registry_missing no_params
                    (fun _ d => Ok (registry_listing d, d));
    if bool_decide (entries = []) then ret empty_frame
    else
      read_sql_query conn (union_missing entries)
        (union_params entries start_time)
        ["timestamp"; "user_name"; "track_name"; "artist_name"; "context_name"]%string
        (fun bound d =>
           order_by_timestamp_desc
             (List.flat_map (fun entry =>
                List.map (fun '(la, u, t) =>
                  [a_timestamp la; u_name u; t_name t; t_artist_name t;
                   a_context_name la])
                  (joined entry bound d))
                entries))).

Definition get_all_time_activity : M dataframe :=
  with_connection (fun conn =>
    do cursor <- cursor_of conn;
    do entries <- execute cursor Query registry_missing no_params
                    (fun _ d => Ok (registry_listing d, d));
    if bool_decide (entries = []) then ret empty_frame
    else
      read_sql_query conn (union_missing entries)
        (union_params entries None)
        ["timestamp"; "user_name"; "track_name"; "artist_name"; "album_name";
         "context_name"; "date"; "hour"; "day_of_week"]%string
        (fun bound d =>
           order_by_timestamp_desc
             (List.flat_map (fun entry =>
                List.map (fun '(la, u, t) =>
                  [a_timestamp la; u_name u; t_name t; t_artist_name t;
                   t_album_name t; a_context_name la;
                   sqlite_strftime (py "%Y-%m-%d") (a_timestamp la);
                   sqlite_strftime (py "%H") (a_timestamp la);
                   sqlite_strftime (py "%w") (a_timestamp la)])
                  (joined entry bound d))
                entries))).

(** [analyze_recent_activity], [now_ms] being what
    [int(time.time() * 1000)] evaluates to. *)
Definition analyze_recent_activity (now_ms minutes : Z) : M dataframe :=
  let cutoff_time := now_ms - minutes * 60 * 1000 in
  get_all_user_activities (Some cutoff_time).

(** ** filter_active_friends *)





(** ** run_collection_loop *)

(** The [for activity in activities] loop. *)
Fixpoint store_all (activities : list json) : M unit :=
  match activities with
  | [] => ret tt
  | activity :: rest =>
      (if isinstance_dict activity then store_activity activity
       else logger ERROR "Invalid activity format") ;;
      store_all rest
  end.

(** One pass of the [while True] body; [fetched_activities] is what the
    call of [fetch_friend_activity] gives in this pass. *)
Definition collection_pass (interval_seconds : Z)
    (fetched_activities : result (list json)) : M unit :=
  try_except
    (do activities <- lift fetched_activities;
     (if bool_decide (activities = []) then
        logger INFO "No activities found in the API response."
      else
        store_all activities ;;
        logger INFO "Stored activities") ;;
     time_sleep interval_seconds)
    any_exception
    (fun e =>
       logger ERROR "Error in collection loop" ;;
       time_sleep interval_seconds).

(** The passes of [run_collection_loop] for the given answers of the feed;
    the loop itself has no exit. *)
Fixpoint run_collection_loop (interval_seconds : Z)
    (feed : list (result (list json))) : M unit :=
  match feed with
  | [] => ret tt
  | fetched_activities :: later =>
      collection_pass interval_seconds fetched_activities ;;
      run_collection_loop interval_seconds later
  end.

(** ** verify_database_structure *)

(** WHERE type='table' AND name=? with a fetched handle as parameter. *)
Definition master_has_handle (table_name : sqlval) (d : db) : bool :=
  match text_affinity table_name with
  | VText s => master_has_table s d
  | _ => false
  end.

(** The loop over the fetched registry rows. *)
Fixpoint verify_entries (cursor : nat) (entries : list (json * json)) : M unit :=
  match entries with
  | [] => ret tt
  | (user_uri, table_name) :: rest =>
      do found <- execute cursor Query (fun _ => None) (adapt table_name)
                    (fun p d => Ok (master_has_handle p d, d));
      (if negb found then
         logger WARNING "Missing table for user" ;;
         create_user_table user_uri ;;
         ret tt
       else ret tt) ;;
      verify_entries cursor rest
  end.

Definition verify_database_structure : M unit :=
  with_connection (fun conn =>
    try_except
      (do cursor <- cursor_of conn;
       do existing_tables <- execute cursor Query (fun _ => None) no_params
                               (fun _ d => Ok (core_tables_found d, d));
       (if (existing_tables <? 3)%nat then
          logger WARNING "Missing required tables, reinitializing database" ;;
          init_database
        else ret tt) ;;
       do entries <- execute cursor Query registry_missing no_params
                       (fun _ d => Ok (registry_listing d, d));
       verify_entries cursor entries)
      is_sqlite_error
      (fun e =>
         logger ERROR "Error verifying database structure" ;;
         raise e)).

(** [SpotifyAnalyzer.__init__]. *)
Definition analyzer_init : M unit :=
  init_database ;;
  verify_database_structure.

(** A fresh process on a database file with content [d]. *)
Definition start (d : db) (f : list (option (sqlite_class * str))) : world :=
  World d None None 0 f 0 [] [].

(** ** Vocabulary of the statements *)





(** Whether the first [n] calls of [func] by the wrapper, starting with
    attempt number [attempt] in state [w], all end in lock contention. *)
Fixpoint contended {A} (delay : Z) (func : M A) (n : nat) (attempt : Z)
    (w : world) : bool :=
  match n with
  | O => true
  | S k =>
      match func w with
      | (Raise e, w') =>
          is_locked e &&
          contended delay func k (attempt + 1)
            (snd (back_off (delay * 2 ^ attempt) w'))
      | (Ok _, _) => false
      end
  end.

(** The state in which the wrapper makes the call after [n] contended
    ones. *)
Fixpoint after_contention {A} (delay : Z) (func : M A) (n : nat)
    (attempt : Z) (w : world) : world :=
  match n with
  | O => w
  | S k =>
      after_contention delay func k (attempt + 1)
        (snd (back_off (delay * 2 ^ attempt) (snd (func w))))
  end.

(** The error of the last of [n] contended calls ([first] if [n] is 0). *)
Fixpoint last_contention {A} (delay : Z) (func : M A) (n : nat)
    (attempt : Z) (w : world) (first : option exn) : option exn :=
  match n with
  | O => first
  | S k =>
      match func w with
      | (Raise e, w') =>
          last_contention delay func k (attempt + 1)
            (snd (back_off (delay * 2 ^ attempt) w')) (Some e)
      | (Ok _, _) => first
      end
  end.

(** [o[k]] with a default, on a dict; the default on any other value. *)
Definition field (o : json) (k : string) (d : json) : json :=
  match o with
  | JObj kv => match assoc (py k) kv with Some v => v | None => d end
  | _ => d
  end.

(** A listener identifier that passes the check of [store_activity]: a
    non-empty str with a ':'. *)
Definition listener_ok (v : json) : bool :=
  match v with
  | JStr s => negb (bool_decide (s = [])) && str_contains colon s
  | _ => false
  end.

(** The listener identifier a candidate carries. *)
Definition listener_id (e : json) : json :=
  field (field e "user" (JObj [])) "uri" (JStr []).

(** The track identifier a candidate carries. *)
Definition track_id (e : json) : json :=
  field (field e "track" (JObj [])) "uri" (JStr []).

(** What [store_activity] checks before it touches the database: the
    candidate is a dict, its user and track entries are not empty, and
    the listener identifier is a non-empty str with a ':'. *)
Definition accepted (e : json) : bool :=
  isinstance_dict e && truthy (field e "user" (JObj []))
  && truthy (field e "track" (JObj [])) && listener_ok (listener_id e).

(** The state [w] with one more record in the log. *)
Definition logged (l : level) (msg : string) (w : world) : world :=
  World (disk w) (tx w) (thread_conn w) (next_conn w) (faults w) (clock w)
    (slept w) (log w ++ [(l, py msg)]).

(** What the checks of [store_activity] make of a candidate. *)
Inductive verdict :=
| Rejected (msg : string)
| Accepted (user : User) (track : Track).

Definition rbind {A B} (r : result A) (k : A -> result B) : result B :=
  match r with
  | Ok a => k a
  | Raise e => Raise e
  end.

(** The part of [store_activity] before the first use of the connection,
    as a function of the candidate alone. *)
Definition candidate (activity_data : json) : result verdict :=
  if negb (isinstance_dict activity_data) then Ok (Rejected "Invalid activity data")
  else
    rbind (dict_get activity_data (py "user") (JObj [])) (fun user_data =>
    rbind (dict_get activity_data (py "track") (JObj [])) (fun track_data =>
    rbind (dict_get track_data (py "album") (JObj [])) (fun album_data =>
    rbind (dict_get track_data (py "artist") (JObj [])) (fun artist_data =>
    rbind (dict_get track_data (py "context") (JObj [])) (fun context_data =>
    if negb (truthy user_data) || negb (truthy track_data)
    then Ok (Rejected "Missing required fields in activity data")
    else
      rbind (dict_get user_data (py "uri") (JStr [])) (fun u_uri =>
      rbind (dict_get user_data (py "name") (JStr (py "Unknown"))) (fun u_name =>
      rbind (dict_get user_data (py "imageUrl") JNull) (fun u_img1 =>
      rbind (dict_get user_data (py "image_url") JNull) (fun u_img2 =>
      rbind (if negb (truthy u_uri) then Ok false else contains_colon u_uri)
        (fun has_colon =>
      if negb (truthy u_uri) || negb has_colon
      then Ok (Rejected "Invalid user URI")
      else
        rbind (dict_get track_data (py "uri") (JStr [])) (fun t_uri =>
        rbind (dict_get track_data (py "name") (JStr (py "Unknown"))) (fun t_name =>
        rbind (dict_get track_data (py "imageUrl") JNull) (fun t_img1 =>
        rbind (dict_get track_data (py "image_url") JNull) (fun t_img2 =>
        rbind (dict_get album_data (py "uri") JNull) (fun al_uri =>
        rbind (dict_get album_data (py "name") JNull) (fun al_name =>
        rbind (dict_get artist_data (py "uri") JNull) (fun ar_uri =>
        rbind (dict_get artist_data (py "name") JNull) (fun ar_name =>
        rbind (dict_get context_data (py "uri") JNull) (fun c_uri =>
        rbind (dict_get context_data (py "name") JNull) (fun c_name =>
        rbind (dict_get context_data (py "index") JNull) (fun c_index =>
        Ok (Accepted (MkUser u_uri u_name (py_or u_img1 u_img2))
              (MkTrack t_uri t_name (py_or t_img1 t_img2) al_uri al_name
                 ar_uri ar_name c_uri c_name c_index))))))))))))))))))))))).

(** The connection [get_db_connection] returns in state [w], and the state
    it leaves. *)
Definition conn_of (w : world) : nat :=
  match thread_conn w with
  | Some c => c
  | None => next_conn w
  end.

Definition connected (w : world) : world :=
  World (disk w) (tx w) (Some (conn_of w))
    (match thread_conn w with Some _ => next_conn w | None => S (next_conn w) end)
    (faults w) (clock w) (slept w) (log w).

(** The state the wrapper leaves for the next attempt: [wait_time] seconds
    later, the connection closed and its uncommitted work gone. *)
Definition recycled (wait_time : Z) (w : world) : world :=
  World (disk w) (if thread_conn w is Some _ then None else tx w) None
    (next_conn w) (faults w) (clock w + wait_time) (slept w ++ [wait_time])
    (log w ++ [(WARNING, py "Database locked, retrying")]).

(** ** Sample data *)

(** A runtime whose [str.isalnum] knows no alphanumeric character above
    U+00FF, and an engine whose [strftime] always answers NULL; the runs
    below use ASCII identifiers and never format a date. *)
Definition narrow_isalnum : N -> bool := fun _ => false.
Definition null_strftime : str -> sqlval -> sqlval := fun _ _ => VNull.

(** A payload as the feed sends it. *)
Definition sample_event (listener track title : string) (timestamp : Z) : json :=
  JObj [(py "user", JObj [(py "uri", JStr (py listener));
                          (py "name", JStr (py "Ann"))]);
        (py "track", JObj [(py "uri", JStr (py track));
                           (py "name", JStr (py title))]);
        (py "timestamp", JNum timestamp)].

(** A payload whose track entry has a name and no identifier. *)
Definition event_without_track_id : json :=
  JObj [(py "user", JObj [(py "uri", JStr (py "spotify:user:ann"));
                          (py "name", JStr (py "Ann"))]);
        (py "track", JObj [(py "name", JStr (py "Song A"))]);
        (py "timestamp", JNum 1700000000000)].

(** A payload without timestamp. *)
Definition event_without_timestamp : json :=
  JObj [(py "user", JObj [(py "uri", JStr (py "spotify:user:ann"));
                          (py "name", JStr (py "Ann"))]);
        (py "track", JObj [(py "uri", JStr (py "spotify:track:1"));
                           (py "name", JStr (py "Song A"))])].

(** A payload whose listener identifier has no ':'. *)
Definition event_without_namespace : json :=
  sample_event "ann" "spotify:track:1" "Song A" 1700000000000.

(** A new database file after [init_database], no engine failure ahead. *)
Definition fresh_store : world := snd (init_database (start empty_db [])).

Definition locked : option (sqlite_class * str) :=
  Some (OperationalError, py "database is locked").

(** A mutating operation: commit on the thread's connection. *)
Definition sample_operation : M unit :=
  do conn <- get_db_connection; commit conn.


(** The rows and the AUTOINCREMENT counter of the table stored under the
    folded name [m]; those of an empty table when there is none. *)
Definition content (m : str) (d : db) : list activity_row * Z :=
  match streams d !! m with
  | Some t => (st_rows t, st_seq t)
  | None => ([], 0)
  end.

(** What a call of [create_user_table] for listener [s], table name [n],
    may have done to the tables and indexes of [d]: nothing, or it added
    the empty table [n] and the index on it. *)
Definition provisioned (n : str) (d d' : db) : Prop :=
  users d' = users d /\ tracks d' = tracks d /\
  (streams d' = streams d \/
   streams d !! sql_fold n = None /\
   streams d' = <[sql_fold n := StreamTable n [] 0]> (streams d)) /\
  (indexes d' = indexes d \/
   indexes d' = {[ sql_fold (index_name n) ]} ∪ indexes d).

(** The registry of [d'] is that of [d], or that of [d] with the entry of
    listener [s] replaced by one for table [n]. *)
Definition registered (s n : str) (d d' : db) : Prop :=
  user_tables d' = user_tables d \/
  exists t c, user_tables d = Some t /\
    user_tables d' = Some (replace_into r_user_uri
                             (RegistryRow (VText s) (VText n) (VInt c)) t).

(** The number of registry entries of listener [u]. *)
Definition entries_of (u : str) (d : db) : nat :=
  length (List.filter (fun r => bool_decide (r_user_uri r = VText u))
            (default [] (user_tables d))).

(** At most one registry entry per listener identifier. *)
Definition registry_unique (d : db) : Prop :=
  forall u, (entries_of u d <= 1)%nat.

(** A store in which the registry has an entry for Ann and her table is
    gone. *)
Definition orphaned_store : world :=
  start (Db (Some []) (Some [])
           (Some [RegistryRow (VText (py "spotify:user:ann"))
                    (VText (py "user_ann_listening_activity")) (VInt 5)])
           ∅ ∅) [].


(** What a call of [create_user_table] that meets no failure makes of the
    database: nothing if sqlite_master has the table; else the table, its
    index and the registry entry. *)
Definition provision (s n : str) (now : Z) (d : db) : db :=
  if master_has_table n d then d
  else
    match create_stream_index n (create_stream_table n d) with
    | Raise _ => d
    | Ok d2 =>
        match replace_registry (RegistryRow (VText s) (VText n) (VInt now)) d2 with
        | Raise _ => d
        | Ok d3 => d3
        end
    end.

(** Times the engine can store. *)
Definition storable (z : Z) : Prop := - 2 ^ 63 <= z < 2 ^ 63.

(** The users, the tracks, and the rows and counters of all listener
    tables are the same in [d] and [d']. *)
Definition stable (d d' : db) : Prop :=
  users d' = users d /\ tracks d' = tracks d /\
  forall m, content m d' = content m d.

(** The three INSERTs of [store_activity], in their order. *)
Definition ingest (n : str) (ur : user_row) (tr : track_row)
    (a : sqlval * sqlval * sqlval * sqlval * sqlval) (d : db) : result db :=
  rbind (replace_user ur d) (fun d1 =>
  rbind (replace_track tr d1) (fun d2 =>
  let '(ts, tu, cu, cn, ci) := a in
  insert_activity n ts tu cu cn ci d2)).

(** The listener identifier and the rows an accepted candidate is stored
    as, when its values can be bound. *)
Definition rows_of_event (e : json)
    : option (str * user_row * track_row
              * (sqlval * sqlval * sqlval * sqlval * sqlval)) :=
  match candidate e with
  | Ok (Accepted u t) =>
      match uri u, user_params u, track_params t,
            activity_params (field e "timestamp" JNull) t with
      | JStr s, Ok ur, Ok tr, Ok a => Some (s, ur, tr, a)
      | _, _, _, _ => None
      end
  | _ => None
  end.

(** The number of rows of a table with key [k]. *)
Definition count_key {R} (key : R -> sqlval) (k : sqlval) (t : option (list R)) : nat :=
  length (List.filter (fun r => bool_decide (key r = k)) (default [] t)).

(** A value an INTEGER column stores as it is bound: an integer or NULL
    (text that reads as a number would be converted by the engine). *)
Definition integer_or_null (v : sqlval) : bool :=
  match v with
  | VText _ => false
  | _ => true
  end.

(** The error of a step refused because another process holds the lock. *)
Definition locked_error : exn :=
  SqliteError OperationalError (py "database is locked").

(** Connections are numbered in the order in which they are opened. *)
Definition numbered (w : world) : Prop :=
  match thread_conn w with
  | Some c => (c < next_conn w)%nat
  | None => True
  end.

(** The rows are ordered newest first: no row is followed by one with a
    greater timestamp, the timestamp being the first column. *)
Fixpoint newest_first (rows : list (list sqlval)) : bool :=
  match rows with
  | a :: (b :: _) as rest =>
      negb (match sql_compare (List.hd VNull a) (List.hd VNull b) with
            | Lt => true
            | _ => false
            end)
      && newest_first rest
  | _ => true
  end.

(** What [start_time] asks of a timestamp: nothing when it is None or 0. *)
Definition from_start (start_time : option Z) (ts : sqlval) : bool :=
  match start_time with
  | Some z => (z =? 0) || sql_ge ts (VInt z)
  | None => true
  end.

(** What [end_time] asks of a timestamp: nothing when it is None or 0. *)
Definition until_end (end_time : option Z) (ts : sqlval) : bool :=
  match end_time with
  | Some z => (z =? 0) || sql_le ts (VInt z)
  | None => true
  end.

(** The registry is small enough for one UNION ALL over its tables: the
    engine takes at most 500 terms in a compound SELECT and, in older
    builds, 999 parameters (two per term here). *)
Definition within_engine_limits (d : db) : Prop :=
  (length (default [] (user_tables d)) <= 499)%nat.

(** Every registry entry is one that [create_user_table] writes: a
    listener identifier with the table name derived from it. *)
Definition derived_registry (d : db) : Prop :=
  forall r, List.In r (default [] (user_tables d)) ->
    exists s, r_user_uri r = VText s /\
      r_table_name r = VText (table_name_of (last_item (split_on colon s))).

(** The listener of a registry entry has a table under the derived name. *)
Definition served (r : registry_row) (d : db) : Prop :=
  exists s, r_user_uri r = VText s /\
    is_Some (streams d !! sql_fold (table_name_of (last_item (split_on colon s)))).

(** The three core tables exist. *)
Definition core_tables_exist (d : db) : Prop :=
  is_Some (users d) /\ is_Some (tracks d) /\ is_Some (user_tables d).

(** The rows of users and tracks and the rows and counters of all listener
    tables are the same in [d] and [d'], a missing table counting as an
    empty one. *)
Definition kept (d d' : db) : Prop :=
  default [] (users d') = default [] (users d) /\
  default [] (tracks d') = default [] (tracks d) /\
  forall m, content m d' = content m d.

(** A registry row as [fetchall] gives it. *)
Definition entry_of (r : registry_row) : json * json :=
  (fetched (r_user_uri r), fetched (r_table_name r)).

(** The registry is tidy: every entry is one that [create_user_table]
    writes, and the table of its listener exists. *)
Definition tidy (d : db) : Prop :=
  derived_registry d /\
  forall r, List.In r (default [] (user_tables d)) -> served r d.


(** A computation never sets the clock back. *)
Definition paced {A} (m : M A) : Prop :=
  forall w, clock w <= clock (snd (m w)).

(** * Properties *)

(** ** Table names *)

Lemma split_on_cons (sep : N) (s : str) :
  exists w ws, split_on sep s = w :: ws.
Proof.
  induction s as [|c s IH]; simpl.
  - eauto.
  - destruct (N.eqb c sep); [eauto|].
    destruct IH as (w & ws & ->). eauto.
Qed.

Lemma last_cons2 (a w : str) (ws : list str) :
  List.last (a :: w :: ws) [] = List.last (w :: ws) [].
Proof. reflexivity. Qed.

Lemma split_on_single (sep : N) (s w : str) :
  split_on sep s = [w] -> w = s /\ str_contains sep s = false.
Proof.
  revert w. induction s as [|c s IH]; simpl; intros w H.
  - inversion H. auto.
  - destruct (N.eqb c sep) eqn:E.
    + destruct (split_on_cons sep s) as (x & xs & Hx). rewrite Hx in H. discriminate.
    + destruct (split_on sep s) as [|x [|y xs]] eqn:Hx; inversion H; subst.
      * destruct (split_on_cons sep s) as (x & xs & Hx'). congruence.
      * destruct (IH x eq_refl) as [-> Hc]. split; [reflexivity|].
        unfold str_contains in *. simpl. rewrite Hc, orb_false_r.
        now rewrite N.eqb_sym.
Qed.

(** The last field of [s.split(sep)] has no separator and is what follows
    the last separator of [s]. *)
Lemma last_item_split (sep : N) (s : str) :
  str_contains sep (last_item (split_on sep s)) = false /\
  exists p, s = p ++ last_item (split_on sep s) /\
            (p = [] \/ exists q, p = q ++ [sep]).
Proof.
  unfold last_item.
  induction s as [|c s IH].
  - split; [reflexivity|]. exists []. split; [reflexivity|]. now left.
  - destruct IH as (Hno & p & Hs & Hp).
    destruct (split_on_cons sep s) as (w & ws & Hw).
    cbn [split_on]. destruct (N.eqb_spec c sep) as [->|Hne].
    + rewrite Hw in *. rewrite last_cons2. split; [exact Hno|].
      exists (sep :: p). split.
      * cbn [app]. f_equal. exact Hs.
      * right. destruct Hp as [->|(q & ->)].
        -- now exists [].
        -- now exists (sep :: q).
    + rewrite Hw in *. destruct ws as [|w' ws'].
      * destruct (split_on_single sep s w Hw) as [-> Hc].
        cbn [List.last]. split.
        -- unfold str_contains in *. simpl. rewrite Hc, orb_false_r.
           apply N.eqb_neq. congruence.
        -- exists []. split; [reflexivity|now left].
      * rewrite last_cons2. rewrite last_cons2 in Hno, Hs.
        split; [exact Hno|].
        exists (c :: p). split; [cbn [app]; f_equal; exact Hs|].
        right. destruct Hp as [->|(q & ->)].
        -- exfalso. cbn [app] in Hs.
           assert (Hc : str_contains sep s = false) by (rewrite Hs; exact Hno).
           clear -Hw Hc. revert w w' ws' Hw.
           induction s as [|c s IH]; simpl; intros w w' ws' Hw; [discriminate|].
           unfold str_contains in Hc. simpl in Hc.
           apply orb_false_elim in Hc as [Hc1 Hc2].
           rewrite N.eqb_sym, Hc1 in Hw.
           destruct (split_on sep s) as [|x [|y xs]] eqn:Hx; inversion Hw; subst.
           eapply IH; [exact Hc2|reflexivity].
        -- now exists (c :: q).
Qed.

Lemma underscore_not_alnum : isalnum_char underscore = false.
Proof. reflexivity. Qed.

Lemma sanitize_chars (l : str) :
  Forall (fun c => c = underscore \/ isalnum_char c = true) (sanitize l).
Proof.
  induction l as [|c l IH]; simpl; constructor; auto.
  destruct (isalnum_char c) eqn:E; auto.
Qed.

Lemma sanitize_lookup (l : str) (i : nat) (c : N) :
  l !! i = Some c ->
  sanitize l !! i = Some (if isalnum_char c then c else underscore).
Proof.
  unfold sanitize. intros H.
  change (List.map ?f l) with (f <$> l).
  now rewrite list_lookup_fmap, H.
Qed.

Lemma remove_char_app (c : N) (a b : str) :
  remove_char c (a ++ b) = remove_char c a ++ remove_char c b.
Proof. unfold remove_char. apply List.filter_app. Qed.

Lemma sanitize_stripped (l : str) :
  List.forallb isalnum_char (remove_char underscore (sanitize l)) = true.
Proof.
  induction l as [|c l IH]; simpl; [reflexivity|].
  destruct (isalnum_char c) eqn:E; simpl.
  - destruct (N.eqb_spec c underscore) as [->|Hne]; simpl.
    + rewrite underscore_not_alnum in E. discriminate.
    + now rewrite E.
  - exact IH.
Qed.

(** The check on the final table name never fails: what is left of it
    without underscores starts with "user". *)
Lemma table_name_passes (l : str) :
  isalnum (remove_char underscore (table_name_of l)) = true.
Proof.
  unfold isalnum, table_name_of. rewrite !remove_char_app.
  apply andb_true_intro. split.
  - apply negb_true_iff, bool_decide_eq_false. discriminate.
  - rewrite !List.forallb_app, sanitize_stripped. reflexivity.
Qed.

Lemma derive_table_name_ok (s : str) :
  derive_table_name s = Ok (table_name_of (last_item (split_on colon s))).
Proof. unfold derive_table_name. now rewrite table_name_passes. Qed.

Lemma get_user_table_name_str (s : str) (w : world) :
  get_user_table_name (JStr s) w
  = (Ok (table_name_of (last_item (split_on colon s))), w).
Proof.
  unfold get_user_table_name, try_except, lift.
  now rewrite derive_table_name_ok.
Qed.

Lemma ascii_isalnum_char (c : N) :
  (c <? 128)%N = true -> isalnum_char c = ascii_alnum c.
Proof. unfold isalnum_char. now intros ->. Qed.

Lemma sanitize_ascii (l : str) :
  List.forallb (fun c => (c <? 128)%N) l = true ->
  List.forallb word_char (sanitize l) = true.
Proof.
  induction l as [|c l IH]; simpl; [reflexivity|].
  intros [Hc Hl]%andb_prop. rewrite (IH Hl), andb_true_r.
  rewrite (ascii_isalnum_char c Hc). unfold word_char.
  destruct (ascii_alnum c) eqn:E; [now rewrite E|reflexivity].
Qed.

(** C6 (as amended).  On every str the derivation returns
    "user_" + L' + "_listening_activity", where L is the part of the
    identifier after its last ':' and L' is L with each character that
    [str.isalnum] rejects replaced by '_'.  The name is made of '_' and
    alphanumeric characters, and of [A-Za-z0-9_] alone when the identifier
    is ASCII.  No str makes the derivation fail. *)
Theorem table_name_derivation (s : str) (w : world) :
  let l := last_item (split_on colon s) in
  (str_contains colon l = false /\
   exists p, s = p ++ l /\ (p = [] \/ exists q, p = q ++ [colon])) /\
  get_user_table_name (JStr s) w
  = (Ok (py "user_" ++ sanitize l ++ py "_listening_activity"), w) /\
  length (sanitize l) = length l /\
  (forall i c, l !! i = Some c ->
     sanitize l !! i = Some (if isalnum_char c then c else underscore)) /\
  Forall (fun c => c = underscore \/ isalnum_char c = true)
    (py "user_" ++ sanitize l ++ py "_listening_activity") /\
  (List.forallb (fun c => (c <? 128)%N) s = true ->
   List.forallb word_char (py "user_" ++ sanitize l ++ py "_listening_activity")
   = true).
Proof.
  intros l. destruct (last_item_split colon s) as (Hno & p & Hs & Hp).
  fold l in Hno, Hs. repeat split.
  - exact Hno.
  - exists p. auto.
  - apply get_user_table_name_str.
  - unfold sanitize. apply List.length_map.
  - apply sanitize_lookup.
  - rewrite !Forall_app. repeat split.
    + repeat constructor; right; reflexivity.
    + apply sanitize_chars.
    + repeat constructor; first [left; reflexivity | right; reflexivity].
  - intros Hs'. rewrite !List.forallb_app.
    rewrite sanitize_ascii; [reflexivity|].
    rewrite Hs, List.forallb_app in Hs'. now apply andb_prop in Hs'.
Qed.

(** ** filter_active_friends *)






(** ** with_db_retry *)

Lemma back_off_effect (t : Z) (w : world) :
  back_off t w
  = (Ok tt,
     World (disk w) (if thread_conn w is Some _ then None else tx w) None
       (next_conn w) (faults w) (clock w + t) (slept w ++ [t])
       (log w ++ [(WARNING, py "Database locked, retrying")])).
Proof.
  unfold back_off, bind, logger, time_sleep, close_db_connection. simpl.
  destruct (thread_conn w); reflexivity.
Qed.

Lemma retry_loop_contended {A} (delay : Z) (func : M A) (n k : nat)
    (attempt : Z) (first : option exn) (w : world) :
  contended delay func n attempt w = true ->
  retry_loop delay func (n + k) attempt first w
  = retry_loop delay func k (attempt + Z.of_nat n)
      (last_contention delay func n attempt w first)
      (after_contention delay func n attempt w) /\
  retry_attempts delay func (n + k) attempt w
  = (n + retry_attempts delay func k (attempt + Z.of_nat n)
           (after_contention delay func n attempt w))%nat.
Proof.
  revert attempt first w. induction n as [|n IH]; intros attempt first w H.
  - simpl. now rewrite Z.add_0_r.
  - simpl in H. cbn [Nat.add retry_loop retry_attempts last_contention after_contention].
    destruct (func w) as [[a|e] w'] eqn:Hf; [discriminate|].
    apply andb_prop in H as [Hl Hc]. rewrite Hl. cbn [snd].
    destruct (IH (attempt + 1) (Some e) _ Hc) as [IH1 IH2].
    replace (attempt + Z.of_nat (S n)) with (attempt + 1 + Z.of_nat n) by lia.
    split.
    + unfold bind at 1. rewrite back_off_effect. rewrite back_off_effect in IH1.
      exact IH1.
    + now rewrite IH2.
Qed.

Lemma last_contention_locked {A} (delay : Z) (func : M A) (n : nat)
    (attempt : Z) (w : world) (first : option exn) :
  contended delay func (S n) attempt w = true ->
  exists e, last_contention delay func (S n) attempt w first = Some e /\
            is_locked e = true.
Proof.
  revert attempt w first. induction n as [|n IH]; intros attempt w first H.
  - simpl in *. destruct (func w) as [[a|e] w']; [discriminate|].
    apply andb_prop in H as [H _]. eauto.
  - cbn [contended] in H. cbn [last_contention].
    destruct (func w) as [[a|e] w']; [discriminate|].
    apply andb_prop in H as [_ H]. apply (IH _ _ (Some e) H).
Qed.

Lemma after_contention_last {A} (delay : Z) (func : M A) (n : nat)
    (attempt : Z) (w : world) :
  after_contention delay func (S n) attempt w
  = snd (back_off (delay * 2 ^ (attempt + Z.of_nat n))
           (snd (func (after_contention delay func n attempt w)))).
Proof.
  revert attempt w. induction n as [|n IH]; intros attempt w.
  - simpl. now rewrite Z.add_0_r.
  - cbn [after_contention] in *. rewrite IH.
    now replace (attempt + 1 + Z.of_nat n) with (attempt + Z.of_nat (S n)) by lia.
Qed.

(** C2.  The wrapper as the methods use it (3 attempts, base delay 1).
    A failure that is not lock contention leaves the wrapper at once, at
    whatever attempt it occurs.  After [N < 3] contended attempts a
    successful call is returned, [N + 1] calls having been made.  After
    three contended attempts the error of the third is raised.  Before
    the attempt that follows contended attempt number [n] the wrapper
    sleeps [1 * 2^n] seconds and closes the thread's connection, so that
    the next [get_db_connection] opens a new one. *)
Theorem with_db_retry_contention {A} (func : M A) (w : world) :
  (forall N r w', (N < 3)%nat ->
     contended 1 func N 0 w = true ->
     func (after_contention 1 func N 0 w) = (r, w') ->
     match r with Ok _ => True | Raise e => is_locked e = false end ->
     with_db_retry 3 1 func w = (r, w') /\
     retry_attempts 1 func 3 0 w = S N) /\
  (contended 1 func 3 0 w = true ->
     exists e, last_contention 1 func 3 0 w None = Some e /\
       is_locked e = true /\
       with_db_retry 3 1 func w = (Raise e, after_contention 1 func 3 0 w) /\
       retry_attempts 1 func 3 0 w = 3%nat) /\
  (forall n, after_contention 1 func (S n) 0 w
     = snd (back_off (2 ^ Z.of_nat n)
              (snd (func (after_contention 1 func n 0 w))))) /\
  (forall t w0,
     let w1 := snd (back_off t w0) in
     fst (back_off t w0) = Ok tt /\
     slept w1 = slept w0 ++ [t] /\ thread_conn w1 = None /\
     disk w1 = disk w0 /\
     get_db_connection w1
     = (Ok (next_conn w0),
        World (disk w1) (tx w1) (Some (next_conn w0)) (S (next_conn w0))
          (faults w1) (clock w1) (slept w1) (log w1))).
Proof.
  split; [|split; [|split]].
  - intros N r w' HN Hc Hf Hr. unfold with_db_retry.
    replace 3%nat with (N + S (2 - N))%nat by lia.
    destruct (retry_loop_contended 1 func N (S (2 - N)) 0 None w Hc) as [-> ->].
    cbn [retry_loop retry_attempts]. rewrite Hf.
    destruct r as [a|e]; [split; [reflexivity|lia]|].
    rewrite Hr. split; [reflexivity|lia].
  - intros Hc. destruct (last_contention_locked 1 func 2 0 w None Hc) as (e & He & Hl).
    exists e. split; [exact He|]. split; [exact Hl|].
    destruct (retry_loop_contended 1 func 3 0 0 None w Hc) as [H1 H2].
    unfold with_db_retry. cbn [Nat.add] in H1, H2. rewrite H1, H2, He.
    split; reflexivity.
  - intros n. rewrite after_contention_last. now rewrite Z.mul_1_l, Z.add_0_l.
  - intros t w0. rewrite back_off_effect. cbn. repeat split.
Qed.

(** ** store_activity: the checks *)

Lemma retry_first {A} (delay : Z) (func : M A) (n : nat) (w : world)
    (r : result A) (w' : world) :
  func w = (r, w') ->
  match r with Ok _ => True | Raise e => is_locked e = false end ->
  retry_loop delay func (S n) 0 None w = (r, w').
Proof.
  intros Hf Hr. cbn [retry_loop]. rewrite Hf.
  destruct r as [a|e]; [reflexivity|]. now rewrite Hr.
Qed.

Lemma store_activity_body_candidate (e : json) (w : world) :
  store_activity_body e w
  = try_except
      (match candidate e with
       | Raise x => raise x
       | Ok (Rejected msg) => logger ERROR msg
       | Ok (Accepted u t) =>
           do conn <- get_db_connection;
           store_rows conn e u t
       end)
      any_exception
      (fun x => logger ERROR "Error storing activity" ;;
                logger ERROR "Activity data" ;; raise x) w.
Proof.
  unfold store_activity_body, candidate, try_except.
  destruct (isinstance_dict e); cbn [negb]; [|reflexivity].
  unfold bind at 1, lift at 1, rbind at 1.
  repeat match goal with
         | |- context [dict_get ?a ?b ?c] =>
             destruct (dict_get a b c); cbn [bind lift rbind]; [|reflexivity]
         end.
  destruct (negb (truthy a) || negb (truthy a0)); [reflexivity|].
  repeat match goal with
         | |- context [dict_get ?a ?b ?c] =>
             destruct (dict_get a b c); cbn [bind lift rbind uri]; [|reflexivity]
         end.
  destruct (truthy a4); cbn [negb bind lift rbind ret orb]; [|reflexivity].
  destruct (contains_colon a4) as [[]|]; cbn [negb bind lift rbind ret orb];
    try reflexivity.
  repeat match goal with
         | |- context [dict_get ?a ?b ?c] =>
             destruct (dict_get a b c); cbn [bind lift rbind uri]; [|reflexivity]
         end.
  reflexivity.
Qed.

Lemma rbind_Ok {A B} (r : result A) (k : A -> result B) (b : B) :
  rbind r k = Ok b -> exists a, r = Ok a /\ k a = Ok b.
Proof. destruct r; simpl; [eauto|discriminate]. Qed.

Lemma dict_get_Ok (o : json) (k : string) (d v : json) :
  dict_get o (py k) d = Ok v -> isinstance_dict o = true /\ v = field o k d.
Proof.
  destruct o; simpl; try discriminate. intros [= <-]. auto.
Qed.

Lemma truthy_dict (o : json) :
  isinstance_dict o = true -> truthy o = true ->
  exists kv, o = JObj kv /\ kv <> [].
Proof.
  destruct o as [| | | | |kv]; try discriminate. intros _ H.
  exists kv. split; [reflexivity|]. intros ->. discriminate.
Qed.

(** What an accepted candidate went through. *)
Lemma candidate_accepted (e : json) (u : User) (t : Track) :
  candidate e = Ok (Accepted u t) ->
  let user_data := field e "user" (JObj []) in
  let track_data := field e "track" (JObj []) in
  isinstance_dict e = true /\
  isinstance_dict user_data = true /\ truthy user_data = true /\
  isinstance_dict track_data = true /\ truthy track_data = true /\
  truthy (uri u) = true /\ contains_colon (uri u) = Ok true /\
  u = MkUser (listener_id e) (field user_data "name" (JStr (py "Unknown")))
        (py_or (field user_data "imageUrl" JNull) (field user_data "image_url" JNull)) /\
  t = MkTrack (track_id e) (field track_data "name" (JStr (py "Unknown")))
        (py_or (field track_data "imageUrl" JNull) (field track_data "image_url" JNull))
        (field (field track_data "album" (JObj [])) "uri" JNull)
        (field (field track_data "album" (JObj [])) "name" JNull)
        (field (field track_data "artist" (JObj [])) "uri" JNull)
        (field (field track_data "artist" (JObj [])) "name" JNull)
        (field (field track_data "context" (JObj [])) "uri" JNull)
        (field (field track_data "context" (JObj [])) "name" JNull)
        (field (field track_data "context" (JObj [])) "index" JNull).
Proof.
  unfold candidate. intros H.
  destruct (isinstance_dict e) eqn:He; [|discriminate]. cbn [negb] in H.
  apply rbind_Ok in H as (ud & Hud & H). apply dict_get_Ok in Hud as [_ ->].
  apply rbind_Ok in H as (td & Htd & H). apply dict_get_Ok in Htd as [_ ->].
  apply rbind_Ok in H as (al & Hal & H). apply dict_get_Ok in Hal as [Htd ->].
  apply rbind_Ok in H as (ar & Har & H). apply dict_get_Ok in Har as [_ ->].
  apply rbind_Ok in H as (cx & Hcx & H). apply dict_get_Ok in Hcx as [_ ->].
  destruct (truthy (field e "user" (JObj []))) eqn:Tu; [|discriminate].
  destruct (truthy (field e "track" (JObj []))) eqn:Tt; [|discriminate].
  cbn [negb orb] in H.
  apply rbind_Ok in H as (uu & Huu & H). apply dict_get_Ok in Huu as [Hud ->].
  apply rbind_Ok in H as (un & Hun & H). apply dict_get_Ok in Hun as [_ ->].
  apply rbind_Ok in H as (i1 & Hi1 & H). apply dict_get_Ok in Hi1 as [_ ->].
  apply rbind_Ok in H as (i2 & Hi2 & H). apply dict_get_Ok in Hi2 as [_ ->].
  apply rbind_Ok in H as (hc & Hhc & H).
  fold (listener_id e) in *.
  destruct (truthy (listener_id e)) eqn:Tl; cbn [negb orb] in *;
    [|discriminate].
  destruct hc; [|discriminate]. cbn [negb] in H.
  repeat (let x := fresh in let Hx := fresh in
          apply rbind_Ok in H as (x & Hx & H);
          apply dict_get_Ok in Hx as [_ ->]).
  injection H as <- <-. cbn [uri]. repeat split; auto.
Qed.

Lemma rbind_Raise {A B} (r : result A) (k : A -> result B) (x : exn) :
  rbind r k = Raise x -> r = Raise x \/ exists a, r = Ok a /\ k a = Raise x.
Proof. destruct r; simpl; [eauto|intros [= ->]; auto]. Qed.

Lemma dict_get_Raise (o : json) (k : str) (d : json) (x : exn) :
  dict_get o k d = Raise x -> x = AttributeError.
Proof. destruct o; simpl; congruence. Qed.

(** The checks raise only what a wrong type raises. *)
Lemma candidate_raises (e : json) (x : exn) :
  candidate e = Raise x -> x = AttributeError \/ x = TypeError.
Proof.
  unfold candidate. intros H.
  destruct (negb (isinstance_dict e)); [discriminate|].
  repeat (apply rbind_Raise in H as [H|(? & _ & H)];
          [apply dict_get_Raise in H; auto|]).
  destruct (_ || _); [discriminate|].
  repeat (apply rbind_Raise in H as [H|(? & _ & H)];
          [apply dict_get_Raise in H; auto|]).
  apply rbind_Raise in H as [H|(? & _ & H)].
  - destruct (negb _); [discriminate|]. unfold contains_colon in H.
    match type of H with
    | match ?v with _ => _ end = _ => destruct v
    end; try discriminate; injection H as <-; auto.
  - destruct (_ || _); [discriminate|].
    repeat (apply rbind_Raise in H as [H|(? & _ & H)];
            [apply dict_get_Raise in H; auto|]).
    discriminate.
Qed.

Lemma dict_get_field (o : json) (k : string) (d : json) :
  isinstance_dict o = true -> dict_get o (py k) d = Ok (field o k d).
Proof. destruct o; simpl; congruence. Qed.

Lemma create_user_table_not_str (v : json) (w : world) :
  match v with JStr _ => False | _ => True end ->
  exists w', create_user_table v w = (Raise AttributeError, w') /\
    disk w' = disk w /\ tx w' = tx w.
Proof.
  intros Hv. unfold create_user_table, with_db_retry. eexists. split.
  - apply retry_first with (r := Raise AttributeError); [|reflexivity].
    unfold create_user_table_body, get_user_table_name, try_except, bind,
      raise, logger.
    destruct v; try contradiction; cbn; reflexivity.
  - cbn. auto.
Qed.

Lemma store_rows_not_str (conn : nat) (e : json) (u : User) (t : Track)
    (w : world) :
  match uri u with JStr _ => False | _ => True end ->
  exists w', store_rows conn e u t w = (Raise AttributeError, w') /\
    disk w' = disk w /\ tx w' = tx w.
Proof.
  intros Hu. destruct (create_user_table_not_str (uri u) w Hu) as (w' & Hc & Hd & Ht).
  exists w'. unfold store_rows, bind, try_except. rewrite Hc. cbn. auto.
Qed.

(** Unless a candidate passes the checks, a call changes neither the
    database nor the open transaction, and it ends without contention. *)
Lemma store_activity_body_rejected (e : json) (w : world) :
  accepted e = false ->
  exists r w', store_activity_body e w = (r, w') /\
    disk w' = disk w /\ tx w' = tx w /\
    match r with Ok _ => True | Raise x => is_locked x = false end.
Proof.
  intros Hacc. rewrite store_activity_body_candidate.
  destruct (candidate e) as [[msg|u t]|x] eqn:Hc.
  - eexists _, _. cbn. eauto.
  - destruct (candidate_accepted e u t Hc)
      as (He & Hud & Tu & Htd & Tt & Tl & Hcol & -> & _).
    cbn [uri] in *. unfold accepted in Hacc. rewrite He, Tu, Tt in Hacc.
    cbn [andb] in Hacc.
    assert (Hns : match listener_id e with JStr _ => False | _ => True end).
    { destruct (listener_id e) as [| | |s| |]; auto.
      simpl in Hacc, Tl, Hcol. injection Hcol as Hcol.
      rewrite Tl, Hcol in Hacc. discriminate. }
    unfold try_except, bind at 1.
    destruct (get_db_connection w) as [[c|x] w1] eqn:Hg.
    + assert (disk w1 = disk w /\ tx w1 = tx w) as [Hd1 Ht1].
      { unfold get_db_connection in Hg. destruct (thread_conn w);
          injection Hg as <- <-; auto. }
      edestruct (store_rows_not_str c e) as (w' & -> & Hd & Ht);
        [exact Hns|].
      eexists _, _. cbn. rewrite Hd, Ht. eauto.
    + unfold get_db_connection in Hg. destruct (thread_conn w); discriminate.
  - destruct (candidate_raises e x Hc) as [-> | ->];
      eexists _, _; cbn; eauto.
Qed.

(** C1 (as amended).  [store_activity] stores a candidate only if it is a
    dict whose user and track entries are not empty and whose listener
    identifier is a non-empty str with a ':'; the track identifier is not
    looked at.  In every other case the call leaves the database and the
    open transaction as they were.  When the candidate and its user and
    track entries are dicts and the listener identifier is a str or
    missing, such a call returns normally and only adds an error record
    to the log. *)
Theorem store_activity_checks (e : json) (w : world) :
  accepted e = false ->
  (disk (snd (store_activity e w)) = disk w /\
   tx (snd (store_activity e w)) = tx w) /\
  (isinstance_dict e = true ->
   isinstance_dict (field e "user" (JObj [])) = true ->
   isinstance_dict (field e "track" (JObj [])) = true ->
   match listener_id e with JStr _ | JNull => True | _ => False end ->
   exists msg, store_activity e w = (Ok tt, logged ERROR msg w)).
Proof.
  intros Hacc. split.
  - destruct (store_activity_body_rejected e w Hacc) as (r & w' & Hb & Hd & Ht & Hr).
    unfold store_activity, with_db_retry.
    rewrite (retry_first 1 _ 2 w r w' Hb Hr). auto.
  - intros He Hu Ht Hl.
    assert (Hc : exists msg, candidate e = Ok (Rejected msg)).
    { unfold candidate. rewrite He. cbn [negb].
      rewrite !(dict_get_field e) by assumption. cbn [rbind].
      rewrite !(dict_get_field (field e "track" (JObj []))) by assumption.
      cbn [rbind].
      unfold accepted in Hacc. rewrite He in Hacc. cbn [andb] in Hacc.
      destruct (truthy (field e "user" (JObj []))); cbn [negb orb]; [|eauto].
      destruct (truthy (field e "track" (JObj []))); cbn [negb orb]; [|eauto].
      rewrite !(dict_get_field (field e "user" (JObj []))) by assumption.
      cbn [rbind]. fold (listener_id e). cbn [andb] in Hacc.
      destruct (listener_id e) as [| | |s| |]; try contradiction;
        cbn [truthy negb rbind orb]; [eauto|].
      simpl in Hacc. destruct (negb (bool_decide (s = []))); cbn [negb rbind orb];
        [|eauto].
      cbn [contains_colon rbind]. simpl in Hacc. rewrite Hacc. cbn. eauto. }
    destruct Hc as (msg & Hc). exists msg.
    unfold store_activity, with_db_retry.
    apply retry_first; [|exact I].
    rewrite store_activity_body_candidate, Hc. reflexivity.
Qed.

(** ** Reasoning about runs *)

(** [spec m w Q]: running [m] in state [w] gives an outcome and a final
    state related by [Q]. *)
Definition spec {A} (m : M A) (w : world) (Q : result A -> world -> Prop) : Prop :=
  Q (fst (m w)) (snd (m w)).

Lemma spec_run {A} (m : M A) (w : world) (Q : result A -> world -> Prop)
    (r : result A) (w' : world) :
  spec m w Q -> m w = (r, w') -> Q r w'.
Proof. unfold spec. intros H E. now rewrite E in H. Qed.

Lemma spec_weaken {A} (m : M A) (w : world) (Q Q' : result A -> world -> Prop) :
  spec m w Q -> (forall r w', Q r w' -> Q' r w') -> spec m w Q'.
Proof. unfold spec. auto. Qed.

Lemma spec_ret {A} (a : A) (w : world) (Q : result A -> world -> Prop) :
  Q (Ok a) w -> spec (ret a) w Q.
Proof. exact (fun H => H). Qed.

Lemma spec_raise {A} (e : exn) (w : world) (Q : result A -> world -> Prop) :
  Q (Raise e) w -> spec (raise e) w Q.
Proof. exact (fun H => H). Qed.

Lemma spec_lift {A} (r : result A) (w : world) (Q : result A -> world -> Prop) :
  Q r w -> spec (lift r) w Q.
Proof. exact (fun H => H). Qed.

Lemma spec_bind {A B} (m : M A) (k : A -> M B) (w : world)
    (Q : result B -> world -> Prop) :
  spec m w (fun r w1 =>
    match r with
    | Ok a => spec (k a) w1 Q
    | Raise e => Q (Raise e) w1
    end) ->
  spec (bind m k) w Q.
Proof.
  unfold spec, bind. destruct (m w) as [[a|e] w1]; simpl; auto.
Qed.

Lemma spec_try {A} (body : M A) (catches : exn -> bool) (handler : exn -> M A)
    (w : world) (Q : result A -> world -> Prop) :
  spec body w (fun r w1 =>
    match r with
    | Ok a => Q (Ok a) w1
    | Raise e => if catches e then spec (handler e) w1 Q else Q (Raise e) w1
    end) ->
  spec (try_except body catches handler) w Q.
Proof.
  unfold spec, try_except. destruct (body w) as [[a|e] w1]; simpl; auto.
  destruct (catches e); auto.
Qed.

Lemma spec_logger (l : level) (msg : string) (w : world)
    (Q : result unit -> world -> Prop) :
  Q (Ok tt) (logged l msg w) -> spec (logger l msg) w Q.
Proof. exact (fun H => H). Qed.

Lemma spec_sleep (s : Z) (w : world) (Q : result unit -> world -> Prop) :
  Q (Ok tt) (World (disk w) (tx w) (thread_conn w) (next_conn w) (faults w)
               (clock w + s) (slept w ++ [s]) (log w)) ->
  spec (time_sleep s) w Q.
Proof. exact (fun H => H). Qed.

Lemma spec_time (w : world) (Q : result Z -> world -> Prop) :
  Q (Ok (clock w)) w -> spec time_time w Q.
Proof. exact (fun H => H). Qed.

Lemma spec_get_db_connection (w : world) (Q : result nat -> world -> Prop) :
  Q (Ok (conn_of w)) (connected w) -> spec get_db_connection w Q.
Proof.
  unfold spec, get_db_connection, conn_of, connected.
  destruct w as [d t [c|] n f cl sl lg]; simpl; auto.
Qed.

Lemma live_connected (w : world) : live (conn_of w) (connected w) = true.
Proof. unfold live, connected. cbn. now apply bool_decide_eq_true_2. Qed.

Lemma spec_cursor_of (c : nat) (w : world) (Q : result nat -> world -> Prop) :
  (live c w = true -> Q (Ok c) w) ->
  (live c w = false -> Q (Raise closed_database) w) ->
  spec (cursor_of c) w Q.
Proof. unfold spec, cursor_of. destruct (live c w); simpl; auto. Qed.

Lemma spec_rollback (c : nat) (w : world) (Q : result unit -> world -> Prop) :
  (live c w = true -> Q (Ok tt) (set_store (disk w) None w)) ->
  (live c w = false -> Q (Raise closed_database) w) ->
  spec (rollback c) w Q.
Proof. unfold spec, rollback. destruct (live c w); simpl; auto. Qed.

(** The engine's answer to a step: a failure, or none. *)
Lemma spec_commit (c : nat) (w : world) (Q : result unit -> world -> Prop) :
  (live c w = false -> Q (Raise closed_database) w) ->
  (live c w = true -> forall cls msg rest,
     faults w = Some (cls, msg) :: rest ->
     Q (Raise (SqliteError cls msg)) (set_faults rest w)) ->
  (live c w = true -> hd None (faults w) = None ->
     Q (Ok tt) (set_store (view w) None (set_faults (tl (faults w)) w))) ->
  spec (commit c) w Q.
Proof.
  unfold spec, commit, next_fault. intros H1 H2 H3.
  destruct (live c w); simpl; [|auto].
  specialize (H2 eq_refl). specialize (H3 eq_refl).
  destruct w as [d t oc n f cl sl lg]. cbn in *.
  destruct f as [|[[cls msg]|] rest]; cbn in *; eauto.
Qed.

Lemma spec_executescript (c : nat) (script : db -> db) (w : world)
    (Q : result unit -> world -> Prop) :
  (live c w = false -> Q (Raise closed_database) w) ->
  (live c w = true -> forall cls msg rest,
     faults w = Some (cls, msg) :: rest ->
     Q (Raise (SqliteError cls msg)) (set_faults rest w)) ->
  (live c w = true -> hd None (faults w) = None ->
     Q (Ok tt) (set_store (script (view w)) None (set_faults (tl (faults w)) w))) ->
  spec (executescript c script) w Q.
Proof.
  unfold spec, executescript, next_fault. intros H1 H2 H3.
  destruct (live c w); simpl; [|auto].
  specialize (H2 eq_refl). specialize (H3 eq_refl).
  destruct w as [d t oc n f cl sl lg]. cbn in *.
  destruct f as [|[[cls msg]|] rest]; cbn in *; eauto.
Qed.

Lemma spec_execute {P A} (c : nat) (k : stmt_kind) (prepare : db -> option exn)
    (params : result P) (run : P -> db -> result (A * db)) (w : world)
    (Q : result A -> world -> Prop) :
  (live c w = false -> Q (Raise closed_database) w) ->
  (live c w = true -> forall e, prepare (view w) = Some e -> Q (Raise e) w) ->
  (live c w = true -> prepare (view w) = None ->
     forall e, params = Raise e -> Q (Raise e) (begin_for k w)) ->
  (live c w = true -> prepare (view w) = None ->
     forall cls msg rest, faults w = Some (cls, msg) :: rest ->
     Q (Raise (SqliteError cls msg)) (set_faults rest (begin_for k w))) ->
  (live c w = true -> prepare (view w) = None -> hd None (faults w) = None ->
     forall p, params = Ok p ->
     match run p (view w) with
     | Raise e => Q (Raise e) (set_faults (tl (faults w)) (begin_for k w))
     | Ok (a, d) =>
         Q (Ok a) (write_back k d (set_faults (tl (faults w)) (begin_for k w)))
     end) ->
  spec (execute c k prepare params run) w Q.
Proof.
  unfold spec, execute, next_fault. intros H1 H2 H3 H4 H5.
  destruct (live c w); simpl; [|auto].
  specialize (H2 eq_refl). specialize (H3 eq_refl). specialize (H4 eq_refl).
  specialize (H5 eq_refl).
  destruct (prepare (view w)) as [e|] eqn:Hp; simpl; [eauto|].
  specialize (H3 eq_refl). specialize (H4 eq_refl). specialize (H5 eq_refl).
  destruct params as [p|e]; [|eauto].
  destruct w as [d t oc n f cl sl lg].
  destruct f as [|[[cls msg]|] rest]; cbn [faults begin_for set_faults set_store
    disk tx thread_conn next_conn clock slept log hd tl] in *.
  - specialize (H5 eq_refl p eq_refl).
    destruct k, t; cbn in *; destruct (run p _) as [[a d']|e]; exact H5.
  - destruct k, t; cbn in *; eauto.
  - specialize (H5 eq_refl p eq_refl).
    destruct k, t; cbn in *; destruct (run p _) as [[a d']|e]; exact H5.
Qed.

Lemma spec_eq {A} (m : M A) (w : world) (Q : result A -> world -> Prop)
    (r : result A) (w' : world) :
  m w = (r, w') -> Q r w' -> spec m w Q.
Proof. unfold spec. now intros ->. Qed.

Lemma back_off_recycled (t : Z) (w : world) :
  back_off t w = (Ok tt, recycled t w).
Proof.
  unfold back_off, bind, logger, time_sleep, close_db_connection, recycled.
  simpl. destruct (thread_conn w); reflexivity.
Qed.

(** The rule of the retry loop: [I] holds whenever an attempt starts. *)
Lemma spec_retry {A} (delay : Z) (func : M A) (I : world -> Prop)
    (Q : result A -> world -> Prop) :
  (forall w, I w ->
     spec func w (fun r w' =>
       match r with
       | Ok a => Q (Ok a) w'
       | Raise e =>
           if is_locked e
           then forall t, I (recycled t w') /\ Q (Raise e) (recycled t w')
           else Q (Raise e) w'
       end)) ->
  forall n attempt first w,
    I w ->
    (n = 0%nat -> Q (Raise (default TypeError first)) w) ->
    spec (retry_loop delay func n attempt first) w Q.
Proof.
  intros Hf n. induction n as [|n IH]; intros attempt first w HI H0.
  - specialize (H0 eq_refl). destruct first; exact H0.
  - specialize (Hf w HI). unfold spec in *. cbn [retry_loop].
    destruct (func w) as [[a|e] w']; cbn [fst snd] in *; [exact Hf|].
    destruct (is_locked e); [|exact Hf].
    unfold bind. rewrite back_off_recycled.
    destruct (Hf (delay * 2 ^ attempt)) as [HI' HQ].
    apply IH; [exact HI'|]. intros _. exact HQ.
Qed.

Lemma spec_with_connection {A} (body : nat -> M A) (w : world)
    (Q : result A -> world -> Prop) :
  spec (body (conn_of w)) (connected w) (fun r w1 =>
    match r with
    | Ok a =>
        spec (commit (conn_of w)) w1 (fun r2 w2 =>
          match r2 with
          | Ok _ => Q (Ok a) w2
          | Raise e =>
              spec (rollback (conn_of w)) w2 (fun r3 w3 =>
                match r3 with
                | Ok _ => Q (Raise e) w3
                | Raise e' => Q (Raise e') w3
                end)
          end)
    | Raise e =>
        spec (rollback (conn_of w)) w1 (fun r3 w3 =>
          match r3 with
          | Ok _ => Q (Raise e) w3
          | Raise e' => Q (Raise e') w3
          end)
    end) ->
  spec (with_connection body) w Q.
Proof.
  intros H. unfold with_connection. apply spec_bind, spec_get_db_connection.
  unfold spec in *. destruct (body (conn_of w) (connected w)) as [[a|e] w1];
    cbn [fst snd] in *.
  - unfold bind, try_except.
    destruct (commit (conn_of w) w1) as [[[]|e] w2]; cbn [fst snd] in *;
      [exact H|].
    cbn [any_exception]. unfold raise.
    destruct (rollback (conn_of w) w2) as [[[]|e'] w3]; cbn [fst snd] in *;
      exact H.
  - unfold bind, raise.
    destruct (rollback (conn_of w) w1) as [[[]|e'] w3]; cbn [fst snd] in *;
      exact H.
Qed.

Ltac wsimpl :=
  cbn [disk tx thread_conn next_conn faults clock slept log set_store
       set_faults logged connected recycled write_back begin_for hd tl
       fst snd] in *.

Ltac vsimpl := unfold view in *; wsimpl; cbn [from_option id] in *.

Ltac mstep :=
  lazymatch goal with
  | |- spec (bind _ _) _ _ => apply spec_bind
  | |- spec (try_except _ _ _) _ _ => apply spec_try
  | |- spec (ret _) _ _ => apply spec_ret
  | |- spec (raise _) _ _ => apply spec_raise
  | |- spec (lift _) _ _ => apply spec_lift
  | |- spec (logger _ _) _ _ => apply spec_logger
  | |- spec (time_sleep _) _ _ => apply spec_sleep
  | |- spec time_time _ _ => apply spec_time
  | |- spec get_db_connection _ _ => apply spec_get_db_connection
  | |- spec (with_connection _) _ _ => apply spec_with_connection
  | |- spec (cursor_of _) _ _ => apply spec_cursor_of; intros
  | |- spec (rollback _) _ _ => apply spec_rollback; intros
  | |- spec (commit _) _ _ => apply spec_commit; intros
  | |- spec (executescript _ _) _ _ => apply spec_executescript; intros
  | |- spec (execute _ _ _ _ _) _ _ => apply spec_execute; intros
  end; cbv beta iota; cbn [any_exception is_sqlite_error];
  try (unfold no_params in *; discriminate).

Lemma live_logged (c : nat) (l : level) (m : string) (w : world) :
  live c (logged l m w) = live c w.
Proof. reflexivity. Qed.

Lemma live_set_store (c : nat) (d : db) (t : option db) (w : world) :
  live c (set_store d t w) = live c w.
Proof. reflexivity. Qed.

Lemma live_set_faults (c : nat) f (w : world) :
  live c (set_faults f w) = live c w.
Proof. reflexivity. Qed.

Lemma live_begin_for (c : nat) (k : stmt_kind) (w : world) :
  live c (begin_for k w) = live c w.
Proof. now destruct k. Qed.

Lemma live_write_back (c : nat) (k : stmt_kind) (d : db) (w : world) :
  live c (write_back k d w) = live c w.
Proof. destruct k; [reflexivity..|]. unfold write_back. now destruct (tx w). Qed.

Lemma view_connected (w : world) : view (connected w) = view w.
Proof. reflexivity. Qed.

Lemma faults_connected (w : world) : faults (connected w) = faults w.
Proof. reflexivity. Qed.

(** Closes a branch in which a live connection is found closed, or the
    reverse. *)
Ltac dead :=
  repeat match goal with
  | H : live _ _ = _ |- _ =>
      rewrite ?live_logged, ?live_set_store, ?live_set_faults, ?live_begin_for,
        ?live_write_back, ?live_connected in H
  end; congruence.

(** ** The history queries *)

Lemma get_user_activity_no_table (s : str) (st en : option Z) (w : world) :
  streams (view w) !! sql_fold (table_name_of (last_item (split_on colon s)))
  = None ->
  spec (get_user_activity (JStr s) st en) w
    (fun r _ => r = Raise (PandasDatabaseError (py "Execution failed on sql"))).
Proof.
  intros H. unfold get_user_activity. mstep.
  eapply spec_eq; [apply get_user_table_name_str|]. cbv beta iota.
  mstep. unfold read_sql_query. mstep. mstep. mstep; [|dead]. mstep.
  all: try dead.
  all: try (exfalso; unfold first_error, table_missing in *;
            rewrite view_connected, H in *; discriminate).
  repeat (mstep; try dead).
Qed.

Lemma registry_listing_empty (d : db) :
  user_tables d = Some [] -> registry_listing d = [].
Proof. unfold registry_listing. now intros ->. Qed.

Lemma empty_registry_frame (dflt : list (json * json) -> nat -> M dataframe)
    (w : world) :
  user_tables (view w) = Some [] -> faults w = [] ->
  spec (with_connection (fun conn =>
          do cursor <- cursor_of conn;
          do entries <- execute cursor Query registry_missing no_params
                          (fun _ d => Ok (registry_listing d, d));
          if bool_decide (entries = []) then ret empty_frame
          else dflt entries conn)) w
    (fun r w' => r = Ok empty_frame /\ disk w' = view w /\ tx w' = None).
Proof.
  intros Hr Hf. mstep. mstep. mstep; [|dead]. mstep. mstep.
  all: try dead.
  all: try (exfalso; wsimpl; rewrite ?view_connected, ?Hf in *;
            unfold registry_missing, no_params in *; rewrite ?Hr in *;
            discriminate).
  rewrite view_connected, registry_listing_empty by exact Hr.
  cbn [bool_decide decide_rel]. rewrite bool_decide_eq_true_2 by reflexivity.
  mstep. mstep.
  all: try dead.
  - exfalso. wsimpl. rewrite Hf in *. discriminate.
  - wsimpl. auto.
Qed.

(** C9.  [get_user_activity] on a listener whose table does not exist
    fails with the DatabaseError of pandas; the two queries over all
    listeners return an empty frame when the registry is empty (and no
    engine step fails). *)
Theorem history_of_unseen_listener (s : str) (st en start : option Z)
    (w : world) :
  (streams (view w) !! sql_fold (table_name_of (last_item (split_on colon s)))
   = None ->
   exists w', get_user_activity (JStr s) st en w
              = (Raise (PandasDatabaseError (py "Execution failed on sql")), w')) /\
  (user_tables (view w) = Some [] -> faults w = [] ->
   (exists w', get_all_user_activities start w = (Ok empty_frame, w')) /\
   (exists w', get_all_time_activity w = (Ok empty_frame, w'))).
Proof.
  split.
  - intros H. pose proof (get_user_activity_no_table s st en w H) as Hs.
    unfold spec in Hs.
    destruct (get_user_activity (JStr s) st en w) as [r w']. simpl in Hs.
    subst r. eauto.
  - intros Hr Hf. split.
    + unfold get_all_user_activities.
      match goal with
      | |- exists w', with_connection (fun conn => do cursor <- _; do entries <- _;
             if _ then _ else @?f entries conn) _ = _ =>
          pose proof (empty_registry_frame f w Hr Hf) as Hs
      end.
      unfold spec in Hs.
      match type of Hs with fst (?m w) = _ /\ _ => destruct (m w) as [r w'] end.
      destruct Hs as [Hs _]. simpl in Hs. subst r. eauto.
    + unfold get_all_time_activity.
      match goal with
      | |- exists w', with_connection (fun conn => do cursor <- _; do entries <- _;
             if _ then _ else @?f entries conn) _ = _ =>
          pose proof (empty_registry_frame f w Hr Hf) as Hs
      end.
      unfold spec in Hs.
      match type of Hs with fst (?m w) = _ /\ _ => destruct (m w) as [r w'] end.
      destruct Hs as [Hs _]. simpl in Hs. subst r. eauto.
Qed.

(** ** run_collection_loop *)


Lemma collection_pass_returns (interval : Z) (fetched : result (list json))
    (w : world) :
  fst (collection_pass interval fetched w) = Ok tt.
Proof.
  unfold collection_pass, try_except.
  match goal with |- context [let (_, _) := ?m w in _] => destruct (m w) as [[[]|e] w1] end;
    reflexivity.
Qed.


(** ** create_user_table *)

Lemma spec_retry_first {A} (delay : Z) (func : M A) (n : nat) (attempt : Z)
    (first : option exn) (w : world) (Q : result A -> world -> Prop) :
  spec func w (fun r w' =>
    match r with
    | Ok a => Q (Ok a) w'
    | Raise e =>
        if is_locked e
        then spec (retry_loop delay func n (attempt + 1) (Some e))
               (recycled (delay * 2 ^ attempt) w') Q
        else Q (Raise e) w'
    end) ->
  spec (retry_loop delay func (S n) attempt first) w Q.
Proof.
  unfold spec. cbn [retry_loop].
  destruct (func w) as [[a|e] w']; cbn [fst snd]; [auto|].
  destruct (is_locked e); [|auto].
  unfold bind. now rewrite back_off_recycled.
Qed.

Lemma view_clean (w : world) : tx w = None -> view w = disk w.
Proof. unfold view. now intros ->. Qed.

(** Runs the steps of a method body, closing the branches that clash with
    the state of the connection. *)
Ltac mrun := repeat (mstep; try dead).

(** One attempt of [create_user_table] when the table is there: the
    attempt reads sqlite_master and returns the derived name, and fails
    only if that read fails. *)
Lemma create_user_table_body_existing (s : str) (w : world) :
  tx w = None ->
  master_has_table (table_name_of (last_item (split_on colon s))) (disk w) = true ->
  spec (create_user_table_body (JStr s)) w (fun r w' =>
    disk w' = disk w /\ tx w' = None /\
    match r with
    | Ok h => h = table_name_of (last_item (split_on colon s)) /\
              hd None (faults w) = None /\ faults w' = tl (faults w) /\
              thread_conn w' = Some (conn_of w)
    | Raise e => hd None (faults w) <> None
    end).
Proof.
  intros Ht Hm. unfold create_user_table_body.
  mstep. mstep. eapply spec_eq; [apply get_user_table_name_str|]. cbv beta iota.
  mstep. mstep. mstep. mstep; [|dead]. mstep. mstep.
  all: try dead.
  - mrun. wsimpl. rewrite H2. repeat split; [exact Ht|discriminate].
  - rewrite view_connected, (view_clean w Ht), Hm. cbn [negb].
    mstep. wsimpl. repeat split; auto.
Qed.

Lemma create_user_table_existing (s : str) (w : world) :
  tx w = None ->
  master_has_table (table_name_of (last_item (split_on colon s))) (disk w) = true ->
  spec (create_user_table (JStr s)) w (fun r w' =>
    disk w' = disk w /\ tx w' = None /\
    (forall h, r = Ok h -> h = table_name_of (last_item (split_on colon s))) /\
    (hd None (faults w) = None ->
     r = Ok (table_name_of (last_item (split_on colon s))) /\
     faults w' = tl (faults w) /\ thread_conn w' = Some (conn_of w))).
Proof.
  intros Ht Hm. unfold create_user_table, with_db_retry.
  apply spec_retry_first.
  eapply spec_weaken; [apply create_user_table_body_existing; assumption|].
  intros [h|e] w' (Hd & Ht' & Hr).
  - destruct Hr as (-> & Hf & Hf' & Hc). repeat split; auto. congruence.
  - destruct (is_locked e).
    + apply spec_retry
        with (I := fun w1 => disk w1 = disk w /\ tx w1 = None).
      * intros w1 [Hd1 Ht1].
        eapply spec_weaken;
          [apply create_user_table_body_existing; [exact Ht1|now rewrite Hd1]|].
        intros [h|e1] w2 (Hd2 & Ht2 & Hr2).
        -- destruct Hr2 as (-> & _).
           repeat split; try congruence; intros; contradiction.
        -- destruct (is_locked e1).
           ++ intros t. unfold recycled. cbn.
              destruct (thread_conn w2); repeat split; try congruence;
                intros; try discriminate; contradiction.
           ++ repeat split; try congruence; intros; try discriminate; contradiction.
      * unfold recycled. cbn. destruct (thread_conn w'); split; congruence.
      * discriminate.
    + repeat split; try congruence; intros; try discriminate; contradiction.
Qed.
Ltac msplit := repeat match goal with |- _ /\ _ => split end.

Arguments conn_of : simpl never.
Arguments create_stream_table : simpl never.
Arguments create_stream_index : simpl never.
Arguments replace_registry : simpl never.
Arguments master_has_table : simpl never.
Arguments table_name_of : simpl never.

Lemma table_name_not_core (l : str) (k : string) :
  (String.length k < 24)%nat -> str_eqb (table_name_of l) (py k) = false.
Proof.
  intros Hk. apply bool_decide_eq_false. intros H.
  apply (f_equal (@length N)) in H. unfold table_name_of, py in H.
  rewrite !length_app, !List.length_map in H.
  assert (Hl : forall s, length (list_ascii_of_string s) = String.length s).
  { induction s; simpl; congruence. }
  rewrite !Hl in H. simpl in H. lia.
Qed.

(** sqlite_master has the derived name exactly when the table stored under
    its folded name was created with this very name. *)
Lemma master_has_derived (l : str) (d : db) :
  master_has_table (table_name_of l) d
  = match streams d !! sql_fold (table_name_of l) with
    | Some t => str_eqb (st_name t) (table_name_of l)
    | None => false
    end.
Proof.
  unfold master_has_table.
  rewrite !table_name_not_core by (simpl; lia). reflexivity.
Qed.

Lemma provisioned_refl (n : str) (d : db) : provisioned n d d.
Proof. unfold provisioned. auto. Qed.

Lemma provisioned_trans (n : str) (d0 d1 d2 : db) :
  provisioned n d0 d1 -> provisioned n d1 d2 -> provisioned n d0 d2.
Proof.
  unfold provisioned.
  intros (Hu1 & Ht1 & Hs1 & Hi1) (Hu2 & Ht2 & Hs2 & Hi2).
  msplit; try congruence.
  - destruct Hs1 as [Hs1|[Hn1 Hs1]], Hs2 as [Hs2|[Hn2 Hs2]].
    + left. congruence.
    + right. rewrite Hs2, <- Hs1. split; [congruence|reflexivity].
    + right. split; [exact Hn1|congruence].
    + rewrite Hs1, lookup_insert_eq in Hn2. discriminate.
  - destruct Hi1 as [Hi1|Hi1], Hi2 as [Hi2|Hi2]; rewrite Hi2, Hi1;
      [now left|now right|now right|].
    right. now rewrite (assoc_L (∪)), union_idemp_L.
Qed.

Lemma provisioned_created (n : str) (d : db) :
  provisioned n d (create_stream_table n d) /\
  is_Some (streams (create_stream_table n d) !! sql_fold n) /\
  user_tables (create_stream_table n d) = user_tables d.
Proof.
  unfold provisioned, create_stream_table.
  destruct (streams d !! sql_fold n) eqn:E; cbn.
  - rewrite E. msplit; eauto.
  - rewrite lookup_insert_eq. msplit; eauto.
Qed.

Lemma provisioned_indexed (n : str) (d0 d d' : db) :
  create_stream_index n d = Ok d' ->
  provisioned n d0 d ->
  indexes d = indexes d0 ->
  provisioned n d0 d' /\ streams d' = streams d /\
  user_tables d' = user_tables d.
Proof.
  unfold create_stream_index, provisioned.
  intros H (Hu & Ht & Hs & Hi) Hi0.
  destruct (bool_decide _); [injection H as <-; repeat split; auto|].
  destruct (streams d !! sql_fold n); [|discriminate].
  injection H as <-. cbn. rewrite Hi0. repeat split; auto.
Qed.

Lemma replace_registry_Ok (r : registry_row) (d d' : db) :
  replace_registry r d = Ok d' ->
  users d' = users d /\ tracks d' = tracks d /\ streams d' = streams d /\
  indexes d' = indexes d /\
  exists t, user_tables d = Some t /\
            user_tables d' = Some (replace_into r_user_uri r t).
Proof.
  unfold replace_registry. destruct (user_tables d) as [t|]; [|discriminate].
  repeat (destruct (bool_decide _); [discriminate|]).
  intros [= <-]. cbn. msplit; eauto.
Qed.

Lemma registry_params_Ok (s n : str) (now : Z) (r : registry_row) :
  registry_params (JStr s) n now = Ok r ->
  r = RegistryRow (VText s) (VText n) (VInt now).
Proof.
  unfold registry_params. cbn.
  destruct (_ && _); [|discriminate]. now intros [= <-].
Qed.

(** One attempt of [create_user_table] outside of a transaction: it adds
    at most the table and its index; the registry changes only when the
    attempt succeeds. *)
Lemma create_user_table_body_spec (s : str) (w : world) :
  tx w = None ->
  spec (create_user_table_body (JStr s)) w (fun r w' =>
    let n := table_name_of (last_item (split_on colon s)) in
    provisioned n (disk w) (disk w') /\ is_Some (thread_conn w') /\
    match r with
    | Ok h => h = n /\ tx w' = None /\ is_Some (streams (disk w') !! sql_fold n) /\
              registered s n (disk w) (disk w') /\
              (master_has_table n (disk w') = true \/
               sql_fold (index_name n) ∈ indexes (disk w'))
    | Raise e => user_tables (disk w') = user_tables (disk w)
    end).
Proof.
  intros Ht. unfold create_user_table_body.
  destruct w as [d t c nx f cl sl lg]. cbn in Ht. subst t.
  set (n := table_name_of _).
  mstep. mstep. eapply spec_eq; [apply get_user_table_name_str|]. cbv beta iota.
  mstep. mstep. mstep. mstep; [|dead]. mstep. mstep.
  all: try dead.
  - mrun. vsimpl. msplit; eauto using provisioned_refl.
  - vsimpl. fold n. destruct (master_has_table n d) eqn:Hm; cbn [negb].
    + mstep. vsimpl. msplit; eauto using provisioned_refl.
      * unfold n in Hm. rewrite master_has_derived in Hm. fold n in Hm.
        destruct (streams d !! sql_fold n); [eauto|discriminate].
      * now left.
    + destruct (provisioned_created n d) as (Hp1 & Hs1 & Hr1).
      mstep. mstep. mstep. mstep. all: try dead.
      * mrun. vsimpl. msplit; eauto using provisioned_refl.
      * mstep. mstep. all: try dead.
        -- mrun. vsimpl. msplit; eauto.
        -- vsimpl. destruct (create_stream_index n _) as [d2|e] eqn:Hi.
           ++ destruct (provisioned_indexed n d _ d2 Hi Hp1) as (Hp2 & Hs2 & Hr2).
              { unfold create_stream_table. destruct (streams d !! _); reflexivity. }
              mstep. mstep. mstep. mstep. all: try dead.
              all: try (mrun; vsimpl; msplit; eauto; congruence).
              vsimpl.
              match goal with
              | H : registry_params _ _ _ = Ok _ |- _ =>
                  apply registry_params_Ok in H; subst
              end.
              destruct (replace_registry _ d2) as [d3|e] eqn:Hrr.
              ** apply replace_registry_Ok in Hrr as (Hu3 & Ht3 & Hs3 & Hi3 & t & Hr3 & Hr3').
                 mstep. mstep. all: try dead.
                 --- mrun. vsimpl. msplit; eauto; congruence.
                 --- mstep. vsimpl. msplit; eauto.
                     +++ destruct Hp2 as (? & ? & ? & ?).
                         unfold provisioned. msplit; congruence.
                     +++ congruence.
                     +++ right. exists t, cl. split; [congruence|exact Hr3'].
                     +++ right. rewrite Hi3. clear -Hi.
                         unfold create_stream_index in Hi.
                         destruct (bool_decide _) eqn:E.
                         *** injection Hi as <-. now apply bool_decide_eq_true_1 in E.
                         *** destruct (streams _ !! _); [|discriminate].
                             injection Hi as <-. cbn.
                             apply elem_of_union_l. now apply elem_of_singleton_2.
              ** mrun. vsimpl. msplit; eauto; congruence.
           ++ mrun. vsimpl. msplit; eauto.
Qed.

Lemma create_user_table_spec (s : str) (w : world) :
  tx w = None ->
  spec (create_user_table (JStr s)) w (fun r w' =>
    let n := table_name_of (last_item (split_on colon s)) in
    provisioned n (disk w) (disk w') /\
    match r with
    | Ok h => h = n /\ tx w' = None /\ is_Some (streams (disk w') !! sql_fold n) /\
              registered s n (disk w) (disk w') /\
              (master_has_table n (disk w') = true \/
               sql_fold (index_name n) ∈ indexes (disk w'))
    | Raise e => user_tables (disk w') = user_tables (disk w) /\
                 (is_locked e = true -> tx w' = None /\ thread_conn w' = None) /\
                 (thread_conn w' = None -> tx w' = None)
    end).
Proof.
  intros Ht. unfold create_user_table, with_db_retry.
  set (n := table_name_of (last_item (split_on colon s))).
  apply spec_retry
    with (I := fun w1 => tx w1 = None /\ provisioned n (disk w) (disk w1) /\
                         user_tables (disk w1) = user_tables (disk w)).
  - intros w1 (Ht1 & Hp1 & Hr1).
    eapply spec_weaken; [apply create_user_table_body_spec; exact Ht1|].
    fold n. cbv zeta. intros [h|e] w2 (Hp2 & Hc2 & Hrest).
    + destruct Hrest as (-> & Ht2 & Hs2 & Hreg2 & Hidx).
      msplit; eauto using provisioned_trans.
      unfold registered in *. now rewrite Hr1 in Hreg2.
    + pose proof (provisioned_trans n _ _ _ Hp1 Hp2) as Hp.
      destruct (is_locked e) eqn:El.
      * intros t. unfold recycled. cbn. destruct Hc2 as [c Hc2]. rewrite Hc2.
        msplit; auto; congruence.
      * msplit; auto; [congruence|discriminate|].
        destruct Hc2 as [c Hc2]. congruence.
  - msplit; auto using provisioned_refl.
  - discriminate.
Qed.

Lemma filter_length_le {A} (f : A -> bool) (l : list A) :
  (length (List.filter f l) <= length l)%nat.
Proof.
  induction l as [|x l IH]; simpl; [lia|]. destruct (f x); simpl; lia.
Qed.

(** After INSERT OR REPLACE the key of the new row is borne by that row
    alone, and no other key by more rows than before. *)
Lemma replace_into_count {R} (key : R -> sqlval) (r : R) (t : list R) (k : sqlval) :
  k <> VNull ->
  length (List.filter (fun x => bool_decide (key x = k)) (replace_into key r t))
  = if bool_decide (key r = k) then 1%nat
    else length (List.filter (fun x => bool_decide (key x = k)) t).
Proof.
  intros Hk. unfold replace_into. rewrite List.filter_app, length_app.
  cbn [List.filter]. destruct (bool_decide (key r = k)) eqn:E.
  - apply bool_decide_eq_true_1 in E. cbn [length].
    replace (List.filter _ (List.filter _ t)) with (@nil R); [reflexivity|].
    symmetry. induction t as [|x t IH]; [reflexivity|]. cbn [List.filter].
    destruct (key_conflict (key x) (key r)) eqn:C; cbn [negb]; [exact IH|].
    cbn [List.filter]. destruct (bool_decide (key x = k)) eqn:E2; [|exact IH].
    apply bool_decide_eq_true_1 in E2. exfalso.
    rewrite E, E2 in C. destruct k; try congruence;
      cbn in C; now rewrite bool_decide_eq_true_2 in C.
  - cbn [length]. rewrite Nat.add_0_r. f_equal.
    induction t as [|x t IH]; [reflexivity|]. cbn [List.filter].
    destruct (key_conflict (key x) (key r)) eqn:C; cbn [negb].
    + destruct (bool_decide (key x = k)) eqn:E2; [|exact IH].
      apply bool_decide_eq_true_1 in E2. exfalso.
      apply bool_decide_eq_false_1 in E. apply E.
      unfold key_conflict in C. rewrite E2 in C.
      destruct k, (key r); try discriminate; try congruence;
        now apply bool_decide_eq_true_1 in C.
    + cbn [List.filter]. destruct (bool_decide (key x = k)); [|exact IH].
      cbn [length]. now rewrite IH.
Qed.

Lemma registered_unique (s n : str) (d d' : db) :
  registered s n d d' -> registry_unique d -> registry_unique d'.
Proof.
  unfold registry_unique, entries_of.
  intros [H|(t & c & H1 & H2)] Hu u; [rewrite H; apply Hu|].
  rewrite H2. cbn [default from_option id].
  rewrite (replace_into_count r_user_uri _ t (VText u)) by discriminate.
  destruct (bool_decide _); [lia|]. specialize (Hu u). now rewrite H1 in Hu.
Qed.

(** A further call when the table is there, under this name or another
    spelling of it, creates neither table nor index. *)
Lemma create_user_table_again (s : str) (w : world) :
  tx w = None ->
  is_Some (streams (disk w) !! sql_fold (table_name_of (last_item (split_on colon s)))) ->
  master_has_table (table_name_of (last_item (split_on colon s))) (disk w) = true \/
  sql_fold (index_name (table_name_of (last_item (split_on colon s))))
  ∈ indexes (disk w) ->
  spec (create_user_table (JStr s)) w (fun r w' =>
    streams (disk w') = streams (disk w) /\
    indexes (disk w') = indexes (disk w)).
Proof.
  intros Ht [t Hs] Hi.
  destruct (master_has_table _ (disk w)) eqn:Hm.
  - eapply spec_weaken; [apply create_user_table_existing; assumption|].
    intros r w' (-> & _). auto.
  - destruct Hi as [Hi|Hi]; [discriminate|].
    eapply spec_weaken; [apply create_user_table_spec; assumption|].
    cbv zeta. intros r w' ((_ & _ & Hs' & Hi') & _). split.
    + destruct Hs' as [Hs'|[Hn _]]; [exact Hs'|congruence].
    + destruct Hi' as [Hi'|Hi']; [exact Hi'|]. rewrite Hi'.
      apply subseteq_union_1_L, singleton_subseteq_l. exact Hi.
Qed.


(** *** Calls that meet no failure *)

Lemma spec_retry_ok {A} (delay : Z) (func : M A) (n : nat) (w : world)
    (Q : result A -> world -> Prop) :
  spec func w (fun r w' => (exists a, r = Ok a) /\ Q r w') ->
  spec (retry_loop delay func (S n) 0 None) w Q.
Proof.
  unfold spec. destruct (func w) as [r w'] eqn:Hf. cbn [fst snd].
  intros [(a & ->) HQ]. now rewrite (retry_first delay func n w (Ok a) w' Hf I).
Qed.

Lemma create_stream_index_after_create (n : str) (d : db) :
  exists d2, create_stream_index n (create_stream_table n d) = Ok d2.
Proof.
  unfold create_stream_index. destruct (bool_decide _); [eauto|].
  destruct (provisioned_created n d) as (_ & [t ->] & _). eauto.
Qed.

Lemma storable_params (s n : str) (now : Z) :
  storable now ->
  registry_params (JStr s) n now = Ok (RegistryRow (VText s) (VText n) (VInt now)).
Proof.
  unfold storable, registry_params. intros [H1 H2]. cbn.
  destruct (Z.leb_spec (- 2 ^ 63) now); [|lia].
  destruct (Z.ltb_spec now (2 ^ 63)); [|lia]. reflexivity.
Qed.

(** Closes a branch in which the engine fails although the schedule holds
    no failure. *)
Ltac quiet Hf :=
  exfalso; vsimpl; rewrite ?Hf in *; cbn [hd tl] in *; discriminate.

Lemma create_user_table_body_quiet (s : str) (w : world) :
  faults w = [] -> tx w = None -> is_Some (user_tables (disk w)) ->
  storable (clock w) ->
  spec (create_user_table_body (JStr s)) w (fun r w' =>
    let n := table_name_of (last_item (split_on colon s)) in
    r = Ok n /\ disk w' = provision s n (clock w) (disk w) /\ tx w' = None /\
    faults w' = [] /\ thread_conn w' = Some (conn_of w) /\
    next_conn w' = next_conn (connected w) /\ clock w' = clock w /\
    slept w' = slept w).
Proof.
  intros Hf Ht [t0 Hr] Hc. unfold create_user_table_body.
  destruct w as [d t c nx f cl sl lg]. cbn in Hf, Ht, Hr, Hc. subst t f.
  set (n := table_name_of _).
  mstep. mstep. eapply spec_eq; [apply get_user_table_name_str|]. cbv beta iota.
  mstep. mstep. mstep. mstep; [|dead]. mstep. mstep.
  all: try dead. all: try discriminate.
  vsimpl. fold n. unfold provision.
  destruct (master_has_table n d) eqn:Hm; cbn [negb].
  - mstep. vsimpl. msplit; auto.
  - destruct (create_stream_index_after_create n d) as (d2 & Hi).
    destruct (provisioned_created n d) as (Hp1 & Hs1 & Hr1).
    destruct (provisioned_indexed n d _ d2 Hi Hp1) as (Hp2 & Hs2 & Hr2).
    { unfold create_stream_table. destruct (streams d !! _); reflexivity. }
    rewrite Hi.
    assert (Hreg : exists d3,
      replace_registry (RegistryRow (VText s) (VText n) (VInt cl)) d2 = Ok d3).
    { unfold replace_registry. rewrite Hr2, Hr1, Hr. cbn. eauto. }
    destruct Hreg as (d3 & Hreg). rewrite Hreg.
    mstep. mstep. mstep. mstep. all: try dead. all: try discriminate.
    mstep. mstep. all: try dead. all: try discriminate.
    vsimpl. rewrite Hi.
    mstep. mstep. mstep. mstep. all: try dead. all: try discriminate.
    + exfalso. vsimpl. unfold registry_missing in *.
      rewrite Hr2, Hr1, Hr in *. discriminate.
    + exfalso. vsimpl. rewrite storable_params in * by exact Hc. discriminate.
    + vsimpl. rewrite storable_params in * by exact Hc.
      match goal with H : Ok _ = Ok _ |- _ => injection H as <- end.
      rewrite Hreg.
      mstep. mstep. all: try dead. all: try discriminate.
      mstep. vsimpl. msplit; auto.
Qed.

Lemma provision_registry (s n : str) (now : Z) (d : db) :
  is_Some (user_tables d) -> is_Some (user_tables (provision s n now d)).
Proof.
  intros H. unfold provision. destruct (master_has_table n d); [exact H|].
  destruct (create_stream_index _ _) as [d2|]; [|exact H].
  destruct (replace_registry _ d2) as [d3|] eqn:E; [|exact H].
  apply replace_registry_Ok in E as (_ & _ & _ & _ & t & _ & ->). eauto.
Qed.

Lemma create_user_table_quiet (s : str) (w : world) :
  faults w = [] -> tx w = None -> is_Some (user_tables (disk w)) ->
  storable (clock w) ->
  spec (create_user_table (JStr s)) w (fun r w' =>
    let n := table_name_of (last_item (split_on colon s)) in
    r = Ok n /\ disk w' = provision s n (clock w) (disk w) /\ tx w' = None /\
    faults w' = [] /\ thread_conn w' = Some (conn_of w) /\
    next_conn w' = next_conn (connected w) /\ clock w' = clock w /\
    slept w' = slept w).
Proof.
  intros Hf Ht Hr Hc. unfold create_user_table, with_db_retry.
  apply spec_retry_ok.
  eapply spec_weaken; [apply create_user_table_body_quiet; assumption|].
  cbv zeta. intros r w' (-> & H). split; [eauto|]. split; [reflexivity|exact H].
Qed.

(** C3 (as amended).  For calls made outside of a transaction: a call of
    [create_user_table] that returns gives the derived name, so two calls
    give the same handle; the first call adds at most the one empty table
    (with its index), a second call adds none; when sqlite_master already
    has the table, a call returns the derived name (if it returns) and
    leaves the database as it is, whether or not the registry has an
    entry; the registry keeps at most one entry per listener.  If no
    engine step fails, both calls return. *)
Theorem create_user_table_idempotent (s : str) (w : world) :
  tx w = None ->
  let n := table_name_of (last_item (split_on colon s)) in
  (forall h1 w1 r2 w2,
     create_user_table (JStr s) w = (Ok h1, w1) ->
     create_user_table (JStr s) w1 = (r2, w2) ->
     h1 = n /\ (forall h2, r2 = Ok h2 -> h2 = h1) /\
     provisioned n (disk w) (disk w1) /\
     streams (disk w2) = streams (disk w1) /\
     indexes (disk w2) = indexes (disk w1) /\
     (registry_unique (disk w) ->
      registry_unique (disk w1) /\ registry_unique (disk w2))) /\
  (master_has_table n (disk w) = true ->
   forall r w', create_user_table (JStr s) w = (r, w') ->
     disk w' = disk w /\ forall h, r = Ok h -> h = n) /\
  (faults w = [] -> is_Some (user_tables (disk w)) -> storable (clock w) ->
   exists w1 w2,
     create_user_table (JStr s) w = (Ok n, w1) /\
     create_user_table (JStr s) w1 = (Ok n, w2)).
Proof.
  intros Ht n. split; [|split].
  - intros h1 w1 r2 w2 H1 H2.
    pose proof (spec_run _ _ _ _ _ (create_user_table_spec s w Ht) H1) as S1.
    cbv zeta in S1. fold n in S1.
    destruct S1 as (Hp1 & -> & Ht1 & Hs1 & Hr1 & Hi1).
    pose proof (spec_run _ _ _ _ _ (create_user_table_spec s w1 Ht1) H2) as S2.
    cbv zeta in S2. fold n in S2. destruct S2 as (Hp2 & S2).
    pose proof (spec_run _ _ _ _ _
                  (create_user_table_again s w1 Ht1 Hs1 Hi1) H2) as [Hs2 Hi2].
    msplit; auto.
    + intros h2 ->. now destruct S2 as (-> & _).
    + intros Hu. pose proof (registered_unique s n _ _ Hr1 Hu) as Hu1.
      split; [exact Hu1|]. destruct r2 as [h2|e].
      * destruct S2 as (_ & _ & _ & Hr2 & _).
        exact (registered_unique s n _ _ Hr2 Hu1).
      * destruct S2 as (Hr2 & _). unfold registry_unique, entries_of in *.
        now rewrite Hr2.
  - intros Hm r w' H.
    pose proof (spec_run _ _ _ _ _ (create_user_table_existing s w Ht Hm) H)
      as (Hd & _ & Hh & _).
    auto.
  - intros Hf Hr Hc.
    pose proof (create_user_table_quiet s w Hf Ht Hr Hc) as S1.
    unfold spec in S1. cbv zeta in S1. fold n in S1.
    destruct (create_user_table (JStr s) w) as [r1 w1] eqn:H1. cbn [fst snd] in S1.
    destruct S1 as (-> & Hd1 & Ht1 & Hf1 & Hc1 & Hn1 & Hcl1 & _).
    assert (Hr1 : is_Some (user_tables (disk w1))).
    { rewrite Hd1. now apply provision_registry. }
    assert (Hc1' : storable (clock w1)) by now rewrite Hcl1.
    pose proof (create_user_table_quiet s w1 Hf1 Ht1 Hr1 Hc1') as S2.
    unfold spec in S2. cbv zeta in S2. fold n in S2.
    destruct (create_user_table (JStr s) w1) as [r2 w2] eqn:H2. cbn [fst snd] in S2.
    destruct S2 as (-> & Hd2 & _).
    exists w1, w2. msplit; auto.
Qed.

(** ** store_activity: the writes *)

Lemma stable_refl (d : db) : stable d d.
Proof. unfold stable. auto. Qed.

Lemma stable_trans (d0 d1 d2 : db) : stable d0 d1 -> stable d1 d2 -> stable d0 d2.
Proof.
  unfold stable. intros (? & ? & H1) (? & ? & H2). msplit; try congruence.
Qed.

Lemma provisioned_stable (n : str) (d d' : db) : provisioned n d d' -> stable d d'.
Proof.
  unfold provisioned, stable, content. intros (Hu & Ht & Hs & _).
  msplit; auto. intros m. destruct Hs as [->|[Hn ->]]; [reflexivity|].
  destruct (decide (sql_fold n = m)) as [<-|Hne].
  - now rewrite lookup_insert_eq, Hn.
  - now rewrite lookup_insert_ne.
Qed.

Ltac mgo :=
  repeat first
    [ mstep; try dead
    | match goal with |- if ?b then _ else _ => destruct b eqn:? end ].

(** Ends a branch that fails: the handlers run, and what remains is that
    the committed rows are those of the start. *)
Ltac fail_fin :=
  mgo; vsimpl; msplit; eauto; intros; try congruence; try discriminate.

Arguments replace_user : simpl never.
Arguments replace_track : simpl never.
Arguments insert_activity : simpl never.
Arguments user_params : simpl never.
Arguments track_params : simpl never.
Arguments activity_params : simpl never.

Lemma store_rows_spec (conn : nat) (e : json) (u : User) (t : Track) (s : str)
    (w : world) :
  uri u = JStr s -> isinstance_dict e = true -> tx w = None ->
  spec (store_rows conn e u t) w (fun r w' =>
    let n := table_name_of (last_item (split_on colon s)) in
    match r with
    | Ok _ =>
        tx w' = None /\
        exists d1 ur tr a,
          stable (disk w) d1 /\ is_Some (streams d1 !! sql_fold n) /\
          user_params u = Ok ur /\ track_params t = Ok tr /\
          activity_params (field e "timestamp" JNull) t = Ok a /\
          ingest n ur tr a d1 = Ok (disk w')
    | Raise x =>
        stable (disk w) (disk w') /\ (thread_conn w' = None -> tx w' = None)
    end).
Proof.
  intros Hu He Ht. unfold store_rows. rewrite Hu.
  set (n := table_name_of (last_item (split_on colon s))).
  mstep. mstep.
  eapply spec_weaken; [apply create_user_table_spec; exact Ht|].
  fold n. cbv zeta. intros [h|x] w1 (Hp & H1).
  - destruct H1 as (-> & Ht1 & Hs1 & _).
    apply provisioned_stable in Hp.
    destruct w1 as [d1 t1 c1 nx1 f1 cl1 sl1 lg1]. cbn in Ht1, Hs1, Hp. subst t1.
    mstep. mstep. mstep.
    + match goal with
      | H : live _ _ = true |- _ =>
          apply bool_decide_eq_true_1 in H; cbn in H; subst c1
      end.
      mstep. mstep. all: try dead. all: try solve [fail_fin].
      vsimpl. destruct (replace_user p d1) as [d2|x] eqn:Hru; cbn [lift_db];
        [|solve [fail_fin]].
      mstep. mstep. all: try dead. all: try solve [fail_fin].
      vsimpl. destruct (replace_track p0 d2) as [d3|x] eqn:Hrt; cbn [lift_db];
        [|solve [fail_fin]].
      mstep. mstep. rewrite (dict_get_field e "timestamp" JNull He).
      mstep. mstep. all: try dead. all: try solve [fail_fin].
      vsimpl. destruct p1 as ((((ts, tu), cu), cn), ci).
      destruct (insert_activity n ts tu cu cn ci d3) as [d4|x] eqn:Hia;
        cbn [lift_db]; [|solve [fail_fin]].
      mstep. all: try dead. all: try solve [fail_fin].
      vsimpl. split; [reflexivity|].
      exists d1, p, p0, (ts, tu, cu, cn, ci). msplit; auto.
      unfold ingest. rewrite Hru. cbn [rbind]. rewrite Hrt. cbn [rbind]. exact Hia.
    + fail_fin.
  - destruct H1 as (Hr & Hl & Hc). apply provisioned_stable in Hp.
    fail_fin.
Qed.

Lemma spec_ext {A} (m m' : M A) (w : world) (Q : result A -> world -> Prop) :
  m w = m' w -> spec m' w Q -> spec m w Q.
Proof. unfold spec. now intros ->. Qed.

Lemma rows_of_event_Some (e : json) (s : str) (ur : user_row) (tr : track_row)
    (a : sqlval * sqlval * sqlval * sqlval * sqlval) :
  rows_of_event e = Some (s, ur, tr, a) ->
  exists u t,
    candidate e = Ok (Accepted u t) /\ uri u = JStr s /\
    user_params u = Ok ur /\ track_params t = Ok tr /\
    activity_params (field e "timestamp" JNull) t = Ok a /\
    isinstance_dict e = true /\ uri u = listener_id e /\
    track_uri t = track_id e.
Proof.
  unfold rows_of_event. destruct (candidate e) as [[msg|u t]|x] eqn:Hc;
    try discriminate.
  destruct (uri u) as [| | |s'| |] eqn:Hu; try discriminate.
  destruct (user_params u) as [ur'|] eqn:Hup; [|discriminate].
  destruct (track_params t) as [tr'|] eqn:Htp; [|discriminate].
  destruct (activity_params _ t) as [a'|] eqn:Hap; [|discriminate].
  intros [= <- <- <- <-].
  destruct (candidate_accepted e u t Hc) as (He & _ & _ & _ & _ & _ & _ & -> & ->).
  exists (MkUser (listener_id e) (field (field e "user" (JObj [])) "name" (JStr (py "Unknown")))
            (py_or (field (field e "user" (JObj [])) "imageUrl" JNull)
               (field (field e "user" (JObj [])) "image_url" JNull))).
  eexists. split; [reflexivity|]. cbn [uri track_uri] in *. msplit; auto.
Qed.

(** A call of [store_activity] on a candidate that can be stored, outside
    of a transaction and under any schedule of failures: when it returns,
    the three rows have been inserted, once, into the committed database
    (in which at most the empty table of the listener is new); when it
    raises, the committed users, tracks and listening rows are those of
    before. *)
Lemma store_activity_spec (e : json) (s : str) (ur : user_row) (tr : track_row)
    (a : sqlval * sqlval * sqlval * sqlval * sqlval) (w : world) :
  rows_of_event e = Some (s, ur, tr, a) -> tx w = None ->
  spec (store_activity e) w (fun r w' =>
    let n := table_name_of (last_item (split_on colon s)) in
    match r with
    | Ok _ =>
        tx w' = None /\
        exists d1, stable (disk w) d1 /\ is_Some (streams d1 !! sql_fold n) /\
                   ingest n ur tr a d1 = Ok (disk w')
    | Raise x => stable (disk w) (disk w')
    end).
Proof.
  intros He Ht.
  destruct (rows_of_event_Some e s ur tr a He)
    as (u & t & Hc & Hu & Hup & Htp & Hap & Hd & _).
  unfold store_activity, with_db_retry. cbv zeta.
  apply spec_retry
    with (I := fun w1 => tx w1 = None /\ stable (disk w) (disk w1)).
  - intros w1 [Ht1 Hs1].
    eapply spec_ext; [apply store_activity_body_candidate|]. rewrite Hc.
    mstep. mstep. mstep.
    eapply spec_weaken; [apply (store_rows_spec _ e u t s); auto|].
    cbv zeta. intros [[]|x] w2.
    + intros (Ht2 & d1 & ur' & tr' & a' & Hst & Hs & Hup' & Htp' & Hap' & Hi).
      split; [exact Ht2|]. exists d1.
      assert (ur' = ur) by congruence. assert (tr' = tr) by congruence.
      assert (a' = a) by congruence. subst.
      msplit; auto. eapply stable_trans; [exact Hs1|exact Hst].
    + intros [Hst Hc2]. cbn [any_exception]. mgo.
      * intros t0. unfold recycled. cbn.
        split; [split|]; try (eapply stable_trans; [exact Hs1|exact Hst]).
        destruct (thread_conn w2); auto.
      * cbn. eapply stable_trans; [exact Hs1|exact Hst].
  - split; [exact Ht|apply stable_refl].
  - discriminate.
Qed.

Lemma replace_user_Ok (r : user_row) (d d' : db) :
  replace_user r d = Ok d' ->
  users_missing d = None /\ u_name r <> VNull /\
  exists t, users d = Some t /\ users d' = Some (replace_into u_uri r t) /\
    tracks d' = tracks d /\ user_tables d' = user_tables d /\
    streams d' = streams d /\ indexes d' = indexes d.
Proof.
  unfold replace_user, users_missing. destruct (users d) as [t|]; [|discriminate].
  destruct (bool_decide _) eqn:E; [discriminate|].
  apply bool_decide_eq_false_1 in E. intros [= <-]. cbn. msplit; eauto 10.
Qed.

Lemma replace_track_Ok (r : track_row) (d d' : db) :
  replace_track r d = Ok d' ->
  tracks_missing d = None /\ t_name r <> VNull /\
  exists t, tracks d = Some t /\ tracks d' = Some (replace_into t_uri r t) /\
    users d' = users d /\ user_tables d' = user_tables d /\
    streams d' = streams d /\ indexes d' = indexes d.
Proof.
  unfold replace_track, tracks_missing. destruct (tracks d) as [t|]; [|discriminate].
  destruct (bool_decide _) eqn:E; [discriminate|].
  apply bool_decide_eq_false_1 in E. intros [= <-]. cbn. msplit; eauto 10.
Qed.

Lemma insert_activity_Ok (n : str) (ts tu cu cn ci : sqlval) (d d' : db) :
  insert_activity n ts tu cu cn ci d = Ok d' ->
  table_missing n d = None /\ ts <> VNull /\ tu <> VNull /\
  users d' = users d /\ tracks d' = tracks d /\ user_tables d' = user_tables d /\
  indexes d' = indexes d /\
  exists t, streams d !! sql_fold n = Some t /\
    streams d'
    = <[sql_fold n := StreamTable (st_name t)
          (st_rows t ++ [ActivityRow (next_rowid t) ts tu cu cn ci])
          (next_rowid t)]> (streams d).
Proof.
  unfold insert_activity, table_missing.
  destruct (streams d !! sql_fold n) as [t|]; [|discriminate].
  destruct (bool_decide (ts = VNull)) eqn:E1; [discriminate|].
  destruct (bool_decide (tu = VNull)) eqn:E2; [discriminate|].
  apply bool_decide_eq_false_1 in E1, E2. intros [= <-]. cbn. msplit; eauto.
Qed.

Lemma ingest_Ok (n : str) (ur : user_row) (tr : track_row)
    (ts tu cu cn ci : sqlval) (d d' : db) :
  ingest n ur tr (ts, tu, cu, cn, ci) d = Ok d' ->
  exists d2 d3,
    replace_user ur d = Ok d2 /\ replace_track tr d2 = Ok d3 /\
    insert_activity n ts tu cu cn ci d3 = Ok d'.
Proof.
  unfold ingest. intros H.
  apply rbind_Ok in H as (d2 & H2 & H). apply rbind_Ok in H as (d3 & H3 & H).
  eauto.
Qed.

Lemma store_rows_quiet (conn : nat) (e : json) (u : User) (t : Track) (s : str)
    (ur : user_row) (tr : track_row)
    (a : sqlval * sqlval * sqlval * sqlval * sqlval) (d' : db) (w : world) :
  uri u = JStr s -> isinstance_dict e = true ->
  user_params u = Ok ur -> track_params t = Ok tr ->
  activity_params (field e "timestamp" JNull) t = Ok a ->
  faults w = [] -> tx w = None -> thread_conn w = Some conn ->
  is_Some (user_tables (disk w)) -> storable (clock w) ->
  ingest (table_name_of (last_item (split_on colon s))) ur tr a
    (provision s (table_name_of (last_item (split_on colon s))) (clock w) (disk w))
  = Ok d' ->
  spec (store_rows conn e u t) w (fun r w' =>
    r = Ok tt /\ disk w' = d' /\ tx w' = None /\ faults w' = [] /\
    thread_conn w' = Some conn /\ clock w' = clock w /\ slept w' = slept w).
Proof.
  intros Hu He Hup Htp Hap Hf Ht Hc Hr Hcl Hi.
  destruct a as ((((ts, tu), cu), cn), ci).
  apply ingest_Ok in Hi as (d2 & d3 & Hru & Hrt & Hia).
  destruct (replace_user_Ok _ _ _ Hru) as (Hum & _).
  destruct (replace_track_Ok _ _ _ Hrt) as (Htm & _).
  destruct (insert_activity_Ok _ _ _ _ _ _ _ _ Hia) as (Hsm & _).
  unfold store_rows. rewrite Hu, Hup, Htp.
  set (n := table_name_of (last_item (split_on colon s))) in *.
  mstep. mstep.
  eapply spec_weaken; [apply create_user_table_quiet; assumption|].
  fold n. cbv zeta.
  intros r w1 (-> & Hd1 & Ht1 & Hf1 & Hc1 & _ & Hcl1 & Hsl1).
  assert (Hco : conn_of w = conn) by (unfold conn_of; now rewrite Hc).
  rewrite Hco in Hc1.
  destruct w1 as [d1 t1 c1 nx1 f1 cl1 sl1 lg1]. cbn in Hd1, Ht1, Hf1, Hc1, Hcl1, Hsl1.
  subst d1 t1 f1 c1 cl1 sl1.
  mstep. mstep. mstep; [|exfalso; unfold live in *; cbn in *;
                         now rewrite bool_decide_eq_true_2 in *].
  mstep. mstep. all: try dead. all: try discriminate.
  { exfalso. vsimpl. congruence. }
  vsimpl. match goal with H : Ok _ = Ok _ |- _ => injection H as <- end.
  rewrite Hru. cbn [lift_db].
  mstep. mstep. all: try dead. all: try discriminate.
  { exfalso. vsimpl. congruence. }
  vsimpl. match goal with H : Ok _ = Ok _ |- _ => injection H as <- end.
  rewrite Hrt. cbn [lift_db].
  mstep. mstep. rewrite (dict_get_field e "timestamp" JNull He). rewrite Hap.
  mstep. mstep. all: try dead. all: try discriminate.
  { exfalso. vsimpl. congruence. }
  vsimpl. match goal with H : Ok _ = Ok _ |- _ => injection H as <- end.
  rewrite Hia. cbn [lift_db].
  mstep. all: try dead. all: try discriminate.
  vsimpl. msplit; auto.
Qed.

(** ** store_activity: what a call stores *)

Lemma max_rowid_app (l l' : list activity_row) :
  max_rowid (l ++ l') = Z.max (max_rowid l) (max_rowid l').
Proof.
  unfold max_rowid. induction l as [|r l IH]; cbn [app fold_right].
  - assert (H : forall k, 0 <= fold_right (fun r m => Z.max (a_id r) m) 0 k).
    { induction k; cbn; lia. }
    specialize (H l'). lia.
  - rewrite IH. lia.
Qed.

Lemma max_rowid_nonneg (l : list activity_row) : 0 <= max_rowid l.
Proof. unfold max_rowid. induction l; cbn; lia. Qed.

Lemma content_insert (m k : str) (t : stream_table) (d d' : db) :
  streams d' = <[k := t]> (streams d) ->
  content m d' = if decide (k = m) then (st_rows t, st_seq t) else content m d.
Proof.
  unfold content. intros ->. destruct (decide (k = m)) as [->|H].
  - now rewrite lookup_insert_eq.
  - now rewrite lookup_insert_ne.
Qed.

(** The effect of the three INSERTs when none of them fails. *)
Lemma ingest_effect (n : str) (ur : user_row) (tr : track_row)
    (ts tu cu cn ci : sqlval) (d d' : db) :
  ingest n ur tr (ts, tu, cu, cn, ci) d = Ok d' ->
  let rows := fst (content (sql_fold n) d) in
  let id := Z.max (snd (content (sql_fold n) d)) (max_rowid rows) + 1 in
  users d' = Some (replace_into u_uri ur (default [] (users d))) /\
  tracks d' = Some (replace_into t_uri tr (default [] (tracks d))) /\
  user_tables d' = user_tables d /\ indexes d' = indexes d /\
  content (sql_fold n) d' = (rows ++ [ActivityRow id ts tu cu cn ci], id) /\
  (forall m, m <> sql_fold n -> content m d' = content m d) /\
  u_name ur <> VNull /\ t_name tr <> VNull /\ ts <> VNull /\ tu <> VNull.
Proof.
  intros H. apply ingest_Ok in H as (d2 & d3 & Hu & Ht & Ha).
  apply replace_user_Ok in Hu as (_ & Hun & t1 & Hu1 & Hu2 & Hu3 & Hu4 & Hu5 & Hu6).
  apply replace_track_Ok in Ht as (_ & Htn & t2 & Ht1 & Ht2 & Ht3 & Ht4 & Ht5 & Ht6).
  apply insert_activity_Ok in Ha
    as (_ & Hts & Htu & Ha1 & Ha2 & Ha3 & Ha4 & t & Hs & Hs').
  rewrite Ht5, Hu5 in Hs. rewrite Ht5, Hu5 in Hs'.
  assert (Hc : content (sql_fold n) d = (st_rows t, st_seq t))
    by (unfold content; now rewrite Hs).
  cbv zeta. rewrite Hc. cbn [fst snd].
  msplit; auto.
  - rewrite Ha1, Ht3, Hu2, Hu1. reflexivity.
  - rewrite Ha2, Ht2, <- Hu3, Ht1. reflexivity.
  - congruence.
  - congruence.
  - rewrite (content_insert _ _ _ _ _ Hs'). rewrite decide_True by reflexivity.
    reflexivity.
  - intros m Hm. rewrite (content_insert _ _ _ _ _ Hs').
    now rewrite decide_False by congruence.
Qed.

(** X1.  [store_activity] stores an event once or not at all.  For a
    candidate that passes the checks and whose values can be bound, called
    outside of a transaction, under any schedule of engine failures
    (retries included): if the call returns, the transaction is closed and
    the committed database is that of before with the user row and the
    track row upserted and one row appended to the listener's table, under
    the next rowid, every other listener table being as before; if the
    call raises, the committed users, tracks and listening rows are those
    of before the call. *)
Theorem store_activity_all_or_nothing
    (e : json) (s : str) (ur : user_row) (tr : track_row)
    (ts tu cu cn ci : sqlval) (w : world) (r : result unit) (w' : world) :
  rows_of_event e = Some (s, ur, tr, (ts, tu, cu, cn, ci)) ->
  integer_or_null ts = true -> integer_or_null ci = true ->
  tx w = None ->
  store_activity e w = (r, w') ->
  let m := sql_fold (table_name_of (last_item (split_on colon s))) in
  let rows := fst (content m (disk w)) in
  let id := Z.max (snd (content m (disk w))) (max_rowid rows) + 1 in
  match r with
  | Ok _ =>
      tx w' = None /\
      users (disk w')
      = Some (replace_into u_uri ur (default [] (users (disk w)))) /\
      tracks (disk w')
      = Some (replace_into t_uri tr (default [] (tracks (disk w)))) /\
      content m (disk w') = (rows ++ [ActivityRow id ts tu cu cn ci], id) /\
      (forall m', m' <> m -> content m' (disk w') = content m' (disk w))
  | Raise _ => stable (disk w) (disk w')
  end.
Proof.
  intros He _ _ Ht Hrun.
  pose proof (spec_run _ _ _ _ _ (store_activity_spec e s ur tr _ w He Ht) Hrun) as H.
  cbv zeta in *. destruct r as [[]|x]; [|exact H].
  destruct H as (Ht' & d1 & (Hsu & Hst & Hsc) & _ & Hi).
  apply ingest_effect in Hi as (Hu & Htr & _ & _ & Hc & Ho & _).
  cbv zeta in *. rewrite Hsu in Hu. rewrite Hst in Htr. rewrite Hsc in Hc.
  msplit; auto. intros m' Hm. rewrite (Ho m' Hm). apply Hsc.
Qed.

Lemma rows_of_event_keys (e : json) (s : str) (ur : user_row) (tr : track_row)
    (ts tu cu cn ci : sqlval) :
  rows_of_event e = Some (s, ur, tr, (ts, tu, cu, cn, ci)) ->
  u_uri ur = VText s /\ t_uri tr = tu /\
  exists v, adapt (track_id e) = Ok v /\ tu = text_affinity v.
Proof.
  intros H. apply rows_of_event_Some in H
    as (u & t & _ & Hu & Hup & Htp & Hap & _ & _ & Hti).
  unfold user_params, adapt3 in Hup. rewrite Hu in Hup. cbn [adapt] in Hup.
  destruct (adapt (name u)); [|discriminate].
  destruct (adapt (image_url u)); [|discriminate].
  injection Hup as <-. cbn [u_uri text_affinity].
  unfold track_params, adapt3 in Htp. unfold activity_params, adapt3 in Hap.
  rewrite Hti in *.
  destruct (adapt (track_id e)) as [v|]; [|discriminate].
  destruct (adapt (field e "timestamp" JNull)); [|discriminate].
  destruct (adapt (context_uri t)); [|discriminate].
  destruct (adapt (context_name t)); [|discriminate].
  destruct (adapt (context_index t)); [|discriminate].
  injection Hap as <- <- <- <- <-.
  destruct (adapt (track_name t)); [|discriminate].
  destruct (adapt (track_image_url t)); [|discriminate].
  destruct (adapt (album_uri t)); [|discriminate].
  destruct (adapt (album_name t)); [|discriminate].
  destruct (adapt (artist_uri t)); [|discriminate].
  destruct (adapt (artist_name t)); [|discriminate].
  injection Htp as <-. cbn [t_uri]. eauto.
Qed.

Lemma replace_into_last {R} (key : R -> sqlval) (r : R) (t : list R) :
  List.In r (replace_into key r t).
Proof. unfold replace_into. apply List.in_or_app. right. now left. Qed.

Lemma count_key_replace {R} (key : R -> sqlval) (r : R) (t : list R) :
  key r <> VNull ->
  count_key key (key r) (Some (replace_into key r t)) = 1%nat.
Proof.
  intros H. unfold count_key. cbn [default from_option id].
  rewrite (replace_into_count key r t (key r) H).
  now rewrite bool_decide_eq_true_2.
Qed.

(** X2.  Two sightings of the same listener with the same track.  For
    two candidates that pass the checks, carry the same listener
    identifier and the same track identifier, and are stored one after the
    other by calls that return (whatever failures and retries they met):
    afterwards the users table has exactly one row for the listener and
    the tracks table exactly one row for the track, both holding the values
    of the second candidate; the listener's table has the rows of before
    followed by the two new rows, in the order of the calls and with
    consecutive rowids; every other listener table is as before. *)
Theorem repeated_sighting_upsert
    (e1 e2 : json) (s : str) (ur1 ur2 : user_row) (tr1 tr2 : track_row)
    (ts1 tu1 cu1 cn1 ci1 ts2 tu2 cu2 cn2 ci2 : sqlval) (w w1 w2 : world) :
  rows_of_event e1 = Some (s, ur1, tr1, (ts1, tu1, cu1, cn1, ci1)) ->
  rows_of_event e2 = Some (s, ur2, tr2, (ts2, tu2, cu2, cn2, ci2)) ->
  track_id e1 = track_id e2 ->
  integer_or_null ts1 = true -> integer_or_null ci1 = true ->
  integer_or_null ts2 = true -> integer_or_null ci2 = true ->
  tx w = None ->
  store_activity e1 w = (Ok tt, w1) ->
  store_activity e2 w1 = (Ok tt, w2) ->
  let m := sql_fold (table_name_of (last_item (split_on colon s))) in
  let rows := fst (content m (disk w)) in
  let id := Z.max (snd (content m (disk w))) (max_rowid rows) + 1 in
  count_key u_uri (VText s) (users (disk w2)) = 1%nat /\
  List.In ur2 (default [] (users (disk w2))) /\ u_uri ur2 = VText s /\
  count_key t_uri tu2 (tracks (disk w2)) = 1%nat /\
  List.In tr2 (default [] (tracks (disk w2))) /\ t_uri tr2 = tu2 /\
  tu1 = tu2 /\
  content m (disk w2)
  = (rows ++ [ActivityRow id ts1 tu1 cu1 cn1 ci1;
              ActivityRow (id + 1) ts2 tu2 cu2 cn2 ci2], id + 1) /\
  (forall m', m' <> m -> content m' (disk w2) = content m' (disk w)).
Proof.
  intros He1 He2 Hid _ _ _ _ Ht H1 H2.
  pose proof (spec_run _ _ _ _ _ (store_activity_spec e1 s ur1 tr1 _ w He1 Ht) H1)
    as (Ht1 & d1 & (_ & _ & Hc1) & _ & Hi1).
  pose proof (spec_run _ _ _ _ _ (store_activity_spec e2 s ur2 tr2 _ w1 He2 Ht1) H2)
    as (Ht2 & d2 & (Hu2 & Htr2 & Hc2) & _ & Hi2).
  apply ingest_effect in Hi1 as (_ & _ & _ & _ & Hr1 & Ho1 & _).
  apply ingest_effect in Hi2
    as (Hu & Htr & _ & _ & Hr2 & Ho2 & _ & _ & _ & Htu2).
  destruct (rows_of_event_keys _ _ _ _ _ _ _ _ _ He1) as (_ & _ & v1 & Hv1 & ->).
  destruct (rows_of_event_keys _ _ _ _ _ _ _ _ _ He2) as (Hk2 & Hk2' & v2 & Hv2 & Htu).
  cbv zeta in *. rewrite Hc2, Hr1, Hc1 in Hr2. cbn [fst snd] in Hr2.
  msplit.
  - rewrite Hu, <- Hk2. apply count_key_replace. rewrite Hk2. discriminate.
  - rewrite Hu. apply replace_into_last.
  - exact Hk2.
  - rewrite Htr, <- Hk2'. apply count_key_replace. now rewrite Hk2'.
  - rewrite Htr. apply replace_into_last.
  - exact Hk2'.
  - rewrite Htu. rewrite Hid in Hv1. congruence.
  - rewrite Hr2, <- app_assoc. cbn [app]. rewrite max_rowid_app.
    cbn [max_rowid fold_right a_id].
    pose proof (max_rowid_nonneg (fst (content
      (sql_fold (table_name_of (last_item (split_on colon s)))) (disk w)))).
    f_equal; [f_equal; f_equal; f_equal; f_equal; lia|lia].
  - intros m' Hm. rewrite (Ho2 m' Hm), Hc2, (Ho1 m' Hm). apply Hc1.
Qed.

(** ** store_activity under lock contention *)

Lemma spec_inv {A} (m : M A) (w : world) (r : result A) (w' : world) :
  spec m w (fun r0 w0 => r0 = r /\ w0 = w') -> m w = (r, w').
Proof. unfold spec. destruct (m w). cbn. now intros [-> ->]. Qed.

Lemma is_locked_locked_error : is_locked locked_error = true.
Proof. vm_compute. reflexivity. Qed.

(** An attempt of [create_user_table] whose read of sqlite_master is
    refused. *)
Lemma create_user_table_body_locked (s : str) (w : world)
    (f : list (option (sqlite_class * str))) :
  faults w = locked :: f ->
  create_user_table_body (JStr s) w
  = (Raise locked_error,
     logged ERROR "Error creating table for user" (set_faults f (connected w))).
Proof.
  intros Hf. apply spec_inv. unfold create_user_table_body.
  mstep. mstep. eapply spec_eq; [apply get_user_table_name_str|]. cbv beta iota.
  mstep. mstep. mstep. mstep; [|dead]. mstep. mstep.
  all: try dead.
  - rewrite faults_connected, Hf in *. unfold locked in *.
    match goal with H : (_ :: _) = (_ :: _) |- _ => injection H as <- <- <- end.
    mstep. mstep. mstep. split; reflexivity.
  - exfalso. rewrite faults_connected, Hf in *. discriminate.
Qed.

(** [create_user_table] when the engine refuses its first step and none
    after it: the second attempt, on a new connection, does the work. *)
Lemma create_user_table_one_lock (s : str) (w : world) :
  faults w = [locked] -> is_Some (user_tables (disk w)) ->
  storable (clock w + 1) ->
  spec (create_user_table (JStr s)) w (fun r w' =>
    let n := table_name_of (last_item (split_on colon s)) in
    r = Ok n /\ disk w' = provision s n (clock w + 1) (disk w) /\ tx w' = None /\
    faults w' = [] /\ thread_conn w' = Some (next_conn (connected w)) /\
    clock w' = clock w + 1 /\ slept w' = slept w ++ [1]).
Proof.
  intros Hf Hr Hc. unfold create_user_table, with_db_retry.
  apply spec_retry_first.
  eapply spec_eq; [apply (create_user_table_body_locked s w [] Hf)|].
  cbv beta iota. rewrite is_locked_locked_error. change (1 * 2 ^ 0) with 1.
  apply spec_retry_first.
  eapply spec_weaken; [apply create_user_table_body_quiet|].
  - reflexivity.
  - reflexivity.
  - exact Hr.
  - exact Hc.
  - cbv zeta. intros r w' (-> & Hd & Ht & Hf' & Hcn & Hn & Hcl & Hsl).
    msplit; [reflexivity|exact Hd|exact Ht|exact Hf'|exact Hcn|exact Hcl|exact Hsl].
Qed.

Lemma stale_connection (w w1 : world) :
  numbered w -> thread_conn w1 = Some (next_conn (connected w)) ->
  live (conn_of w) w1 = false.
Proof.
  unfold numbered, live, conn_of, connected. intros Hn ->.
  apply bool_decide_eq_false. destruct (thread_conn w); cbn; intros [= H]; lia.
Qed.

(** X3.  One refused step is enough to lose an event.  When the engine
    refuses the first step of a call of [store_activity] (the read of
    sqlite_master by [create_user_table]) because the database is locked,
    and no step after it, the retry inside [create_user_table] closes the
    thread's connection and succeeds on a new one; [store_activity] goes on
    with the connection it took before, which is closed, and raises
    ProgrammingError, which its own retry does not handle.  The listener's
    table and registry entry have been created; the event is not stored. *)
Theorem lock_during_table_lookup_loses_event
    (e : json) (s : str) (ur : user_row) (tr : track_row)
    (a : sqlval * sqlval * sqlval * sqlval * sqlval) (w : world) :
  rows_of_event e = Some (s, ur, tr, a) ->
  tx w = None -> numbered w -> faults w = [locked] ->
  is_Some (user_tables (disk w)) -> storable (clock w + 1) ->
  exists w',
    store_activity e w = (Raise closed_database, w') /\
    disk w' = provision s (table_name_of (last_item (split_on colon s)))
                (clock w + 1) (disk w) /\
    stable (disk w) (disk w') /\
    tx w' = None /\ faults w' = [] /\ slept w' = slept w ++ [1].
Proof.
  intros He Ht Hn Hf Hr Hc.
  destruct (rows_of_event_Some e s ur tr a He)
    as (u & t & Hcd & Hu & Hup & Htp & Hap & Hd & _).
  assert (H : spec (store_activity e) w (fun r w' =>
    r = Raise closed_database /\
    disk w' = provision s (table_name_of (last_item (split_on colon s)))
                (clock w + 1) (disk w) /\
    tx w' = None /\ faults w' = [] /\ slept w' = slept w ++ [1])).
  { unfold store_activity, with_db_retry. apply spec_retry_first.
    eapply spec_ext; [apply store_activity_body_candidate|]. rewrite Hcd.
    mstep. mstep. mstep. unfold store_rows. rewrite Hu. mstep. mstep.
    eapply spec_weaken; [apply create_user_table_one_lock|].
    - exact Hf.
    - exact Hr.
    - exact Hc.
    - cbv zeta. intros r w1 (-> & Hd1 & Ht1 & Hf1 & Hc1 & Hcl1 & Hsl1).
      mstep. mstep. mstep.
      + exfalso.
        match goal with H : live _ _ = true |- _ =>
          rewrite (stale_connection w w1 Hn) in H; [discriminate|] end.
        exact Hc1.
      + change (is_sqlite_error closed_database) with true. cbv iota.
        repeat mstep. change (is_locked closed_database) with false. cbv iota.
        wsimpl. msplit; auto. }
  pose proof (store_activity_spec e s ur tr a w He Ht) as H2.
  unfold spec in H, H2. destruct (store_activity e w) as [r w'].
  cbn [fst snd] in *. destruct H as (-> & H). exists w'.
  cbv zeta in H2. destruct H as (? & ? & ? & ?). msplit; auto.
Qed.

(** [create_user_table] when the engine refuses three steps in a row. *)
Lemma create_user_table_contended (s : str) (w : world)
    (f : list (option (sqlite_class * str))) :
  faults w = locked :: locked :: locked :: f ->
  spec (create_user_table (JStr s)) w (fun r w' =>
    r = Raise locked_error /\ disk w' = disk w /\ tx w' = None /\
    thread_conn w' = None /\ faults w' = f /\ clock w' = clock w + 7 /\
    slept w' = slept w ++ [1; 2; 4]).
Proof.
  intros Hf. unfold create_user_table, with_db_retry.
  apply spec_retry_first.
  eapply spec_eq; [apply (create_user_table_body_locked s w _ Hf)|].
  cbv beta iota. rewrite is_locked_locked_error.
  apply spec_retry_first.
  eapply spec_eq; [apply (create_user_table_body_locked s _ (locked :: f)); reflexivity|].
  cbv beta iota. rewrite is_locked_locked_error.
  apply spec_retry_first.
  eapply spec_eq; [apply (create_user_table_body_locked s _ f); reflexivity|].
  cbv beta iota. rewrite is_locked_locked_error.
  cbn [retry_loop]. mstep.
  change (1 * 2 ^ 0) with 1. change (1 * 2 ^ (0 + 1)) with 2.
  change (1 * 2 ^ (0 + 1 + 1)) with 4.
  wsimpl. msplit; auto.
  - lia.
  - now rewrite <- !app_assoc.
Qed.

Lemma store_activity_body_contended (e : json) (s : str) (ur : user_row)
    (tr : track_row) (a : sqlval * sqlval * sqlval * sqlval * sqlval)
    (w : world) (f : list (option (sqlite_class * str))) :
  rows_of_event e = Some (s, ur, tr, a) ->
  faults w = locked :: locked :: locked :: f ->
  spec (store_activity_body e) w (fun r w' =>
    r = Raise locked_error /\ disk w' = disk w /\ tx w' = None /\
    thread_conn w' = None /\ faults w' = f /\ clock w' = clock w + 7 /\
    slept w' = slept w ++ [1; 2; 4]).
Proof.
  intros He Hf.
  destruct (rows_of_event_Some e s ur tr a He)
    as (u & t & Hcd & Hu & _).
  eapply spec_ext; [apply store_activity_body_candidate|]. rewrite Hcd.
  mstep. mstep. mstep. unfold store_rows. rewrite Hu. mstep. mstep.
  eapply spec_weaken; [apply (create_user_table_contended s _ f); exact Hf|].
  cbv beta. intros r w1 (-> & H).
  change (is_sqlite_error locked_error) with true. cbv iota.
  repeat mstep. wsimpl. split; [reflexivity|exact H].
Qed.

(** X4.  What persistent contention costs.  When the engine refuses nine
    steps in a row because the database is locked, a call of
    [store_activity] makes nine attempts to read sqlite_master (each of
    its three attempts runs the three attempts of [create_user_table]),
    sleeps 28 seconds in all, and raises the lock error; nothing is
    written, and the thread is left without connection. *)
Theorem persistent_contention_costs
    (e : json) (s : str) (ur : user_row) (tr : track_row)
    (a : sqlval * sqlval * sqlval * sqlval * sqlval) (w : world)
    (f : list (option (sqlite_class * str))) :
  rows_of_event e = Some (s, ur, tr, a) ->
  faults w = List.repeat locked 9 ++ f ->
  exists w',
    store_activity e w = (Raise locked_error, w') /\
    disk w' = disk w /\ tx w' = None /\ thread_conn w' = None /\
    faults w' = f /\
    slept w' = slept w ++ [1; 2; 4; 1; 1; 2; 4; 2; 1; 2; 4; 4] /\
    clock w' = clock w + 28.
Proof.
  intros He Hf. cbn [List.repeat app] in Hf.
  assert (H : spec (store_activity e) w (fun r w' =>
    r = Raise locked_error /\
    disk w' = disk w /\ tx w' = None /\ thread_conn w' = None /\
    faults w' = f /\
    slept w' = slept w ++ [1; 2; 4; 1; 1; 2; 4; 2; 1; 2; 4; 4] /\
    clock w' = clock w + 28)).
  { unfold store_activity, with_db_retry. apply spec_retry_first.
    eapply spec_weaken;
      [apply (store_activity_body_contended e s ur tr a w _ He Hf)|].
    cbv beta. intros r w1 (-> & Hd1 & Ht1 & Hc1 & Hf1 & Hcl1 & Hs1).
    rewrite is_locked_locked_error. apply spec_retry_first.
    eapply spec_weaken;
      [apply (store_activity_body_contended e s ur tr a _
                (locked :: locked :: locked :: f) He); exact Hf1|].
    cbv beta. intros r w2 (-> & Hd2 & Ht2 & Hc2 & Hf2 & Hcl2 & Hs2).
    rewrite is_locked_locked_error. apply spec_retry_first.
    eapply spec_weaken;
      [apply (store_activity_body_contended e s ur tr a _ f He); exact Hf2|].
    cbv beta. intros r w3 (-> & Hd3 & Ht3 & Hc3 & Hf3 & Hcl3 & Hs3).
    rewrite is_locked_locked_error. cbn [retry_loop]. mstep.
    change (1 * 2 ^ 0) with 1 in *. change (1 * 2 ^ (0 + 1)) with 2 in *.
    change (1 * 2 ^ (0 + 1 + 1)) with 4 in *.
    wsimpl. rewrite Hc3, Hd3, Hd2, Hd1, Hcl3, Hcl2, Hcl1, Hs3, Hs2, Hs1.
    msplit; auto.
    - now rewrite <- !app_assoc.
    - lia. }
  unfold spec in H. destruct (store_activity e w) as [r w'].
  cbn [fst snd] in H. destruct H as (-> & H). exists w'. split; [reflexivity|exact H].
Qed.

(** ** The history of one listener *)

(** A call of [get_user_activity] ends the transaction that is open on
    the connection: it commits it when the query succeeds and rolls it
    back when it fails; the frame holds the selected rows; without engine
    failure the call fails only if a table is missing or a bound cannot
    be bound. *)
Lemma get_user_activity_spec (s : str) (st en : option Z) (w : world) :
  spec (get_user_activity (JStr s) st en) w (fun r w' =>
    let n := table_name_of (last_item (split_on colon s)) in
    tx w' = None /\
    match r with
    | Ok df =>
        exists b, both_bounds st en = Ok b /\
          df = DataFrame
                 (List.map py ["timestamp"; "track_name"; "artist_name";
                               "context_name"]%string)
                 (select_user_activity n b (view w)) /\
          first_error (table_missing n (view w)) (tracks_missing (view w)) = None /\
          disk w' = view w
    | Raise x =>
        disk w' = disk w /\
        (faults w = [] ->
         first_error (table_missing n (view w)) (tracks_missing (view w)) = None ->
         forall b, both_bounds st en = Ok b -> False)
    end).
Proof.
  unfold get_user_activity. mstep.
  eapply spec_eq; [apply get_user_table_name_str|]. cbv beta iota.
  set (n := table_name_of _).
  mstep. unfold read_sql_query. mstep. mstep. mstep; [|dead]. mstep.
  all: try dead.
  all: mgo.
  all: vsimpl.
  all: msplit; eauto.
  all: intros Hq Hp b Hb; try congruence;
    rewrite Hq in *; cbn [hd tl] in *; discriminate.
Qed.

(** ** store_activity: a listening row the engine rejects *)

Lemma store_rows_rejected (conn : nat) (e : json) (u : User) (t : Track)
    (s : str) (ur : user_row) (tr : track_row) (ts tu cu cn ci : sqlval)
    (d2 d3 : db) (msg : str) (w : world) :
  uri u = JStr s -> isinstance_dict e = true ->
  user_params u = Ok ur -> track_params t = Ok tr ->
  activity_params (field e "timestamp" JNull) t = Ok (ts, tu, cu, cn, ci) ->
  faults w = [] -> tx w = None -> thread_conn w = Some conn ->
  is_Some (user_tables (disk w)) -> storable (clock w) ->
  replace_user ur
    (provision s (table_name_of (last_item (split_on colon s))) (clock w) (disk w))
  = Ok d2 ->
  replace_track tr d2 = Ok d3 ->
  insert_activity (table_name_of (last_item (split_on colon s))) ts tu cu cn ci d3
  = Raise (SqliteError IntegrityError msg) ->
  spec (store_rows conn e u t) w (fun r w' =>
    r = Raise (SqliteError IntegrityError msg) /\
    disk w' = provision s (table_name_of (last_item (split_on colon s)))
                (clock w) (disk w) /\
    tx w' = Some d3 /\ faults w' = [] /\ thread_conn w' = Some conn /\
    slept w' = slept w).
Proof.
  intros Hu He Hup Htp Hap Hf Ht Hc Hr Hcl Hru Hrt Hia.
  destruct (replace_user_Ok _ _ _ Hru) as (Hum & _).
  destruct (replace_track_Ok _ _ _ Hrt) as (Htm & _).
  set (n := table_name_of (last_item (split_on colon s))) in *.
  assert (Hsm : table_missing n d3 = None).
  { unfold insert_activity in Hia. unfold table_missing.
    destruct (streams d3 !! sql_fold n); [reflexivity|discriminate]. }
  unfold store_rows. rewrite Hu, Hup, Htp. fold n.
  mstep. mstep.
  eapply spec_weaken; [apply create_user_table_quiet; assumption|].
  fold n. cbv zeta.
  intros r w1 (-> & Hd1 & Ht1 & Hf1 & Hc1 & _ & Hcl1 & Hsl1).
  assert (Hco : conn_of w = conn) by (unfold conn_of; now rewrite Hc).
  rewrite Hco in Hc1.
  destruct w1 as [d1 t1 c1 nx1 f1 cl1 sl1 lg1]. cbn in Hd1, Ht1, Hf1, Hc1, Hcl1, Hsl1.
  subst d1 t1 f1 c1 cl1 sl1.
  mstep. mstep. mstep; [|exfalso; unfold live in *; cbn in *;
                         now rewrite bool_decide_eq_true_2 in *].
  mstep. mstep. all: try dead. all: try discriminate.
  { exfalso. vsimpl. congruence. }
  vsimpl. match goal with H : Ok _ = Ok _ |- _ => injection H as <- end.
  rewrite Hru. cbn [lift_db].
  mstep. mstep. all: try dead. all: try discriminate.
  { exfalso. vsimpl. congruence. }
  vsimpl. match goal with H : Ok _ = Ok _ |- _ => injection H as <- end.
  rewrite Hrt. cbn [lift_db].
  mstep. mstep. rewrite (dict_get_field e "timestamp" JNull He). rewrite Hap.
  mstep. mstep. all: try dead. all: try discriminate.
  { exfalso. vsimpl. congruence. }
  vsimpl. match goal with H : Ok _ = Ok _ |- _ => injection H as <- end.
  rewrite Hia. cbn [lift_db].
  cbn [is_sqlite_error]. repeat mstep. vsimpl. msplit; auto.
Qed.

(** X5.  An event the engine rejects leaves half of itself behind.  When
    no engine step fails and the INSERT of the listening row is refused by
    a constraint (the event has no timestamp, say), [store_activity]
    raises the IntegrityError at once, without retry.  Nothing of the
    event is committed, but the user row and the track row written before
    the refused INSERT stay in the transaction, which is left open; the
    next history query on the connection commits them. *)
Theorem rejected_row_leaves_pending_writes
    (e : json) (s : str) (ur : user_row) (tr : track_row)
    (ts tu cu cn ci : sqlval) (d2 d3 : db) (msg : str) (w : world) :
  rows_of_event e = Some (s, ur, tr, (ts, tu, cu, cn, ci)) ->
  faults w = [] -> tx w = None ->
  is_Some (user_tables (disk w)) -> storable (clock w) ->
  let n := table_name_of (last_item (split_on colon s)) in
  replace_user ur (provision s n (clock w) (disk w)) = Ok d2 ->
  replace_track tr d2 = Ok d3 ->
  insert_activity n ts tu cu cn ci d3 = Raise (SqliteError IntegrityError msg) ->
  exists w',
    store_activity e w = (Raise (SqliteError IntegrityError msg), w') /\
    disk w' = provision s n (clock w) (disk w) /\
    tx w' = Some d3 /\ slept w' = slept w /\
    exists df w'',
      get_user_activity (JStr s) None None w' = (Ok df, w'') /\
      disk w'' = d3 /\ tx w'' = None.
Proof.
  intros He Hf Ht Hr Hc n Hru Hrt Hia.
  destruct (rows_of_event_Some e s ur tr _ He)
    as (u & t & Hcd & Hu & Hup & Htp & Hap & Hd & _).
  assert (H : spec (store_activity e) w (fun r w' =>
    r = Raise (SqliteError IntegrityError msg) /\
    disk w' = provision s n (clock w) (disk w) /\
    tx w' = Some d3 /\ faults w' = [] /\ slept w' = slept w)).
  { unfold store_activity, with_db_retry. apply spec_retry_first.
    eapply spec_ext; [apply store_activity_body_candidate|]. rewrite Hcd.
    mstep. mstep. mstep.
    eapply spec_weaken;
      [apply (store_rows_rejected _ e u t s ur tr ts tu cu cn ci d2 d3 msg);
       try eassumption; try reflexivity|].
    cbv beta. intros r w1 (-> & Hd1 & Ht1 & Hf1 & Hc1 & Hs1).
    cbn [any_exception]. repeat mstep. cbn [is_locked]. wsimpl. msplit; auto. }
  unfold spec in H. destruct (store_activity e w) as [r w'].
  cbn [fst snd] in H. destruct H as (-> & Hd' & Ht' & Hf' & Hs').
  exists w'. msplit; auto.
  pose proof (get_user_activity_spec s None None w') as G.
  unfold spec in G. destruct (get_user_activity (JStr s) None None w') as [r w''].
  cbn [fst snd] in G. cbv zeta in G. fold n in G. destruct G as (Gt & G).
  assert (Hv : view w' = d3) by (unfold view; now rewrite Ht').
  rewrite Hv in G.
  assert (Hp : first_error (table_missing n d3) (tracks_missing d3) = None).
  { destruct (replace_track_Ok _ _ _ Hrt) as (_ & _ & t0 & _ & Ht3 & _).
    unfold insert_activity in Hia. unfold first_error, table_missing, tracks_missing.
    rewrite Ht3. destruct (streams d3 !! sql_fold n); [reflexivity|discriminate]. }
  destruct r as [df|x].
  - destruct G as (b & _ & _ & _ & Gd). exists df, w''. auto.
  - destruct G as (_ & G). exfalso. exact (G Hf' Hp (None, None) eq_refl).
Qed.

(** ** The order and the content of a history *)

Lemma str_compare_antisym (a b : str) :
  str_compare b a = CompOpp (str_compare a b).
Proof.
  revert b. induction a as [|x a IH]; intros [|y b]; cbn; try reflexivity.
  rewrite (N.compare_antisym x y). destruct (x ?= y)%N; cbn; auto.
Qed.

Lemma sql_compare_antisym (a b : sqlval) :
  sql_compare b a = CompOpp (sql_compare a b).
Proof.
  destruct a, b; cbn; try reflexivity.
  - apply Z.compare_antisym.
  - apply str_compare_antisym.
Qed.

Lemma insert_desc_In (r x : list sqlval) (l : list (list sqlval)) :
  List.In x (insert_desc r l) <-> x = r \/ List.In x l.
Proof.
  induction l as [|y l IH]; cbn.
  - intuition.
  - destruct (sql_compare _ _); cbn; rewrite ?IH; intuition.
Qed.

Lemma order_by_timestamp_desc_In (x : list sqlval) (l : list (list sqlval)) :
  List.In x (order_by_timestamp_desc l) <-> List.In x l.
Proof.
  unfold order_by_timestamp_desc. induction l as [|y l IH]; cbn; [tauto|].
  rewrite insert_desc_In, IH. intuition.
Qed.

Lemma insert_desc_sorted (r : list sqlval) (l : list (list sqlval)) :
  newest_first l = true -> newest_first (insert_desc r l) = true.
Proof.
  induction l as [|x l IH]; intros H; [reflexivity|].
  cbn [insert_desc].
  destruct (sql_compare (hd VNull r) (hd VNull x)) eqn:C.
  - cbn [newest_first]. rewrite C. exact H.
  - assert (Hx : sql_compare (hd VNull x) (hd VNull r) = Gt)
      by (rewrite sql_compare_antisym, C; reflexivity).
    assert (Hl : newest_first l = true).
    { destruct l; [reflexivity|]. cbn [newest_first] in H.
      now apply andb_prop in H as [_ H]. }
    specialize (IH Hl).
    destruct l as [|y l]; cbn [insert_desc] in *.
    + cbn [newest_first]. now rewrite Hx.
    + cbn [newest_first] in H. apply andb_prop in H as [Hxy _].
      destruct (sql_compare (hd VNull r) (hd VNull y)).
      * cbn [newest_first] in *. now rewrite Hx.
      * change (newest_first (x :: y :: insert_desc r l))
          with (negb (match sql_compare (hd VNull x) (hd VNull y) with
                      | Lt => true | _ => false end)
                && newest_first (y :: insert_desc r l)).
        now rewrite Hxy, IH.
      * cbn [newest_first] in *. now rewrite Hx.
  - cbn [newest_first]. rewrite C. exact H.
Qed.

Lemma order_by_timestamp_desc_sorted (l : list (list sqlval)) :
  newest_first (order_by_timestamp_desc l) = true.
Proof.
  unfold order_by_timestamp_desc. induction l as [|x l IH]; [reflexivity|].
  cbn [fold_right]. now apply insert_desc_sorted.
Qed.

Lemma time_bound_after (st : option Z) (b : option sqlval) (ts : sqlval) :
  time_bound st = Ok b -> after b ts = from_start st ts.
Proof.
  unfold time_bound, from_start, after. destruct st as [z|]; [|now intros [= <-]].
  destruct (z =? 0); [now intros [= <-]|]. cbn [adapt orb].
  destruct (_ && _); [now intros [= <-]|discriminate].
Qed.

Lemma time_bound_before (en : option Z) (b : option sqlval) (ts : sqlval) :
  time_bound en = Ok b -> before b ts = until_end en ts.
Proof.
  unfold time_bound, until_end, before. destruct en as [z|]; [|now intros [= <-]].
  destruct (z =? 0); [now intros [= <-]|]. cbn [adapt orb].
  destruct (_ && _); [now intros [= <-]|discriminate].
Qed.

Lemma both_bounds_Ok (st en : option Z) (b : option sqlval * option sqlval) :
  both_bounds st en = Ok b ->
  time_bound st = Ok (fst b) /\ time_bound en = Ok (snd b).
Proof.
  unfold both_bounds. destruct (time_bound st), (time_bound en); try discriminate.
  now intros [= <-].
Qed.

Lemma select_user_activity_In (n : str) (b : option sqlval * option sqlval)
    (d : db) (r : list sqlval) :
  List.In r (select_user_activity n b d) <->
  exists la t,
    List.In la (rows_of n d) /\ List.In t (default [] (tracks d)) /\
    sql_eq (a_track_uri la) (t_uri t) = true /\
    after (fst b) (a_timestamp la) = true /\
    before (snd b) (a_timestamp la) = true /\
    r = [a_timestamp la; t_name t; t_artist_name t; a_context_name la].
Proof.
  unfold select_user_activity. rewrite order_by_timestamp_desc_In, List.in_flat_map.
  split.
  - intros (la & Hla & H). apply List.in_flat_map in H as (t & Ht & H).
    destruct (sql_eq _ _) eqn:E1; [|destruct H].
    destruct (after _ _) eqn:E2; [|destruct H].
    destruct (before _ _) eqn:E3; [|destruct H].
    destruct H as [<-|[]]. exists la, t. auto 10.
  - intros (la & t & Hla & Ht & E1 & E2 & E3 & ->).
    exists la. split; [exact Hla|]. apply List.in_flat_map. exists t.
    split; [exact Ht|]. rewrite E1, E2, E3. now left.
Qed.

(** X6.  What [get_user_activity] returns.  Whenever a call returns a
    frame, under any schedule of engine failures: the frame has the four
    columns; its rows are ordered newest first; a row is in it exactly if
    it joins a row of the listener's table with a track of the same
    identifier and the timestamp meets the bounds, a bound of 0 being no
    bound at all, like None; and the transaction that was open on the
    connection has been committed. *)
Theorem get_user_activity_rows
    (s : str) (st en : option Z) (w : world) (df : dataframe) (w' : world) :
  get_user_activity (JStr s) st en w = (Ok df, w') ->
  let n := table_name_of (last_item (split_on colon s)) in
  columns df
  = List.map py ["timestamp"; "track_name"; "artist_name"; "context_name"]%string /\
  newest_first (data df) = true /\
  (forall r, List.In r (data df) <->
     exists la t,
       List.In la (rows_of n (view w)) /\
       List.In t (default [] (tracks (view w))) /\
       sql_eq (a_track_uri la) (t_uri t) = true /\
       from_start st (a_timestamp la) = true /\
       until_end en (a_timestamp la) = true /\
       r = [a_timestamp la; t_name t; t_artist_name t; a_context_name la]) /\
  disk w' = view w /\ tx w' = None.
Proof.
  intros Hrun n.
  pose proof (spec_run _ _ _ _ _ (get_user_activity_spec s st en w) Hrun)
    as (Ht & b & Hb & -> & _ & Hd).
  fold n. apply both_bounds_Ok in Hb as [Hb1 Hb2].
  cbn [columns data]. msplit; auto.
  - apply order_by_timestamp_desc_sorted.
  - intros r. rewrite select_user_activity_In.
    split; intros (la & t & H1 & H2 & H3 & H4 & H5 & H6); exists la, t.
    + rewrite (time_bound_after st _ _ Hb1) in H4.
      rewrite (time_bound_before en _ _ Hb2) in H5. auto 10.
    + rewrite <- (time_bound_after st _ _ Hb1) in H4.
      rewrite <- (time_bound_before en _ _ Hb2) in H5. auto 10.
Qed.

Lemma rows_of_content (n : str) (d : db) :
  rows_of n d = fst (content (sql_fold n) d).
Proof. unfold rows_of, content. now destruct (streams d !! sql_fold n). Qed.

(** X7.  A stored event shows in the history.  After a call of
    [store_activity] that returned, a call of [get_user_activity] for the
    listener, without bounds, that returns a frame has in it the row of
    the event: its timestamp, the name and the artist of its track, the
    name of its context.  The same holds for every other listener
    identifier from which the same table name is derived: such listeners
    share one history.  If no engine step fails, the query returns. *)
Theorem stored_event_in_history
    (e : json) (s s' : str) (ur : user_row) (tr : track_row)
    (ts tu cu cn ci : sqlval) (w w1 : world) :
  rows_of_event e = Some (s, ur, tr, (ts, tu, cu, cn, ci)) ->
  integer_or_null ts = true ->
  tx w = None ->
  store_activity e w = (Ok tt, w1) ->
  table_name_of (last_item (split_on colon s'))
  = table_name_of (last_item (split_on colon s)) ->
  (forall df w2,
     get_user_activity (JStr s') None None w1 = (Ok df, w2) ->
     List.In [ts; t_name tr; t_artist_name tr; cn] (data df)) /\
  (faults w1 = [] ->
   exists df w2, get_user_activity (JStr s') None None w1 = (Ok df, w2)).
Proof.
  intros He _ Ht Hrun Hn.
  pose proof (spec_run _ _ _ _ _ (store_activity_spec e s ur tr _ w He Ht) Hrun)
    as (Ht1 & d1 & _ & _ & Hi).
  apply ingest_effect in Hi as (_ & Htr & _ & _ & Hc & _ & _ & _ & _ & Htu).
  cbv zeta in Hc.
  destruct (rows_of_event_keys _ _ _ _ _ _ _ _ _ He) as (_ & Hk & _).
  set (n := table_name_of (last_item (split_on colon s))) in *.
  assert (Hv : view w1 = disk w1) by (apply view_clean; exact Ht1).
  assert (Hrow : exists id, List.In (ActivityRow id ts tu cu cn ci) (rows_of n (disk w1))).
  { eexists. rewrite rows_of_content, Hc. cbn [fst].
    apply List.in_or_app. right. now left. }
  destruct Hrow as (id & Hrow).
  assert (Htrk : List.In tr (default [] (tracks (disk w1)))).
  { rewrite Htr. apply replace_into_last. }
  assert (Hp : first_error (table_missing n (disk w1)) (tracks_missing (disk w1)) = None).
  { unfold first_error, table_missing, tracks_missing. rewrite Htr.
    unfold rows_of in Hrow. destruct (streams (disk w1) !! sql_fold n);
      [reflexivity|destruct Hrow]. }
  split.
  - intros df w2 Hq.
    pose proof (spec_run _ _ _ _ _ (get_user_activity_spec s' None None w1) Hq)
      as (_ & b & Hb & -> & _).
    injection Hb as <-. rewrite Hn, Hv. fold n. cbn [data].
    apply select_user_activity_In.
    exists (ActivityRow id ts tu cu cn ci), tr. cbn [a_timestamp a_track_uri a_context_name fst snd after before].
    msplit; auto. rewrite Hk. unfold sql_eq, key_conflict.
    destruct tu; [congruence| |]; now apply bool_decide_eq_true_2.
  - intros Hf.
    pose proof (get_user_activity_spec s' None None w1) as G.
    unfold spec in G.
    destruct (get_user_activity (JStr s') None None w1) as [[df|x] w2];
      cbn [fst snd] in G; [eauto|].
    exfalso. cbv zeta in G. rewrite Hn, Hv in G. fold n in G.
    destruct G as (_ & _ & G). exact (G Hf Hp (None, None) eq_refl).
Qed.

(** ** The queries over all listeners *)

Lemma union_missing_None (entries : list (json * json)) (d : db) :
  union_missing entries d = None <->
  users_missing d = None /\ tracks_missing d = None /\
  forall entry, List.In entry entries -> handle_missing (snd entry) d = None.
Proof.
  unfold union_missing. induction entries as [|x l IH]; cbn [fold_right].
  - unfold first_error. destruct (users_missing d); [|now intuition].
    split; [discriminate|]. now intros [? _].
  - unfold first_error at 1. destruct (handle_missing (snd x) d) eqn:E.
    + split; [discriminate|]. intros (_ & _ & H).
      rewrite <- E. apply H. now left.
    + rewrite IH. split.
      * intros (? & ? & H). msplit; auto. intros y [<-|Hy]; auto.
      * intros (? & ? & H). msplit; auto. intros y Hy. apply H. now right.
Qed.

(** The shape the queries over all listeners share: the registry is read,
    and unless it is empty one UNION ALL query is run over the tables it
    names. *)
Lemma all_listeners_spec {P} (params : list (json * json) -> result P)
    (cols : list string)
    (run : list (json * json) -> P -> db -> list (list sqlval)) (w : world) :
  spec (with_connection (fun conn =>
          do cursor <- cursor_of conn;
          do entries <- execute cursor Query registry_missing no_params
                          (fun _ d => Ok (registry_listing d, d));
          if bool_decide (entries = []) then ret empty_frame
          else read_sql_query conn (union_missing entries) (params entries)
                 cols (run entries))) w
    (fun r w' =>
       let entries := registry_listing (view w) in
       tx w' = None /\
       match r with
       | Ok df =>
           disk w' = view w /\ registry_missing (view w) = None /\
           (entries = [] /\ df = empty_frame \/
            entries <> [] /\ union_missing entries (view w) = None /\
            exists p, params entries = Ok p /\
              df = DataFrame (List.map py cols) (run entries p (view w)))
       | Raise x =>
           disk w' = disk w /\
           (faults w = [] -> registry_missing (view w) = None ->
            entries = [] \/
            union_missing entries (view w) = None /\
            (exists p, params entries = Ok p) ->
            False)
       end).
Proof.
  mstep. mstep. mstep; [|dead]. mstep. mstep.
  all: try dead.
  1-2: mgo; vsimpl; msplit; auto; intros Hq Hp Hb; try congruence;
    rewrite Hq in *; cbn [hd tl] in *; discriminate.
  rewrite view_connected.
  destruct (bool_decide (registry_listing (view w) = [])) eqn:E.
  - apply bool_decide_eq_true_1 in E.
    mgo; vsimpl; msplit; auto; intros Hq Hp Hb; try congruence;
      rewrite Hq in *; cbn [hd tl] in *; discriminate.
  - apply bool_decide_eq_false_1 in E. unfold read_sql_query.
    mgo; vsimpl; msplit; eauto 10.
    all: intros Hq Hp [Hb|[Hb [p' Hp']]]; try congruence;
      rewrite ?Hq in *; cbn [hd tl] in *; try discriminate; try congruence.
Qed.

(** X8.  One missing table blocks the histories of all listeners.  When
    the registry has an entry whose handle names no table, both queries
    over all listeners raise, whatever the engine does, and roll back the
    transaction that was open; no partial frame is returned. *)
Theorem missing_table_blocks_all_histories
    (entry : json * json) (start : option Z) (w : world) :
  List.In entry (registry_listing (view w)) ->
  handle_missing (snd entry) (view w) <> None ->
  (exists x w', get_all_user_activities start w = (Raise x, w') /\
                disk w' = disk w /\ tx w' = None) /\
  (exists x w', get_all_time_activity w = (Raise x, w') /\
                disk w' = disk w /\ tx w' = None).
Proof.
  intros Hin Hm.
  assert (Hne : registry_listing (view w) <> []) by (intros E; now rewrite E in Hin).
  assert (Hu : union_missing (registry_listing (view w)) (view w) <> None).
  { intros E. apply union_missing_None in E as (_ & _ & E). now apply Hm, E. }
  split.
  - unfold get_all_user_activities.
    match goal with
    | |- exists x w', with_connection (fun conn => do cursor <- _; do entries <- _;
           if _ then _ else read_sql_query conn _ (@?p entries) ?c (@?r entries)) _
         = _ /\ _ =>
        pose proof (all_listeners_spec p c r w) as S
    end.
    unfold spec in S. cbv zeta in S.
    match type of S with _ /\ match fst (?m w) with _ => _ end =>
      destruct (m w) as [[df|x] w'] end; cbn [fst snd] in S.
    + exfalso. destruct S as (_ & _ & _ & [[E _]|(_ & E & _)]); auto.
    + destruct S as (St & Sd & _). eauto.
  - unfold get_all_time_activity.
    match goal with
    | |- exists x w', with_connection (fun conn => do cursor <- _; do entries <- _;
           if _ then _ else read_sql_query conn _ (@?p entries) ?c (@?r entries)) _
         = _ /\ _ =>
        pose proof (all_listeners_spec p c r w) as S
    end.
    unfold spec in S. cbv zeta in S.
    match type of S with _ /\ match fst (?m w) with _ => _ end =>
      destruct (m w) as [[df|x] w'] end; cbn [fst snd] in S.
    + exfalso. destruct S as (_ & _ & _ & [[E _]|(_ & E & _)]); auto.
    + destruct S as (St & Sd & _). eauto.
Qed.

Lemma joined_In (entry : json * json) (bound : option sqlval) (d : db)
    (la : activity_row) (u : user_row) (t : track_row) :
  List.In (la, u, t) (joined entry bound d) <->
  exists key,
    adapt (fst entry) = Ok key /\
    List.In la (handle_rows (snd entry) d) /\
    List.In u (default [] (users d)) /\ List.In t (default [] (tracks d)) /\
    sql_eq (u_uri u) key = true /\ sql_eq (a_track_uri la) (t_uri t) = true /\
    after bound (a_timestamp la) = true.
Proof.
  unfold joined. destruct (adapt (fst entry)) as [key|x].
  - rewrite List.in_flat_map. split.
    + intros (la' & H1 & H). apply List.in_flat_map in H as (u' & H2 & H).
      apply List.in_flat_map in H as (t' & H3 & H).
      destruct (sql_eq (u_uri u') key) eqn:E1; [|destruct H].
      destruct (sql_eq (a_track_uri la') (t_uri t')) eqn:E2; [|destruct H].
      destruct (after bound (a_timestamp la')) eqn:E3; [|destruct H].
      destruct H as [[= -> -> ->]|[]]. exists key. auto 10.
    + intros (key' & [= <-] & H1 & H2 & H3 & E1 & E2 & E3).
      exists la. split; [exact H1|]. apply List.in_flat_map. exists u.
      split; [exact H2|]. apply List.in_flat_map. exists t.
      split; [exact H3|]. rewrite E1, E2, E3. now left.
  - split; [intros []|]. now intros (key & [=] & _).
Qed.

Lemma union_params_Ok (entries : list (json * json)) (start : option Z)
    (b : option sqlval) :
  union_params entries start = Ok b -> time_bound start = Ok b.
Proof. unfold union_params. now destruct (fold_right _ _ _). Qed.

(** What [get_all_user_activities] puts in the frame it returns. *)
Lemma get_all_user_activities_data (start : option Z) (w : world)
    (df : dataframe) (w' : world) :
  get_all_user_activities start w = (Ok df, w') ->
  disk w' = view w /\ tx w' = None /\
  newest_first (data df) = true /\
  forall row, List.In row (data df) <->
    exists entry key la u t,
      List.In entry (registry_listing (view w)) /\
      adapt (fst entry) = Ok key /\
      List.In la (handle_rows (snd entry) (view w)) /\
      List.In u (default [] (users (view w))) /\
      List.In t (default [] (tracks (view w))) /\
      sql_eq (u_uri u) key = true /\
      sql_eq (a_track_uri la) (t_uri t) = true /\
      from_start start (a_timestamp la) = true /\
      row = [a_timestamp la; u_name u; t_name t; t_artist_name t;
             a_context_name la].
Proof.
  unfold get_all_user_activities. intros Hrun.
  match type of Hrun with
  | with_connection (fun conn => do cursor <- _; do entries <- _;
      if _ then _ else read_sql_query conn _ (@?p entries) ?c (@?r entries)) _ = _ =>
      pose proof (spec_run _ _ _ _ _ (all_listeners_spec p c r w) Hrun) as S
  end.
  cbv zeta beta in S. destruct S as (St & Sd & _ & [[E ->]|(_ & _ & b & Hb & ->)]).
  - msplit; auto. intros row. cbn [data empty_frame]. rewrite E. split; [intros []|].
    now intros (entry & _ & _ & _ & _ & [] & _).
  - apply union_params_Ok in Hb. msplit; auto.
    + apply order_by_timestamp_desc_sorted.
    + intros row. cbn [data]. rewrite order_by_timestamp_desc_In, List.in_flat_map.
      split.
      * intros (entry & He & H). apply List.in_map_iff in H as ([[la u] t] & <- & H).
        apply joined_In in H as (key & H1 & H2 & H3 & H4 & H5 & H6 & H7).
        rewrite (time_bound_after start _ _ Hb) in H7.
        exists entry, key, la, u, t. auto 12.
      * intros (entry & key & la & u & t & He & H1 & H2 & H3 & H4 & H5 & H6 & H7 & ->).
        exists entry. split; [exact He|]. apply List.in_map_iff.
        exists (la, u, t). split; [reflexivity|]. apply joined_In.
        rewrite <- (time_bound_after start _ _ Hb) in H7.
        exists key. auto 10.
Qed.

(** X9.  What [get_all_user_activities] returns.  Whenever a call returns
    a frame, for a registry within the limits of the engine: the rows are
    ordered newest first; a row is in the frame exactly if it joins a
    registry entry, a row of the table the entry names, the users row of
    the entry's listener and the tracks row of the row's track, and the
    timestamp is not before [start_time] (0 and None being no bound); the
    open transaction has been committed.  A listener without users row
    contributes nothing. *)
Theorem get_all_user_activities_rows (start : option Z) (w : world)
    (df : dataframe) (w' : world) :
  within_engine_limits (view w) ->
  get_all_user_activities start w = (Ok df, w') ->
  newest_first (data df) = true /\
  (forall row, List.In row (data df) <->
     exists entry key la u t,
       List.In entry (registry_listing (view w)) /\
       adapt (fst entry) = Ok key /\
       List.In la (handle_rows (snd entry) (view w)) /\
       List.In u (default [] (users (view w))) /\
       List.In t (default [] (tracks (view w))) /\
       sql_eq (u_uri u) key = true /\
       sql_eq (a_track_uri la) (t_uri t) = true /\
       from_start start (a_timestamp la) = true /\
       row = [a_timestamp la; u_name u; t_name t; t_artist_name t;
              a_context_name la]) /\
  disk w' = view w /\ tx w' = None.
Proof.
  intros _ Hrun.
  destruct (get_all_user_activities_data start w df w' Hrun) as (H1 & H2 & H3 & H4).
  auto.
Qed.

(** X10.  The window of [analyze_recent_activity].  Whenever a call
    returns a frame, for a registry within the limits of the engine, with
    [cutoff = now_ms - minutes * 60 * 1000]: the rows are ordered newest
    first, and if the cutoff is not 0 no row has a timestamp before it.
    When the cutoff is exactly 0 the call is the query without bound. *)
Theorem analyze_recent_activity_window (now_ms minutes : Z) (w : world) :
  let cutoff := now_ms - minutes * 60 * 1000 in
  (forall df w',
     within_engine_limits (view w) ->
     analyze_recent_activity now_ms minutes w = (Ok df, w') ->
     newest_first (data df) = true /\
     (cutoff <> 0 ->
      forall row, List.In row (data df) ->
                  sql_ge (List.hd VNull row) (VInt cutoff) = true)) /\
  (cutoff = 0 ->
   analyze_recent_activity now_ms minutes w = get_all_user_activities None w).
Proof.
  intros cutoff. split.
  - intros df w' _ Hrun. unfold analyze_recent_activity in Hrun. cbv zeta in Hrun.
    fold cutoff in Hrun.
    destruct (get_all_user_activities_data _ w df w' Hrun) as (_ & _ & Hs & Hin).
    split; [exact Hs|]. intros Hc row Hrow.
    apply Hin in Hrow as (entry & key & la & u & t & _ & _ & _ & _ & _ & _ & _ & Hb & ->).
    cbn [hd]. cbn [from_start] in Hb.
    destruct (Z.eqb_spec cutoff 0); [contradiction|exact Hb].
  - intros Hc. unfold analyze_recent_activity. cbv zeta. fold cutoff. rewrite Hc.
    reflexivity.
Qed.

(** ** init_database and verify_database_structure *)

Lemma init_database_spec (w : world) :
  spec init_database w (fun r w' =>
    tx w' = None /\ clock w' = clock w /\ slept w' = slept w /\
    match r with
    | Ok _ =>
        disk w' = create_core_tables (view w) /\
        thread_conn w' = Some (conn_of w) /\
        (faults w = [] -> faults w' = [])
    | Raise _ =>
        (disk w' = disk w \/ disk w' = create_core_tables (view w)) /\
        faults w <> []
    end).
Proof.
  unfold init_database. mgo. all: vsimpl. all: msplit; auto.
  all: intros E; rewrite E in *; cbn [hd tl] in *;
    first [discriminate | reflexivity].
Qed.

Lemma kept_refl (d : db) : kept d d.
Proof. unfold kept. auto. Qed.

Lemma kept_trans (d0 d1 d2 : db) : kept d0 d1 -> kept d1 d2 -> kept d0 d2.
Proof.
  unfold kept. intros (? & ? & H1) (? & ? & H2). msplit; congruence.
Qed.

Lemma stable_kept (d d' : db) : stable d d' -> kept d d'.
Proof. unfold stable, kept. intros (-> & -> & H). auto. Qed.

Lemma kept_create_core_tables (d : db) : kept d (create_core_tables d).
Proof.
  unfold kept, create_core_tables, content. cbn.
  destruct (users d), (tracks d); auto.
Qed.



Lemma fetched_text (v : sqlval) (s : str) : fetched v = JStr s -> v = VText s.
Proof. destruct v; cbn; congruence. Qed.

Lemma provisioned_lookup (n : str) (d d' : db) (k : str) :
  provisioned n d d' -> is_Some (streams d !! k) -> is_Some (streams d' !! k).
Proof.
  intros (_ & _ & [->|[Hn ->]] & _) H; [exact H|].
  destruct (decide (sql_fold n = k)) as [<-|Hk].
  - rewrite lookup_insert_eq. eauto.
  - now rewrite lookup_insert_ne.
Qed.

Lemma served_mono (n : str) (d d' : db) (r : registry_row) :
  provisioned n d d' -> served r d -> served r d'.
Proof.
  intros Hp (s & Hs & H). exists s. split; [exact Hs|].
  eapply provisioned_lookup; eassumption.
Qed.

Lemma replace_into_In {R} (key : R -> sqlval) (r x : R) (t : list R) :
  List.In x (replace_into key r t) ->
  x = r \/ List.In x t /\ key_conflict (key x) (key r) = false.
Proof.
  unfold replace_into. intros H. apply List.in_app_or in H as [H|[<-|[]]]; auto.
  apply List.filter_In in H as [H1 H2]. right. split; [exact H1|].
  now apply negb_true_iff.
Qed.

(** The loop of [verify_database_structure] over the registry as it was
    read: when it ends normally, every entry has its table. *)
Lemma verify_entries_spec (c : nat) (d0 : db) (entries : list (json * json)) :
  forall w,
  tx w = None -> derived_registry (disk w) -> core_tables_exist (disk w) ->
  kept d0 (disk w) ->
  (forall e, List.In e entries ->
     exists s, e = (JStr s, JStr (table_name_of (last_item (split_on colon s))))) ->
  (forall r, List.In r (default [] (user_tables (disk w))) ->
     List.In (entry_of r) entries \/ served r (disk w)) ->
  spec (verify_entries c entries) w (fun r w' =>
    match r with
    | Ok _ =>
        tx w' = None /\ derived_registry (disk w') /\
        core_tables_exist (disk w') /\ kept d0 (disk w') /\
        forall r, List.In r (default [] (user_tables (disk w'))) ->
                  served r (disk w')
    | Raise _ => True
    end).
Proof.
  induction entries as [|[u h] rest IH]; intros w Ht Hd Hc Hk Hform Hrows.
  - cbn [verify_entries]. mstep. msplit; auto.
    intros r Hr. destruct (Hrows r Hr) as [[]|H]; exact H.
  - destruct (Hform (u, h) (or_introl eq_refl)) as (s & [= -> ->]).
    set (n := table_name_of (last_item (split_on colon s))) in *.
    cbn [verify_entries]. mstep. mstep. all: try exact I.
    cbn [adapt] in *. match goal with H : Ok _ = Ok _ |- _ => injection H as <- end.
    unfold master_has_handle. cbn [text_affinity].
    assert (Hrest : forall e, List.In e rest ->
              exists s, e = (JStr s, JStr (table_name_of (last_item (split_on colon s)))))
      by (intros e He; apply Hform; now right).
    vsimpl. rewrite Ht. cbn [from_option]. fold n.
    mstep. destruct (master_has_table n (disk w)) eqn:Hm; cbn [negb].
    + mstep. apply IH; vsimpl; auto.
      intros r Hr. destruct (Hrows r Hr) as [[E|Hin]|Hs]; auto.
      right. injection E as E1 E2. symmetry in E1. apply fetched_text in E1.
      exists s. split; [exact E1|]. fold n.
      unfold n in Hm. rewrite master_has_derived in Hm. fold n in Hm.
      destruct (streams (disk w) !! sql_fold n); [eauto|discriminate].
    + mstep. mstep. mstep.
      eapply spec_weaken; [apply create_user_table_spec; vsimpl; exact Ht|].
      cbv zeta. fold n. vsimpl. intros [h'|x] w2 (Hp & Hok); [|exact I].
      destruct Hok as (-> & Ht2 & Hs2 & Hreg & _).
      mstep. destruct Hc as (Hc1 & Hc2 & Hc3).
      assert (Hp' := Hp). destruct Hp' as (Hu2 & Htr2 & _).
      apply IH; auto.
      * intros r Hr. destruct Hreg as [E|(t & cl & E1 & E2)].
        -- rewrite E in Hr. exact (Hd r Hr).
        -- rewrite E2 in Hr. cbn [default from_option id] in Hr.
           apply replace_into_In in Hr as [->|[Hr _]].
           ++ exists s. auto.
           ++ apply Hd. rewrite E1. exact Hr.
      * unfold core_tables_exist. rewrite Hu2, Htr2. msplit; auto.
        destruct Hreg as [E|(t & cl & E1 & E2)]; [now rewrite E|rewrite E2; eauto].
      * eapply kept_trans; [exact Hk|]. apply stable_kept.
        eapply provisioned_stable. exact Hp.
      * assert (Hnew : forall r, r_user_uri r = VText s -> served r (disk w2))
          by (intros r Hr; exists s; auto).
        assert (Hold : forall r, List.In r (default [] (user_tables (disk w))) ->
                  List.In (entry_of r) rest \/ served r (disk w2)).
        { intros r Hr. destruct (Hrows r Hr) as [[E|Hin]|Hs]; auto.
          - right. apply Hnew. injection E as E1 E2. symmetry in E1.
            now apply fetched_text in E1.
          - right. eapply served_mono; eassumption. }
        intros r Hr. destruct Hreg as [E|(t & cl & E1 & E2)].
        -- rewrite E in Hr. auto.
        -- rewrite E2 in Hr. cbn [default from_option id] in Hr.
           apply replace_into_In in Hr as [->|[Hr _]].
           ++ right. now apply Hnew.
           ++ apply Hold. rewrite E1. exact Hr.
Qed.

Lemma core_tables_found_all (d : db) :
  (core_tables_found d <? 3)%nat = false -> core_tables_exist d.
Proof.
  unfold core_tables_found, core_tables_exist.
  destruct (users d), (tracks d), (user_tables d); cbn; try discriminate; eauto.
Qed.

Lemma derived_registry_listing (d : db) (e : json * json) :
  derived_registry d -> List.In e (registry_listing d) ->
  exists s, e = (JStr s, JStr (table_name_of (last_item (split_on colon s)))).
Proof.
  unfold registry_listing. intros Hd He.
  apply List.in_map_iff in He as (r & <- & Hr).
  destruct (Hd r Hr) as (s & -> & ->). eauto.
Qed.

Lemma registry_listing_In (d : db) (r : registry_row) :
  List.In r (default [] (user_tables d)) ->
  List.In (entry_of r) (registry_listing d).
Proof.
  intros Hr. unfold registry_listing, entry_of.
  apply List.in_map_iff. eauto.
Qed.

(** The second half of [verify_database_structure]: the registry is read
    and its entries are checked. *)
Lemma verify_registry_spec (c : nat) (d0 : db) (w : world) :
  tx w = None -> derived_registry (disk w) -> core_tables_exist (disk w) ->
  kept d0 (disk w) ->
  spec (do entries <- execute c Query registry_missing no_params
                        (fun _ d => Ok (registry_listing d, d));
        verify_entries c entries) w (fun r w' =>
    match r with
    | Ok _ =>
        tx w' = None /\ derived_registry (disk w') /\
        core_tables_exist (disk w') /\ kept d0 (disk w') /\
        forall r, List.In r (default [] (user_tables (disk w'))) ->
                  served r (disk w')
    | Raise _ => True
    end).
Proof.
  intros Ht Hd Hc Hk. mstep. mstep. all: try exact I.
  vsimpl. rewrite Ht. cbn [from_option].
  apply verify_entries_spec; vsimpl; auto.
  - intros e He. eapply derived_registry_listing; eassumption.
  - intros r Hr. left. now apply registry_listing_In.
Qed.

Lemma verify_database_structure_sound (w : world) :
  tx w = None -> derived_registry (disk w) ->
  spec verify_database_structure w (fun r w' =>
    match r with
    | Ok _ =>
        tx w' = None /\ derived_registry (disk w') /\
        core_tables_exist (disk w') /\ kept (disk w) (disk w') /\
        forall r, List.In r (default [] (user_tables (disk w'))) ->
                  served r (disk w')
    | Raise _ => True
    end).
Proof.
  intros Ht Hd. unfold verify_database_structure.
  mstep. mstep. mstep. mstep; [|mgo; exact I]. mstep. mstep.
  all: try solve [mgo; exact I].
  vsimpl. rewrite Ht. cbn [from_option]. mstep.
  destruct (core_tables_found (disk w) <? 3)%nat eqn:Hn.
  - mstep. mstep.
    eapply spec_weaken; [apply init_database_spec|].
    cbv beta. intros [[]|x] w2 (Ht2 & _ & _ & Hi); [|mgo; exact I].
    destruct Hi as (Hd2 & _). vsimpl. rewrite Ht in Hd2. cbn [from_option] in Hd2.
    eapply spec_weaken.
    { apply (verify_registry_spec _ (disk w)); auto.
      - rewrite Hd2. exact Hd.
      - rewrite Hd2. unfold core_tables_exist, create_core_tables. cbn. eauto.
      - rewrite Hd2. apply kept_create_core_tables. }
    cbv beta. intros [[]|x] w3 Hv; [|mgo; exact I].
    destruct Hv as (Ht3 & Hv). mgo; try exact I.
    vsimpl. rewrite Ht3. cbn [from_option]. split; [reflexivity|exact Hv].
  - mstep.
    eapply spec_weaken.
    { apply (verify_registry_spec _ (disk w)); vsimpl; auto.
      - now apply core_tables_found_all.
      - apply kept_refl. }
    cbv beta. intros [[]|x] w3 Hv; [|mgo; exact I].
    destruct Hv as (Ht3 & Hv). mgo; try exact I.
    vsimpl. rewrite Ht3. cbn [from_option]. split; [reflexivity|exact Hv].
Qed.

Lemma live_conn (c : nat) (w : world) : thread_conn w = Some c -> live c w = true.
Proof. intros H. unfold live. now apply bool_decide_eq_true_2. Qed.

Lemma verify_entries_quiet (c : nat) (entries : list (json * json)) :
  forall w,
  faults w = [] -> tx w = None -> thread_conn w = Some c ->
  is_Some (user_tables (disk w)) -> storable (clock w) ->
  (forall e, List.In e entries ->
     exists s, e = (JStr s, JStr (table_name_of (last_item (split_on colon s))))) ->
  spec (verify_entries c entries) w (fun r w' =>
    r = Ok tt /\ faults w' = [] /\ tx w' = None /\ thread_conn w' = Some c /\
    is_Some (user_tables (disk w')) /\ clock w' = clock w).
Proof.
  induction entries as [|[u h] rest IH]; intros w Hf Ht Hc Hr Hcl Hform.
  - cbn [verify_entries]. mstep. msplit; auto.
  - destruct (Hform (u, h) (or_introl eq_refl)) as (s & [= -> ->]).
    set (n := table_name_of (last_item (split_on colon s))) in *.
    assert (Hrest : forall e, List.In e rest ->
              exists s, e = (JStr s, JStr (table_name_of (last_item (split_on colon s)))))
      by (intros e He; apply Hform; now right).
    pose proof (live_conn c w Hc) as Hl.
    cbn [verify_entries]. mstep. mstep.
    all: try congruence. all: try discriminate.
    cbn [adapt] in *. match goal with E : Ok _ = Ok _ |- _ => injection E as <- end.
    unfold master_has_handle. cbn [text_affinity].
    vsimpl. rewrite Ht, Hf. cbn [from_option tl]. fold n.
    mstep. destruct (master_has_table n (disk w)) eqn:Hm; cbn [negb].
    + mstep. eapply spec_weaken; [apply IH; vsimpl; auto|]. auto.
    + mstep. mstep. mstep.
      eapply spec_weaken; [apply create_user_table_quiet; vsimpl; auto|].
      cbv zeta. fold n. vsimpl.
      intros r w2 (-> & Hd2 & Ht2 & Hf2 & Hc2 & _ & Hcl2 & _).
      mstep.
      eapply spec_weaken; [apply IH; auto|]; auto.
      * rewrite Hc2. unfold conn_of. cbn. now rewrite Hc.
      * rewrite Hd2. now apply provision_registry.
      * now rewrite Hcl2.
      * cbv beta. intros r w3 (? & ? & ? & ? & ? & Hcl3). msplit; auto.
        now rewrite Hcl3, Hcl2.
Qed.

Lemma verify_registry_quiet (c : nat) (w : world) :
  faults w = [] -> tx w = None -> thread_conn w = Some c ->
  is_Some (user_tables (disk w)) -> storable (clock w) ->
  derived_registry (disk w) ->
  spec (do entries <- execute c Query registry_missing no_params
                        (fun _ d => Ok (registry_listing d, d));
        verify_entries c entries) w
    (fun r w' => r = Ok tt /\ faults w' = [] /\ tx w' = None /\
                 thread_conn w' = Some c).
Proof.
  intros Hf Ht Hc Hr Hcl Hd. pose proof (live_conn _ _ Hc) as Hl.
  mstep. mstep. all: try congruence. all: try discriminate.
  - exfalso. vsimpl. rewrite Ht in *. cbn [from_option] in *.
    unfold registry_missing in *. destruct Hr as [t Hr]. rewrite Hr in *.
    discriminate.
  - vsimpl. rewrite Ht, Hf. cbn [from_option tl].
    eapply spec_weaken.
    { apply verify_entries_quiet; vsimpl; auto.
      intros e He. eapply derived_registry_listing; eassumption. }
    cbv beta. intros r w4 (-> & Hf4 & Ht4 & Hc4 & _). auto.
Qed.

Lemma verify_database_structure_quiet (w : world) :
  faults w = [] -> tx w = None -> derived_registry (disk w) ->
  storable (clock w) ->
  spec verify_database_structure w (fun r w' => r = Ok tt /\ faults w' = []).
Proof.
  intros Hf Ht Hd Hcl. unfold verify_database_structure.
  mstep. mstep.
  eapply (spec_weaken _ _ (fun r w' =>
            r = Ok tt /\ faults w' = [] /\ tx w' = None /\
            thread_conn w' = Some (conn_of w))).
  - mstep. mstep; [|dead]. mstep. mstep.
    all: try dead. all: try discriminate. all: try solve [quiet Hf].
    vsimpl. rewrite Ht, Hf. cbn [from_option tl]. mstep.
    destruct (core_tables_found (disk w) <? 3)%nat eqn:Hn.
    + mstep. mstep.
      eapply spec_weaken; [apply init_database_spec|].
      cbv beta. intros [[]|x] w2 (Ht2 & Hcl2 & _ & Hi).
      * destruct Hi as (Hd2 & Hc2 & Hf2). vsimpl. rewrite Ht in Hd2.
        cbn [from_option] in Hd2. specialize (Hf2 eq_refl).
        apply verify_registry_quiet; auto.
        -- rewrite Hd2. cbn. eauto.
        -- now rewrite Hcl2.
        -- rewrite Hd2. exact Hd.
      * exfalso. destruct Hi as (_ & Hi). now apply Hi.
    + mstep. apply core_tables_found_all in Hn as (_ & _ & Hr).
      apply verify_registry_quiet; vsimpl; auto.
  - cbv beta. intros r w1 (-> & Hf1 & Ht1 & Hc1).
    pose proof (live_conn _ _ Hc1) as Hl1.
    mstep. all: try congruence.
    vsimpl. rewrite Hf1. auto.
Qed.

(** X12.  [verify_database_structure] on a registry whose entries are
    those [create_user_table] writes, called outside of a transaction.
    Whatever the engine does, a call that returns normally has left the
    three core tables in existence and a table for the listener of every
    registry entry, and has changed no row of users, tracks or any
    listener table; so a failure during verification is never passed
    over in silence.  If no engine step fails, the call returns. *)
Theorem verify_database_structure_repairs (w : world) :
  tx w = None -> derived_registry (disk w) ->
  (forall w', verify_database_structure w = (Ok tt, w') ->
     tx w' = None /\ core_tables_exist (disk w') /\
     derived_registry (disk w') /\
     (forall r, List.In r (default [] (user_tables (disk w'))) ->
                served r (disk w')) /\
     kept (disk w) (disk w')) /\
  (faults w = [] -> storable (clock w) ->
   exists w', verify_database_structure w = (Ok tt, w')).
Proof.
  intros Ht Hd. split.
  - intros w' Hrun.
    pose proof (spec_run _ _ _ _ _ (verify_database_structure_sound w Ht Hd) Hrun)
      as (H1 & H2 & H3 & H4 & H5).
    auto.
  - intros Hf Hcl.
    pose proof (verify_database_structure_quiet w Hf Ht Hd Hcl) as S.
    unfold spec in S. destruct (verify_database_structure w) as [r w'].
    cbn [fst snd] in S. destruct S as (-> & _). eauto.
Qed.




(** ** filter_active_friends: ill-typed snapshots and monotonicity *)







(** ** Table names: when two listeners share a table *)



(** ** An invariant of the registry *)

Lemma tidy_provisioned (s : str) (d d' : db) :
  let n := table_name_of (last_item (split_on colon s)) in
  provisioned n d d' ->
  user_tables d' = user_tables d \/
  registered s n d d' /\ is_Some (streams d' !! sql_fold n) ->
  tidy d -> tidy d'.
Proof.
  intros n Hp Hr [Hd Hs].
  assert (Hold : forall r, List.In r (default [] (user_tables d)) ->
            (exists s0, r_user_uri r = VText s0 /\
               r_table_name r = VText (table_name_of (last_item (split_on colon s0)))) /\
            served r d')
    by (intros r Hr'; split; [now apply Hd|eapply served_mono; eauto]).
  assert (Hall : forall r, List.In r (default [] (user_tables d')) ->
            (exists s0, r_user_uri r = VText s0 /\
               r_table_name r = VText (table_name_of (last_item (split_on colon s0)))) /\
            served r d').
  { intros r Hr'. destruct Hr as [E|[[E|(t & c & E1 & E2)] Hn]].
    - rewrite E in Hr'. now apply Hold.
    - rewrite E in Hr'. now apply Hold.
    - rewrite E2 in Hr'. cbn [default from_option id] in Hr'.
      apply replace_into_In in Hr' as [->|[Hr' _]].
      + split; exists s; auto.
      + apply Hold. rewrite E1. exact Hr'. }
  split; intros r Hr'; now apply Hall.
Qed.

Lemma tidy_ingest (n : str) (ur : user_row) (tr : track_row)
    (a : sqlval * sqlval * sqlval * sqlval * sqlval) (d d' : db) :
  ingest n ur tr a d = Ok d' -> tidy d -> tidy d'.
Proof.
  destruct a as ((((ts, tu), cu), cn), ci). intros H [Hd Hs].
  apply ingest_Ok in H as (d2 & d3 & Hu & Ht & Ha).
  apply replace_user_Ok in Hu as (_ & _ & t1 & _ & _ & _ & Hu4 & Hu5 & _).
  apply replace_track_Ok in Ht as (_ & _ & t2 & _ & _ & _ & Ht4 & Ht5 & _).
  apply insert_activity_Ok in Ha as (_ & _ & _ & _ & _ & Ha3 & _ & t & Hl & Hs').
  assert (Hr : user_tables d' = user_tables d) by congruence.
  assert (Hk : forall k, is_Some (streams d !! k) -> is_Some (streams d' !! k)).
  { intros k Hk. rewrite Hs', Ht5, Hu5.
    destruct (decide (sql_fold n = k)) as [<-|Hne].
    - rewrite lookup_insert_eq. eauto.
    - now rewrite lookup_insert_ne. }
  split; intros r Hr'; rewrite Hr in Hr'.
  - now apply Hd.
  - destruct (Hs r Hr') as (s & E & H). exists s. auto.
Qed.

Lemma create_user_table_tidy (s : str) (w : world) :
  tx w = None -> tidy (disk w) ->
  spec (create_user_table (JStr s)) w (fun r w' =>
    tidy (disk w') /\
    match r with
    | Ok h => h = table_name_of (last_item (split_on colon s)) /\ tx w' = None
    | Raise e => (is_locked e = true -> tx w' = None /\ thread_conn w' = None) /\
                 (thread_conn w' = None -> tx w' = None)
    end).
Proof.
  intros Ht Hy.
  eapply spec_weaken; [apply create_user_table_spec; exact Ht|].
  cbv zeta. intros [h|x] w' (Hp & Hr).
  - destruct Hr as (-> & Ht' & Hs & Hreg & _). split; [|auto].
    eapply (tidy_provisioned s); eauto.
  - destruct Hr as (Hr & Hl). split; [|exact Hl].
    eapply (tidy_provisioned s); eauto.
Qed.

Lemma store_rows_tidy (conn : nat) (e : json) (u : User) (t : Track) (s : str)
    (w : world) :
  uri u = JStr s -> isinstance_dict e = true -> tx w = None ->
  tidy (disk w) ->
  spec (store_rows conn e u t) w (fun r w' =>
    tidy (disk w') /\ (thread_conn w' = None -> tx w' = None)).
Proof.
  intros Hu He Ht Hy. unfold store_rows. rewrite Hu.
  set (n := table_name_of (last_item (split_on colon s))).
  mstep. mstep.
  eapply spec_weaken; [apply create_user_table_tidy; eassumption|].
  fold n. cbv beta. intros [h|x] w1 (Hy1 & H1).
  - destruct H1 as (-> & Ht1).
    destruct w1 as [d1 t1 c1 nx1 f1 cl1 sl1 lg1]. cbn in Ht1, Hy1. subst t1.
    mstep. mstep. mstep.
    + match goal with
      | H : live _ _ = true |- _ =>
          apply bool_decide_eq_true_1 in H; cbn in H; subst c1
      end.
      mstep. mstep. all: try dead. all: try solve [fail_fin].
      vsimpl. destruct (replace_user p d1) as [d2|x] eqn:Hru; cbn [lift_db];
        [|solve [fail_fin]].
      mstep. mstep. all: try dead. all: try solve [fail_fin].
      vsimpl. destruct (replace_track p0 d2) as [d3|x] eqn:Hrt; cbn [lift_db];
        [|solve [fail_fin]].
      mstep. mstep. rewrite (dict_get_field e "timestamp" JNull He).
      mstep. mstep. all: try dead. all: try solve [fail_fin].
      vsimpl. destruct p1 as ((((ts, tu), cu), cn), ci).
      destruct (insert_activity n ts tu cu cn ci d3) as [d4|x] eqn:Hia;
        cbn [lift_db]; [|solve [fail_fin]].
      mstep. all: try dead. all: try solve [fail_fin].
      vsimpl. split; [|discriminate].
      apply (tidy_ingest n p p0 (ts, tu, cu, cn, ci) d1); [|exact Hy1].
      unfold ingest. rewrite Hru. cbn [rbind]. rewrite Hrt. cbn [rbind]. exact Hia.
    + fail_fin.
  - destruct H1 as (Hl & Hc). fail_fin.
Qed.

Lemma store_activity_tidy (e : json) (w : world) :
  tx w = None -> tidy (disk w) ->
  spec (store_activity e) w (fun r w' => tidy (disk w')).
Proof.
  intros Ht Hy. unfold store_activity, with_db_retry.
  apply spec_retry with (I := fun w1 => tx w1 = None /\ tidy (disk w1)).
  - intros w1 [Ht1 Hy1].
    eapply spec_ext; [apply store_activity_body_candidate|].
    destruct (candidate e) as [[msg|u t]|x] eqn:Hc.
    + mstep. mstep. exact Hy1.
    + destruct (candidate_accepted e u t Hc) as (He & _).
      mstep. mstep. mstep.
      destruct (uri u) as [| | |s| |] eqn:Hu.
      all: try (destruct (store_rows_not_str (conn_of w1) e u t (connected w1))
                  as (w2 & E & Hd2 & Ht2); [now rewrite Hu|];
                eapply spec_eq; [exact E|]; cbn [any_exception]; repeat mstep;
                cbn [is_locked]; wsimpl; now rewrite Hd2).
      eapply spec_weaken; [apply (store_rows_tidy _ e u t s); auto|].
      cbv beta. intros [[]|x] w2 (Hy2 & Hc2); [exact Hy2|].
      cbn [any_exception]. repeat mstep.
      destruct (is_locked x); [|exact Hy2].
      intros t0. unfold recycled. cbn. split; [split|]; auto.
      destruct (thread_conn w2); auto.
    + mstep. mstep. cbn [any_exception]. repeat mstep.
      destruct (is_locked x); [|exact Hy1].
      intros t0. unfold recycled. cbn. split; [split|]; auto.
      destruct (thread_conn w1); auto.
  - split; assumption.
  - discriminate.
Qed.

Lemma tidy_create_core_tables (d : db) : tidy d -> tidy (create_core_tables d).
Proof.
  unfold tidy, derived_registry, served, create_core_tables. cbn.
  intros [Hd Hs]. split; intros r Hr.
  - apply Hd. now destruct (user_tables d).
  - apply Hs. now destruct (user_tables d).
Qed.

(** X17.  No writer leaves a registry entry without its table.  If, when
    a call starts outside of a transaction, every registry entry is one
    that [create_user_table] writes and has its listener's table, then the
    same holds of the committed database after [create_user_table], after
    [store_activity] on any candidate, and after [init_database], whether
    the call returns or raises and whatever the engine refuses in
    between. *)
Theorem registry_stays_tidy (w : world) :
  tx w = None -> tidy (disk w) ->
  (forall s r w', create_user_table (JStr s) w = (r, w') -> tidy (disk w')) /\
  (forall e r w', store_activity e w = (r, w') -> tidy (disk w')) /\
  (forall r w', init_database w = (r, w') -> tidy (disk w')).
Proof.
  intros Ht Hy. msplit.
  - intros s r w' Hrun.
    exact (proj1 (spec_run _ _ _ _ _ (create_user_table_tidy s w Ht Hy) Hrun)).
  - intros e r w' Hrun.
    exact (spec_run _ _ _ _ _ (store_activity_tidy e w Ht Hy) Hrun).
  - intros r w' Hrun.
    pose proof (spec_run _ _ _ _ _ (init_database_spec w) Hrun) as (_ & _ & _ & H).
    rewrite (view_clean w Ht) in H. destruct r as [[]|x].
    + destruct H as (-> & _). now apply tidy_create_core_tables.
    + destruct H as ([->| ->] & _); [exact Hy|now apply tidy_create_core_tables].
Qed.

(** ** A lock at the registry INSERT *)

(** An attempt of [create_user_table] that creates the table and the index
    and is refused at the INSERT into the registry. *)
Lemma create_user_table_body_insert_locked (s : str) (w : world) :
  let n := table_name_of (last_item (split_on colon s)) in
  faults w = [None; None; None; locked] -> tx w = None ->
  is_Some (user_tables (disk w)) -> storable (clock w) ->
  streams (disk w) !! sql_fold n = None ->
  spec (create_user_table_body (JStr s)) w (fun r w' =>
    r = Raise locked_error /\
    create_stream_index n (create_stream_table n (disk w)) = Ok (disk w') /\
    faults w' = [] /\ is_Some (thread_conn w') /\ clock w' = clock w /\
    slept w' = slept w).
Proof.
  intros n Hf Ht [t0 Hr] Hcl Hs. unfold create_user_table_body.
  destruct w as [d t c nx f cl sl lg]. cbn in Hf, Ht, Hr, Hcl, Hs. subst t f.
  fold n.
  assert (Hm : master_has_table n d = false).
  { unfold n. rewrite master_has_derived. fold n. now rewrite Hs. }
  mstep. mstep. eapply spec_eq; [apply get_user_table_name_str|]. cbv beta iota.
  fold n.
  mstep. mstep. mstep. mstep; [|dead]. mstep. mstep.
  all: try dead. all: try discriminate.
  vsimpl. rewrite Hm. cbn [negb].
  destruct (create_stream_index_after_create n d) as (d2 & Hi).
  destruct (provisioned_created n d) as (Hp1 & Hs1 & Hr1).
  destruct (provisioned_indexed n d _ d2 Hi Hp1) as (Hp2 & Hs2 & Hr2).
  { unfold create_stream_table. destruct (streams d !! _); reflexivity. }
  mstep. mstep. mstep. mstep. all: try dead. all: try discriminate.
  mstep. mstep. all: try dead. all: try discriminate.
  vsimpl. rewrite Hi.
  mstep. mstep. mstep. mstep. all: try dead. all: try discriminate.
  - exfalso. vsimpl. unfold registry_missing in *.
    rewrite Hr2, Hr1, Hr in *. discriminate.
  - exfalso. vsimpl. rewrite storable_params in * by exact Hcl. discriminate.
  - vsimpl. unfold locked in *.
    match goal with E : (_ :: _) = (_ :: _) |- _ => injection E as <- <- <- end.
    cbn [any_exception]. repeat mstep. vsimpl. msplit; eauto.
Qed.

Lemma created_table (n : str) (d d2 : db) :
  streams d !! sql_fold n = None ->
  create_stream_index n (create_stream_table n d) = Ok d2 ->
  streams d2 !! sql_fold n = Some (StreamTable n [] 0) /\
  user_tables d2 = user_tables d.
Proof.
  intros Hs Hi. unfold create_stream_index, create_stream_table in Hi.
  rewrite Hs in Hi. cbn in Hi. rewrite lookup_insert_eq in Hi.
  destruct (bool_decide _); injection Hi as <-; cbn;
    now rewrite lookup_insert_eq.
Qed.

Lemma create_user_table_body_found (s : str) (w : world) :
  tx w = None -> faults w = [] ->
  master_has_table (table_name_of (last_item (split_on colon s))) (disk w) = true ->
  spec (create_user_table_body (JStr s)) w (fun r w' =>
    r = Ok (table_name_of (last_item (split_on colon s))) /\
    disk w' = disk w /\ tx w' = None /\ slept w' = slept w).
Proof.
  intros Ht Hf Hm. unfold create_user_table_body.
  mstep. mstep. eapply spec_eq; [apply get_user_table_name_str|]. cbv beta iota.
  mstep. mstep. mstep. mstep; [|dead]. mstep. mstep.
  all: try dead. all: try solve [quiet Hf].
  rewrite view_connected, (view_clean w Ht), Hm. cbn [negb].
  mstep. wsimpl. msplit; auto.
Qed.

(** X18.  A lock at the registry INSERT leaves a table no query over all
    listeners will see.  When [create_user_table] finds no table for the
    listener, creates the table and the index, and is then refused the
    INSERT into the registry because the database is locked, its retry
    finds the table in sqlite_master and returns the name without writing
    the registry: the call returns normally, the table exists, the
    registry is as before.  No later call of [create_user_table] for the
    listener changes that. *)
Theorem registry_insert_lock_orphans_table (s : str) (w : world) :
  let n := table_name_of (last_item (split_on colon s)) in
  faults w = [None; None; None; locked] -> tx w = None ->
  is_Some (user_tables (disk w)) -> storable (clock w) ->
  streams (disk w) !! sql_fold n = None ->
  exists w',
    create_user_table (JStr s) w = (Ok n, w') /\
    streams (disk w') !! sql_fold n = Some (StreamTable n [] 0) /\
    user_tables (disk w') = user_tables (disk w) /\
    slept w' = slept w ++ [1] /\ tx w' = None /\
    forall w0 r w'',
      disk w0 = disk w' -> tx w0 = None ->
      create_user_table (JStr s) w0 = (r, w'') -> disk w'' = disk w'.
Proof.
  intros n Hf Ht Hr Hcl Hs.
  assert (S : spec (create_user_table (JStr s)) w (fun r w' =>
    r = Ok n /\
    create_stream_index n (create_stream_table n (disk w)) = Ok (disk w') /\
    slept w' = slept w ++ [1] /\ tx w' = None)).
  { unfold create_user_table, with_db_retry. apply spec_retry_first.
    eapply spec_weaken;
      [apply create_user_table_body_insert_locked; assumption|].
    cbv zeta beta. fold n.
    intros r w1 (-> & Hi & Hf1 & [c1 Hc1] & Hcl1 & Hsl1).
    rewrite is_locked_locked_error. change (1 * 2 ^ 0) with 1.
    destruct (created_table n _ _ Hs Hi) as (Hs1 & Hr1).
    apply spec_retry_first.
    eapply spec_weaken.
    { apply create_user_table_body_found.
      - unfold recycled. cbn. now rewrite Hc1.
      - unfold recycled. cbn. exact Hf1.
      - unfold n. rewrite master_has_derived. fold n.
        unfold recycled. cbn [disk]. rewrite Hs1. cbn [st_name].
        now apply bool_decide_eq_true_2. }
    cbv beta. fold n. unfold recycled. cbn [disk tx faults slept].
    intros r w2 (-> & Hd2 & Ht2 & Hsl2).
    rewrite Hd2, Hsl2, Hsl1. msplit; auto. }
  unfold spec in S. destruct (create_user_table (JStr s) w) as [r w'] eqn:E.
  cbn [fst snd] in S. destruct S as (-> & Hi & Hsl & Ht').
  destruct (created_table n _ _ Hs Hi) as (Hs1 & Hr1).
  exists w'. msplit; auto.
  intros w0 r w'' Hd0 Ht0 Hrun.
  assert (Hm : master_has_table n (disk w0) = true).
  { unfold n. rewrite master_has_derived. fold n. rewrite Hd0, Hs1. cbn [st_name].
    now apply bool_decide_eq_true_2. }
  pose proof (spec_run _ _ _ _ _ (create_user_table_existing s w0 Ht0 Hm) Hrun)
    as (Hd'' & _).
  congruence.
Qed.

(** ** The all-time query and the unbounded query *)






(** ** The pace of the collection loop *)

Ltac clock_cases :=
  cbn;
  repeat (match goal with
          | |- context [match ?x with _ => _ end] => destruct x
          end; cbn);
  try lia.

Lemma paced_ret {A} (a : A) : paced (ret a).
Proof. intros w. cbn. lia. Qed.

Lemma paced_raise {A} (e : exn) : paced (@raise A e).
Proof. intros w. cbn. lia. Qed.

Lemma paced_lift {A} (r : result A) : paced (lift r).
Proof. intros w. cbn. lia. Qed.

Lemma paced_logger (l : level) (msg : string) : paced (logger l msg).
Proof. intros w. cbn. lia. Qed.

Lemma paced_time_time : paced time_time.
Proof. intros w. cbn. lia. Qed.

Lemma paced_time_sleep (s : Z) : 0 <= s -> paced (time_sleep s).
Proof. intros H w. cbn. lia. Qed.

Lemma paced_bind {A B} (m : M A) (k : A -> M B) :
  paced m -> (forall a, paced (k a)) -> paced (bind m k).
Proof.
  intros Hm Hk w. unfold bind. specialize (Hm w).
  destruct (m w) as [[a|e] w1]; cbn [snd] in *; [|exact Hm].
  specialize (Hk a w1). lia.
Qed.

Lemma paced_try_except {A} (body : M A) (catches : exn -> bool)
    (handler : exn -> M A) :
  paced body -> (forall e, paced (handler e)) ->
  paced (try_except body catches handler).
Proof.
  intros Hm Hk w. unfold try_except. specialize (Hm w).
  destruct (body w) as [[a|e] w1]; cbn [snd] in *; [exact Hm|].
  destruct (catches e); [|exact Hm]. specialize (Hk e w1). lia.
Qed.

Lemma paced_get_db_connection : paced get_db_connection.
Proof. intros w. unfold get_db_connection. clock_cases. Qed.

Lemma paced_close_db_connection : paced close_db_connection.
Proof. intros w. unfold close_db_connection. clock_cases. Qed.

Lemma paced_cursor_of (c : nat) : paced (cursor_of c).
Proof. intros w. unfold cursor_of. clock_cases. Qed.

Lemma paced_commit (c : nat) : paced (commit c).
Proof.
  intros w. unfold commit, next_fault. destruct w as [d t oc n f cl sl lg].
  destruct f as [|[[cls msg]|] rest]; clock_cases.
Qed.

Lemma paced_rollback (c : nat) : paced (rollback c).
Proof. intros w. unfold rollback. clock_cases. Qed.

Lemma paced_executescript (c : nat) (script : db -> db) :
  paced (executescript c script).
Proof.
  intros w. unfold executescript, next_fault. destruct w as [d t oc n f cl sl lg].
  destruct f as [|[[cls msg]|] rest]; clock_cases.
Qed.

Lemma paced_execute {P A} (c : nat) (k : stmt_kind) (prepare : db -> option exn)
    (params : result P) (run : P -> db -> result (A * db)) :
  paced (execute c k prepare params run).
Proof.
  intros w. unfold execute, next_fault, begin_for, write_back.
  destruct w as [d t oc n f cl sl lg].
  destruct f as [|[[cls msg]|] rest], k, t, params as [p|e]; cbn;
    destruct (live c _); cbn; try lia;
    destruct (prepare _); cbn; try lia;
    destruct (run p _) as [[a d']|e]; cbn; lia.
Qed.

Lemma paced_with_connection {A} (body : nat -> M A) :
  (forall c, paced (body c)) -> paced (with_connection body).
Proof.
  intros Hb. unfold with_connection. apply paced_bind;
    [apply paced_get_db_connection|].
  intros c w. specialize (Hb c w).
  destruct (body c w) as [[a|e] w1]; cbn [snd] in *.
  - pose proof (paced_bind
        (try_except (commit c) any_exception (fun e => rollback c;; raise e))
        (fun _ => ret a)) as H.
    specialize (H ltac:(apply paced_try_except;
                          [apply paced_commit|intros; apply paced_bind;
                             [apply paced_rollback|intros; apply paced_raise]])
                  ltac:(intros; apply paced_ret) w1).
    lia.
  - pose proof (paced_bind (rollback c) (fun _ => @raise A e)
                  (paced_rollback c) (fun _ => paced_raise e) w1) as H.
    lia.
Qed.

Lemma paced_retry_loop {A} (delay : Z) (func : M A) (n : nat) :
  0 <= delay -> paced func ->
  forall attempt first, 0 <= attempt ->
    paced (retry_loop delay func n attempt first).
Proof.
  intros Hd Hf. induction n as [|n IH]; intros attempt first Ha w.
  - cbn [retry_loop]. destruct first; cbn; lia.
  - cbn [retry_loop]. specialize (Hf w).
    destruct (func w) as [[a|e] w1]; cbn [snd] in *; [exact Hf|].
    destruct (is_locked e); [|exact Hf].
    unfold bind. rewrite back_off_recycled.
    specialize (IH (attempt + 1) (Some e) ltac:(lia) (recycled (delay * 2 ^ attempt) w1)).
    assert (0 <= delay * 2 ^ attempt) by (apply Z.mul_nonneg_nonneg; [lia|apply Z.pow_nonneg; lia]).
    assert (Hc : clock (recycled (delay * 2 ^ attempt) w1)
                 = clock w1 + delay * 2 ^ attempt) by reflexivity.
    rewrite Hc in IH. cbn [snd]. lia.
Qed.

Ltac paced_step :=
  lazymatch goal with
  | |- paced (retry_loop _ _ _ _ _) => apply paced_retry_loop; [lia| |lia]
  | |- paced (bind _ _) => apply paced_bind
  | |- paced (try_except _ _ _) => apply paced_try_except
  | |- paced (ret _) => apply paced_ret
  | |- paced (raise _) => apply paced_raise
  | |- paced (lift _) => apply paced_lift
  | |- paced (logger _ _) => apply paced_logger
  | |- paced time_time => apply paced_time_time
  | |- paced get_db_connection => apply paced_get_db_connection
  | |- paced (cursor_of _) => apply paced_cursor_of
  | |- paced (commit _) => apply paced_commit
  | |- paced (rollback _) => apply paced_rollback
  | |- paced (executescript _ _) => apply paced_executescript
  | |- paced (execute _ _ _ _ _) => apply paced_execute
  | |- paced (with_connection _) => apply paced_with_connection
  | |- paced (if ?b then _ else _) => destruct b
  | |- paced (match ?x with _ => _ end) => destruct x
  end; intros.

Lemma paced_get_user_table_name (v : json) : paced (get_user_table_name v).
Proof. unfold get_user_table_name. repeat paced_step. Qed.

Lemma paced_create_user_table (v : json) : paced (create_user_table v).
Proof.
  unfold create_user_table, with_db_retry, create_user_table_body.
  paced_step. paced_step. paced_step. apply paced_get_user_table_name.
  all: intros; repeat paced_step.
Qed.

Lemma paced_store_rows (conn : nat) (e : json) (u : User) (t : Track) :
  paced (store_rows conn e u t).
Proof.
  unfold store_rows. paced_step. paced_step. apply paced_create_user_table.
  all: intros; repeat paced_step.
Qed.

Lemma paced_ext {A} (m m' : M A) :
  (forall w, m w = m' w) -> paced m' -> paced m.
Proof. intros E H w. rewrite E. apply H. Qed.

Lemma paced_store_activity (e : json) : paced (store_activity e).
Proof.
  unfold store_activity, with_db_retry. paced_step.
  apply (paced_ext _
           (try_except
              (match candidate e with
               | Raise x => raise x
               | Ok (Rejected msg) => logger ERROR msg
               | Ok (Accepted u t) =>
                   do conn <- get_db_connection;
                   store_rows conn e u t
               end)
              any_exception
              (fun x => logger ERROR "Error storing activity" ;;
                        logger ERROR "Activity data" ;; raise x)));
    [intros w; apply store_activity_body_candidate|].
  paced_step; [|repeat paced_step].
  destruct (candidate e) as [[msg|u t]|x]; repeat paced_step.
  apply paced_store_rows.
Qed.

Lemma paced_store_all (l : list json) : paced (store_all l).
Proof.
  induction l as [|a l IH]; cbn [store_all]; [apply paced_ret|].
  apply paced_bind; [|intros; exact IH].
  destruct (isinstance_dict a); [apply paced_store_activity|apply paced_logger].
Qed.

(** One pass of the loop takes at least the interval. *)
Lemma collection_pass_waits (interval : Z) (fetched : result (list json))
    (w : world) :
  0 <= interval ->
  clock w + interval <= clock (snd (collection_pass interval fetched w)).
Proof.
  intros Hi. destruct fetched as [l|x]; [|cbn; lia].
  set (work := if bool_decide (l = [])
               then logger INFO "No activities found in the API response."
               else store_all l;; logger INFO "Stored activities").
  assert (Hw : paced work).
  { unfold work. destruct (bool_decide _); [apply paced_logger|].
    apply paced_bind; [apply paced_store_all|intros; apply paced_logger]. }
  assert (E : collection_pass interval (Ok l) w
              = try_except (work;; time_sleep interval) any_exception
                  (fun e => logger ERROR "Error in collection loop";;
                            time_sleep interval) w) by reflexivity.
  rewrite E. unfold try_except, bind. specialize (Hw w).
  destruct (work w) as [[[]|e] w1]; cbn [snd] in *; cbn; lia.
Qed.

(** X20.  The loop never spins.  For a non-negative interval, whatever
    the feed answers and whatever happens while the events are stored,
    every pass of [run_collection_loop] takes at least the interval: after
    the passes for [feed] the clock has advanced by at least
    [interval * length feed], and no call made on the way sets it back. *)
Theorem run_collection_loop_pace (interval : Z) (feed : list (result (list json)))
    (w : world) :
  0 <= interval ->
  clock w + interval * Z.of_nat (length feed)
  <= clock (snd (run_collection_loop interval feed w)) /\
  fst (run_collection_loop interval feed w) = Ok tt.
Proof.
  intros Hi. revert w. induction feed as [|f feed IH]; intros w.
  - cbn. split; [lia|reflexivity].
  - cbn [run_collection_loop length]. unfold bind.
    pose proof (collection_pass_waits interval f w Hi) as H1.
    pose proof (collection_pass_returns interval f w) as H2.
    destruct (collection_pass interval f w) as [r w1]. cbn [fst snd] in *.
    subst r. destruct (IH w1) as [H3 H4]. split; [lia|exact H4].
Qed.

(** ** The constructor *)

(** X21.  What the constructor establishes.  [SpotifyAnalyzer.__init__]
    runs [init_database] and then [verify_database_structure].  On a
    database whose registry entries are those [create_user_table] writes,
    with no transaction open: whenever the constructor returns, whatever
    the engine refused on the way, the three core tables exist, the
    registry is tidy (every entry has the table of its listener), and no
    row of users, tracks or any listener table has changed.  If no engine
    step fails, the constructor returns. *)
Theorem analyzer_init_establishes (w : world) :
  tx w = None -> derived_registry (disk w) ->
  (forall w', analyzer_init w = (Ok tt, w') ->
     tx w' = None /\ core_tables_exist (disk w') /\ tidy (disk w') /\
     kept (disk w) (disk w')) /\
  (faults w = [] -> storable (clock w) ->
   exists w', analyzer_init w = (Ok tt, w')).
Proof.
  intros Ht Hd. unfold analyzer_init, bind.
  pose proof (init_database_spec w) as S1. unfold spec in S1.
  destruct (init_database w) as [[[]|x] w1]; cbn [fst snd] in S1.
  - destruct S1 as (Ht1 & Hcl1 & _ & Hd1 & _ & Hf1).
    rewrite (view_clean w Ht) in Hd1.
    assert (Hdr : derived_registry (disk w1)).
    { rewrite Hd1. intros r Hr. apply Hd. cbn in Hr.
      now destruct (user_tables (disk w)). }
    pose proof (verify_database_structure_sound w1 Ht1 Hdr) as S2.
    split.
    + intros w' Hrun. pose proof (spec_run _ _ _ _ _ S2 Hrun)
        as (H1 & H2 & H3 & H4 & H5).
      msplit; auto; [split; assumption|].
      eapply kept_trans; [|exact H4].
      rewrite Hd1. apply kept_create_core_tables.
    + intros Hf Hcl.
      pose proof (verify_database_structure_quiet w1 (Hf1 Hf) Ht1 Hdr) as S3.
      rewrite Hcl1 in S3. specialize (S3 Hcl). unfold spec in S3.
      destruct (verify_database_structure w1) as [r w2]. cbn [fst snd] in S3.
      destruct S3 as (-> & _). eauto.
  - split; [discriminate|]. intros Hf _. destruct S1 as (_ & _ & _ & _ & S1).
    contradiction.
Qed.

(** ** store_activity: when nothing fails *)

Lemma provision_effect (s l : str) (now : Z) (d : db) :
  is_Some (user_tables d) ->
  users (provision s (table_name_of l) now d) = users d /\
  tracks (provision s (table_name_of l) now d) = tracks d /\
  is_Some (streams (provision s (table_name_of l) now d)
             !! sql_fold (table_name_of l)).
Proof.
  intros [t Hr]. unfold provision.
  destruct (master_has_table (table_name_of l) d) eqn:Hm.
  - rewrite master_has_derived in Hm. msplit; auto.
    destruct (streams d !! sql_fold (table_name_of l)); [eauto|discriminate].
  - destruct (create_stream_index_after_create (table_name_of l) d) as (d2 & Hi).
    destruct (provisioned_created (table_name_of l) d) as (Hp1 & Hs1 & Hr1).
    destruct (provisioned_indexed _ d _ d2 Hi Hp1) as (Hp2 & Hs2 & Hr2).
    { unfold create_stream_table. destruct (streams d !! _); reflexivity. }
    rewrite Hi.
    destruct (replace_registry _ d2) as [d3|x] eqn:E.
    + apply replace_registry_Ok in E as (Hu3 & Ht3 & Hs3 & _).
      destruct Hp2 as (Hu2 & Ht2 & _). rewrite Hs3, Hs2. msplit; congruence.
    + exfalso. unfold replace_registry in E. rewrite Hr2, Hr1, Hr in E.
      cbn in E. discriminate.
Qed.

Lemma ingest_total (n : str) (ur : user_row) (tr : track_row)
    (ts tu cu cn ci : sqlval) (d : db) :
  is_Some (users d) -> is_Some (tracks d) -> is_Some (streams d !! sql_fold n) ->
  u_name ur <> VNull -> t_name tr <> VNull -> ts <> VNull -> tu <> VNull ->
  exists d', ingest n ur tr (ts, tu, cu, cn, ci) d = Ok d'.
Proof.
  intros [t1 H1] [t2 H2] [t3 H3] Hun Htn Hts Htu.
  unfold ingest, replace_user, replace_track, insert_activity.
  rewrite H1, (bool_decide_eq_false_2 _ Hun). cbn [rbind tracks].
  rewrite H2, (bool_decide_eq_false_2 _ Htn). cbn [rbind streams].
  rewrite H3, (bool_decide_eq_false_2 _ Hts), (bool_decide_eq_false_2 _ Htu).
  eauto.
Qed.

(** X22.  When [store_activity] succeeds.  With no engine failure, no
    transaction open and the core tables in place, a candidate that passes
    the checks and whose values can be bound is stored by the first attempt, without any sleep, provided
    its user name, track name, timestamp and track identifier are not
    null: the call returns, and the committed database is the one in which
    the listener's table has been provided (created and registered if
    sqlite_master did not have it) and the three rows inserted. *)
Theorem store_activity_succeeds
    (e : json) (s : str) (ur : user_row) (tr : track_row)
    (ts tu cu cn ci : sqlval) (w : world) :
  rows_of_event e = Some (s, ur, tr, (ts, tu, cu, cn, ci)) ->
  integer_or_null ts = true -> integer_or_null ci = true ->
  faults w = [] -> tx w = None -> core_tables_exist (disk w) ->
  storable (clock w) ->
  u_name ur <> VNull -> t_name tr <> VNull -> ts <> VNull -> tu <> VNull ->
  let n := table_name_of (last_item (split_on colon s)) in
  exists w',
    store_activity e w = (Ok tt, w') /\
    ingest n ur tr (ts, tu, cu, cn, ci) (provision s n (clock w) (disk w))
    = Ok (disk w') /\
    tx w' = None /\ faults w' = [] /\ slept w' = slept w.
Proof.
  intros He _ _ Hf Ht (Hcu & Hct & Hcr) Hcl Hun Htn Hts Htu n.
  destruct (rows_of_event_Some e s ur tr _ He)
    as (u & t & Hcd & Hu & Hup & Htp & Hap & Hd & _).
  destruct (provision_effect s (last_item (split_on colon s)) (clock w) (disk w) Hcr)
    as (Hpu & Hpt & Hps). fold n in Hpu, Hpt, Hps.
  destruct (ingest_total n ur tr ts tu cu cn ci (provision s n (clock w) (disk w)))
    as (d' & Hi); try assumption; try congruence.
  assert (S : spec (store_activity e) w (fun r w' =>
    r = Ok tt /\ disk w' = d' /\ tx w' = None /\ faults w' = [] /\
    slept w' = slept w)).
  { unfold store_activity, with_db_retry. apply spec_retry_ok.
    eapply spec_ext; [apply store_activity_body_candidate|]. rewrite Hcd.
    mstep. mstep. mstep.
    eapply spec_weaken;
      [apply (store_rows_quiet _ e u t s ur tr (ts, tu, cu, cn, ci) d');
       try eassumption; try reflexivity|].
    cbv beta. intros r w1 (-> & Hd1 & Ht1 & Hf1 & _ & _ & Hs1).
    split; [eauto|]. msplit; auto. }
  unfold spec in S. destruct (store_activity e w) as [r w'].
  cbn [fst snd] in S. destruct S as (-> & <- & Ht' & Hf' & Hs').
  exists w'. msplit; auto.
Qed.

End Analyzer.

(** * Runs on sample data *)

Lemma store_activity_checks_witness :
  accepted event_without_namespace = false /\
  disk (snd (store_activity narrow_isalnum event_without_namespace fresh_store))
  = disk fresh_store.
Proof.
  split; [reflexivity|].
  exact (proj1 (proj1 (store_activity_checks narrow_isalnum
                         event_without_namespace fresh_store eq_refl))).
Defined.

(** C1, as stated, fails: a candidate without track identifier is stored,
    under the empty identifier. *)
Lemma track_identifier_not_checked :
  track_id event_without_track_id = JStr [] /\
  let w := snd (store_activity narrow_isalnum event_without_track_id fresh_store) in
  fst (store_activity narrow_isalnum event_without_track_id fresh_store) = Ok tt /\
  tracks (disk w)
  = Some [TrackRow (VText []) (VText (py "Song A")) VNull VNull VNull VNull VNull] /\
  rows_of (py "user_ann_listening_activity") (disk w)
  = [ActivityRow 1 (VInt 1700000000000) (VText []) VNull VNull VNull].
Proof. vm_compute. repeat split. Qed.

Lemma with_db_retry_contention_witness :
  contended 1 sample_operation 2 0 (start empty_db [locked; locked]) = true /\
  fst (with_db_retry 3 1 sample_operation (start empty_db [locked; locked])) = Ok tt /\
  retry_attempts 1 sample_operation 3 0 (start empty_db [locked; locked]) = 3%nat /\
  slept (snd (with_db_retry 3 1 sample_operation (start empty_db [locked; locked])))
  = [1; 2].
Proof.
  pose proof (proj1 (with_db_retry_contention sample_operation
                       (start empty_db [locked; locked]))
                2%nat (Ok tt) _ (le_n 3) eq_refl eq_refl I) as [H1 H2].
  split; [reflexivity|]. rewrite H1. split; [reflexivity|].
  split; [exact H2|reflexivity].
Defined.


Lemma table_name_derivation_witness :
  fst (get_user_table_name narrow_isalnum (JStr (py "spotify:user:a-b"))
         fresh_store)
  = Ok (py "user_a_b_listening_activity").
Proof.
  rewrite (proj1 (proj2 (table_name_derivation narrow_isalnum
                           (py "spotify:user:a-b") fresh_store))).
  reflexivity.
Defined.

(** C6, as stated, fails: an identifier with an empty local part gets a
    table name, no error. *)
Lemma empty_local_name_gets_a_table :
  last_item (split_on colon (py "spotify:user:")) = [] /\
  fst (get_user_table_name narrow_isalnum (JStr (py "spotify:user:"))
         fresh_store)
  = Ok (py "user__listening_activity").
Proof. split; reflexivity. Qed.

(** A letter outside ASCII is alphanumeric for [str.isalnum] and stays in
    the table name. *)
Example accented_letter_kept :
  table_name_of narrow_isalnum (py "jos" ++ [233%N])
  = py "user_jos" ++ [233%N] ++ py "_listening_activity".
Proof. reflexivity. Qed.

Lemma history_of_unseen_listener_witness :
  streams (view fresh_store) !! sql_fold (py "user_ann_listening_activity") = None /\
  fst (get_user_activity narrow_isalnum (JStr (py "spotify:user:ann")) None None
         fresh_store)
  = Raise (PandasDatabaseError (py "Execution failed on sql")) /\
  fst (get_all_user_activities None fresh_store) = Ok empty_frame /\
  fst (get_all_time_activity null_strftime fresh_store) = Ok empty_frame.
Proof.
  pose proof (history_of_unseen_listener narrow_isalnum null_strftime
                (py "spotify:user:ann") None None None fresh_store) as [H1 H2].
  destruct (H1 eq_refl) as (w1 & E1).
  destruct (H2 eq_refl eq_refl) as [(w2 & E2) (w3 & E3)].
  split; [reflexivity|]. rewrite E1, E2, E3. repeat split.
Defined.



Lemma create_user_table_idempotent_witness :
  tx fresh_store = None /\
  exists w1 w2,
    create_user_table narrow_isalnum (JStr (py "spotify:user:ann")) fresh_store
    = (Ok (py "user_ann_listening_activity"), w1) /\
    create_user_table narrow_isalnum (JStr (py "spotify:user:ann")) w1
    = (Ok (py "user_ann_listening_activity"), w2).
Proof.
  split; [reflexivity|].
  apply (proj2 (proj2 (create_user_table_idempotent narrow_isalnum
                         (py "spotify:user:ann") fresh_store eq_refl))).
  - reflexivity.
  - eexists. reflexivity.
  - unfold storable. vm_compute. split; [discriminate|reflexivity].
Defined.

(** C3, as stated, fails: with a registry entry for the listener, a call
    still creates the table when it is missing. *)
Lemma registry_entry_does_not_stop_creation :
  entries_of (py "spotify:user:ann") (disk orphaned_store) = 1%nat /\
  streams (disk orphaned_store) = ∅ /\
  let w := snd (create_user_table narrow_isalnum (JStr (py "spotify:user:ann"))
                  orphaned_store) in
  fst (create_user_table narrow_isalnum (JStr (py "spotify:user:ann"))
         orphaned_store)
  = Ok (py "user_ann_listening_activity") /\
  streams (disk w) !! py "user_ann_listening_activity"
  = Some (StreamTable (py "user_ann_listening_activity") [] 0).
Proof. vm_compute. repeat split. Qed.


Lemma store_activity_all_or_nothing_witness :
  let e := sample_event "spotify:user:ann" "spotify:track:1" "Song A" 1700000000000 in
  fst (store_activity narrow_isalnum e fresh_store) = Ok tt /\
  content (py "user_ann_listening_activity")
    (disk (snd (store_activity narrow_isalnum e fresh_store)))
  = ([ActivityRow 1 (VInt 1700000000000) (VText (py "spotify:track:1"))
        VNull VNull VNull], 1).
Proof.
  intros e.
  assert (Hr : fst (store_activity narrow_isalnum e fresh_store) = Ok tt)
    by (vm_compute; reflexivity).
  assert (He : rows_of_event e
               = Some (py "spotify:user:ann",
                       UserRow (VText (py "spotify:user:ann")) (VText (py "Ann")) VNull,
                       TrackRow (VText (py "spotify:track:1")) (VText (py "Song A"))
                         VNull VNull VNull VNull VNull,
                       (VInt 1700000000000, VText (py "spotify:track:1"),
                        VNull, VNull, VNull)))
    by (vm_compute; reflexivity).
  split; [exact Hr|].
  pose proof (store_activity_all_or_nothing narrow_isalnum e _ _ _ _ _ _ _ _
                fresh_store _ _ He eq_refl eq_refl eq_refl
                (surjective_pairing _)) as H.
  rewrite Hr in H. exact (proj1 (proj2 (proj2 (proj2 H)))).
Defined.

Lemma repeated_sighting_upsert_witness :
  let e1 := sample_event "spotify:user:ann" "spotify:track:1" "Song A" 1700000000000 in
  let e2 := sample_event "spotify:user:ann" "spotify:track:1" "Song A (live)"
              1700000200000 in
  let w1 := snd (store_activity narrow_isalnum e1 fresh_store) in
  let w2 := snd (store_activity narrow_isalnum e2 w1) in
  count_key u_uri (VText (py "spotify:user:ann")) (users (disk w2)) = 1%nat /\
  count_key t_uri (VText (py "spotify:track:1")) (tracks (disk w2)) = 1%nat /\
  List.In (TrackRow (VText (py "spotify:track:1")) (VText (py "Song A (live)"))
             VNull VNull VNull VNull VNull)
    (default [] (tracks (disk w2))) /\
  content (py "user_ann_listening_activity") (disk w2)
  = ([ActivityRow 1 (VInt 1700000000000) (VText (py "spotify:track:1"))
        VNull VNull VNull;
      ActivityRow 2 (VInt 1700000200000) (VText (py "spotify:track:1"))
        VNull VNull VNull], 2).
Proof.
  intros e1 e2 w1 w2.
  assert (R1 : fst (store_activity narrow_isalnum e1 fresh_store) = Ok tt)
    by (vm_compute; reflexivity).
  assert (H1 : store_activity narrow_isalnum e1 fresh_store = (Ok tt, w1))
    by (rewrite <- R1; apply surjective_pairing).
  assert (R2 : fst (store_activity narrow_isalnum e2 w1) = Ok tt)
    by (vm_compute; reflexivity).
  assert (H2 : store_activity narrow_isalnum e2 w1 = (Ok tt, w2))
    by (rewrite <- R2; apply surjective_pairing).
  assert (He1 : rows_of_event e1
               = Some (py "spotify:user:ann",
                       UserRow (VText (py "spotify:user:ann")) (VText (py "Ann")) VNull,
                       TrackRow (VText (py "spotify:track:1")) (VText (py "Song A"))
                         VNull VNull VNull VNull VNull,
                       (VInt 1700000000000, VText (py "spotify:track:1"),
                        VNull, VNull, VNull)))
    by (vm_compute; reflexivity).
  assert (He2 : rows_of_event e2
               = Some (py "spotify:user:ann",
                       UserRow (VText (py "spotify:user:ann")) (VText (py "Ann")) VNull,
                       TrackRow (VText (py "spotify:track:1"))
                         (VText (py "Song A (live)")) VNull VNull VNull VNull VNull,
                       (VInt 1700000200000, VText (py "spotify:track:1"),
                        VNull, VNull, VNull)))
    by (vm_compute; reflexivity).
  pose proof (repeated_sighting_upsert narrow_isalnum e1 e2 _ _ _ _ _ _ _ _ _ _
                _ _ _ _ _ fresh_store w1 w2 He1 He2 eq_refl eq_refl eq_refl
                eq_refl eq_refl eq_refl H1 H2)
    as (Hu & _ & _ & Ht & Hi & _ & _ & Hc & _).
  split; [exact Hu|]. split; [exact Ht|]. split; [exact Hi|]. exact Hc.
Defined.

Lemma lock_during_table_lookup_loses_event_witness :
  let e := sample_event "spotify:user:ann" "spotify:track:1" "Song A" 1700000000000 in
  let w := set_faults [locked] fresh_store in
  fst (store_activity narrow_isalnum e w) = Raise closed_database /\
  users (disk (snd (store_activity narrow_isalnum e w))) = Some [] /\
  streams (disk (snd (store_activity narrow_isalnum e w)))
    !! py "user_ann_listening_activity"
  = Some (StreamTable (py "user_ann_listening_activity") [] 0).
Proof.
  intros e w.
  assert (He : rows_of_event e
               = Some (py "spotify:user:ann",
                       UserRow (VText (py "spotify:user:ann")) (VText (py "Ann")) VNull,
                       TrackRow (VText (py "spotify:track:1")) (VText (py "Song A"))
                         VNull VNull VNull VNull VNull,
                       (VInt 1700000000000, VText (py "spotify:track:1"),
                        VNull, VNull, VNull)))
    by (vm_compute; reflexivity).
  assert (Hn : numbered w) by (vm_compute; apply le_n).
  assert (Hr : is_Some (user_tables (disk w))) by (eexists; reflexivity).
  assert (Hc : storable (clock w + 1))
    by (unfold storable; vm_compute; split; [discriminate|reflexivity]).
  destruct (lock_during_table_lookup_loses_event narrow_isalnum e _ _ _ _ w
              He eq_refl Hn eq_refl Hr Hc) as (w' & E & Hd & _).
  rewrite E. cbn [fst snd]. rewrite Hd.
  split; [reflexivity|]. split; vm_compute; reflexivity.
Defined.

Lemma persistent_contention_costs_witness :
  let e := sample_event "spotify:user:ann" "spotify:track:1" "Song A" 1700000000000 in
  let w := set_faults (List.repeat locked 9) fresh_store in
  fst (store_activity narrow_isalnum e w) = Raise locked_error /\
  slept (snd (store_activity narrow_isalnum e w))
  = [1; 2; 4; 1; 1; 2; 4; 2; 1; 2; 4; 4] /\
  disk (snd (store_activity narrow_isalnum e w)) = disk fresh_store.
Proof.
  intros e w.
  assert (He : rows_of_event e
               = Some (py "spotify:user:ann",
                       UserRow (VText (py "spotify:user:ann")) (VText (py "Ann")) VNull,
                       TrackRow (VText (py "spotify:track:1")) (VText (py "Song A"))
                         VNull VNull VNull VNull VNull,
                       (VInt 1700000000000, VText (py "spotify:track:1"),
                        VNull, VNull, VNull)))
    by (vm_compute; reflexivity).
  destruct (persistent_contention_costs narrow_isalnum e _ _ _ _ w [] He eq_refl)
    as (w' & E & Hd & _ & _ & _ & Hs & _).
  rewrite E. cbn [fst snd]. split; [reflexivity|]. split; [exact Hs|exact Hd].
Defined.

Lemma rejected_row_leaves_pending_writes_witness :
  let ann := UserRow (VText (py "spotify:user:ann")) (VText (py "Ann")) VNull in
  let w := snd (store_activity narrow_isalnum event_without_timestamp fresh_store) in
  fst (store_activity narrow_isalnum event_without_timestamp fresh_store)
  = Raise (SqliteError IntegrityError
             (py "NOT NULL constraint failed: user_ann_listening_activity.timestamp")) /\
  users (disk w) = Some [] /\
  users (disk (snd (get_user_activity narrow_isalnum (JStr (py "spotify:user:ann"))
                      None None w)))
  = Some [ann].
Proof.
  intros ann w.
  set (song := TrackRow (VText (py "spotify:track:1")) (VText (py "Song A"))
                 VNull VNull VNull VNull VNull).
  set (n := table_name_of narrow_isalnum
              (last_item (split_on colon (py "spotify:user:ann")))).
  set (p := provision (py "spotify:user:ann") n
              (clock fresh_store) (disk fresh_store)).
  pose (d2 := match replace_user ann p with Ok d => d | Raise _ => empty_db end).
  pose (d3 := match replace_track song d2 with Ok d => d | Raise _ => empty_db end).
  assert (He : rows_of_event event_without_timestamp
               = Some (py "spotify:user:ann", ann, song,
                       (VNull, VText (py "spotify:track:1"), VNull, VNull, VNull)))
    by (vm_compute; reflexivity).
  assert (Hr : is_Some (user_tables (disk fresh_store))) by (eexists; reflexivity).
  assert (Hc : storable (clock fresh_store))
    by (unfold storable; vm_compute; split; [discriminate|reflexivity]).
  assert (H2 : replace_user ann p = Ok d2) by (vm_compute; reflexivity).
  assert (H3 : replace_track song d2 = Ok d3) by (vm_compute; reflexivity).
  assert (H4 : insert_activity n VNull (VText (py "spotify:track:1")) VNull VNull
                 VNull d3
               = Raise (SqliteError IntegrityError
                   (py "NOT NULL constraint failed: user_ann_listening_activity.timestamp")))
    by (vm_compute; reflexivity).
  destruct (rejected_row_leaves_pending_writes narrow_isalnum
              event_without_timestamp _ _ _ _ _ _ _ _ d2 d3 _ fresh_store
              He eq_refl eq_refl Hr Hc H2 H3 H4)
    as (w' & E & Hd & _ & _ & df & w'' & G & Gd & _).
  subst w. rewrite E. cbn [fst snd]. rewrite G. cbn [snd]. rewrite Hd, Gd.
  split; [reflexivity|]. split; vm_compute; reflexivity.
Defined.

Lemma get_user_activity_rows_witness :
  let e1 := sample_event "spotify:user:ann" "spotify:track:1" "Song A" 1700000000000 in
  let e2 := sample_event "spotify:user:ann" "spotify:track:1" "Song A (live)"
              1700000200000 in
  let w := snd (store_activity narrow_isalnum e2
                  (snd (store_activity narrow_isalnum e1 fresh_store))) in
  let q := get_user_activity narrow_isalnum (JStr (py "spotify:user:ann"))
             (Some 1700000100000) (Some 0) w in
  exists df, fst q = Ok df /\
    data df = [[VInt 1700000200000; VText (py "Song A (live)"); VNull; VNull]] /\
    newest_first (data df) = true /\ disk (snd q) = view w.
Proof.
  intros e1 e2 w q.
  pose (df := DataFrame
                (List.map py ["timestamp"; "track_name"; "artist_name";
                              "context_name"]%string)
                [[VInt 1700000200000; VText (py "Song A (live)"); VNull; VNull]]).
  assert (R : fst q = Ok df) by (vm_compute; reflexivity).
  assert (H : get_user_activity narrow_isalnum (JStr (py "spotify:user:ann"))
                (Some 1700000100000) (Some 0) w = (Ok df, snd q))
    by (rewrite <- R; apply surjective_pairing).
  destruct (get_user_activity_rows narrow_isalnum _ _ _ w df (snd q) H)
    as (_ & Hs & _ & Hd & _).
  exists df. split; [exact R|]. split; [reflexivity|]. split; [exact Hs|exact Hd].
Defined.

Lemma stored_event_in_history_witness :
  let e := sample_event "spotify:user:ann" "spotify:track:1" "Song A" 1700000000000 in
  let w1 := snd (store_activity narrow_isalnum e fresh_store) in
  exists df w2,
    get_user_activity narrow_isalnum (JStr (py "other:ann")) None None w1
    = (Ok df, w2) /\
    List.In [VInt 1700000000000; VText (py "Song A"); VNull; VNull] (data df).
Proof.
  intros e w1.
  assert (He : rows_of_event e
               = Some (py "spotify:user:ann",
                       UserRow (VText (py "spotify:user:ann")) (VText (py "Ann")) VNull,
                       TrackRow (VText (py "spotify:track:1")) (VText (py "Song A"))
                         VNull VNull VNull VNull VNull,
                       (VInt 1700000000000, VText (py "spotify:track:1"),
                        VNull, VNull, VNull)))
    by (vm_compute; reflexivity).
  assert (R : fst (store_activity narrow_isalnum e fresh_store) = Ok tt)
    by (vm_compute; reflexivity).
  assert (H : store_activity narrow_isalnum e fresh_store = (Ok tt, w1))
    by (rewrite <- R; apply surjective_pairing).
  assert (Hn : table_name_of narrow_isalnum (last_item (split_on colon (py "other:ann")))
               = table_name_of narrow_isalnum
                   (last_item (split_on colon (py "spotify:user:ann"))))
    by (vm_compute; reflexivity).
  assert (Hf : faults w1 = []) by (vm_compute; reflexivity).
  destruct (stored_event_in_history narrow_isalnum e _ (py "other:ann") _ _ _ _ _ _ _
              fresh_store w1 He eq_refl eq_refl H Hn) as [H1 H2].
  destruct (H2 Hf) as (df & w2 & Hq).
  exists df, w2. split; [exact Hq|]. exact (H1 df w2 Hq).
Defined.

Lemma missing_table_blocks_all_histories_witness :
  registry_listing (view orphaned_store)
  = [(JStr (py "spotify:user:ann"), JStr (py "user_ann_listening_activity"))] /\
  (exists x w', get_all_user_activities None orphaned_store = (Raise x, w')) /\
  (exists x w', get_all_time_activity null_strftime orphaned_store = (Raise x, w')).
Proof.
  assert (Hm : handle_missing
                 (snd (JStr (py "spotify:user:ann"),
                       JStr (py "user_ann_listening_activity")))
                 (view orphaned_store) <> None)
    by (vm_compute; discriminate).
  destruct (missing_table_blocks_all_histories null_strftime _ None orphaned_store
              (or_introl eq_refl) Hm)
    as [(x1 & w1 & H1 & _) (x2 & w2 & H2 & _)].
  split; [reflexivity|]. split; eauto.
Defined.

Lemma get_all_user_activities_rows_witness :
  let e := sample_event "spotify:user:ann" "spotify:track:1" "Song A" 1700000000000 in
  let w := snd (store_activity narrow_isalnum e fresh_store) in
  exists df,
    fst (get_all_user_activities None w) = Ok df /\
    data df = [[VInt 1700000000000; VText (py "Ann"); VText (py "Song A");
                VNull; VNull]] /\
    newest_first (data df) = true.
Proof.
  intros e w.
  pose (df := DataFrame
                (List.map py ["timestamp"; "user_name"; "track_name";
                              "artist_name"; "context_name"]%string)
                [[VInt 1700000000000; VText (py "Ann"); VText (py "Song A");
                  VNull; VNull]]).
  assert (R : fst (get_all_user_activities None w) = Ok df)
    by (vm_compute; reflexivity).
  assert (H : get_all_user_activities None w
              = (Ok df, snd (get_all_user_activities None w)))
    by (rewrite <- R; apply surjective_pairing).
  assert (L : within_engine_limits (view w))
    by (unfold within_engine_limits; vm_compute; lia).
  destruct (get_all_user_activities_rows None w df _ L H) as (Hs & _).
  exists df. split; [exact R|]. split; [reflexivity|exact Hs].
Defined.

Lemma analyze_recent_activity_window_witness :
  let e1 := sample_event "spotify:user:ann" "spotify:track:1" "Song A" 1700000000000 in
  let e2 := sample_event "spotify:user:ann" "spotify:track:2" "Song B" 1700000200000 in
  let w := snd (store_activity narrow_isalnum e2
                  (snd (store_activity narrow_isalnum e1 fresh_store))) in
  exists df,
    fst (analyze_recent_activity 1700000400000 5 w) = Ok df /\
    data df = [[VInt 1700000200000; VText (py "Ann"); VText (py "Song B");
                VNull; VNull]] /\
    forall row, List.In row (data df) ->
                sql_ge (List.hd VNull row) (VInt 1700000100000) = true.
Proof.
  intros e1 e2 w.
  pose (df := DataFrame
                (List.map py ["timestamp"; "user_name"; "track_name";
                              "artist_name"; "context_name"]%string)
                [[VInt 1700000200000; VText (py "Ann"); VText (py "Song B");
                  VNull; VNull]]).
  assert (R : fst (analyze_recent_activity 1700000400000 5 w) = Ok df)
    by (vm_compute; reflexivity).
  assert (H : analyze_recent_activity 1700000400000 5 w
              = (Ok df, snd (analyze_recent_activity 1700000400000 5 w)))
    by (rewrite <- R; apply surjective_pairing).
  assert (L : within_engine_limits (view w))
    by (unfold within_engine_limits; vm_compute; lia).
  destruct (proj1 (analyze_recent_activity_window 1700000400000 5 w) df _ L H)
    as (_ & Hw).
  exists df. split; [exact R|]. split; [reflexivity|].
  apply Hw. discriminate.
Defined.


Lemma verify_database_structure_repairs_witness :
  streams (disk orphaned_store) = ∅ /\
  exists w',
    verify_database_structure narrow_isalnum orphaned_store = (Ok tt, w') /\
    forall r, List.In r (default [] (user_tables (disk w'))) ->
              served narrow_isalnum r (disk w').
Proof.
  assert (Hd : derived_registry narrow_isalnum (disk orphaned_store)).
  { intros r Hr. vm_compute in Hr. destruct Hr as [<-|[]].
    exists (py "spotify:user:ann"). split; vm_compute; reflexivity. }
  assert (Hc : storable (clock orphaned_store))
    by (unfold storable; vm_compute; split; [discriminate|reflexivity]).
  destruct (verify_database_structure_repairs narrow_isalnum orphaned_store
              eq_refl Hd) as [H1 H2].
  destruct (H2 eq_refl Hc) as (w' & E).
  split; [reflexivity|]. exists w'. split; [exact E|].
  exact (proj1 (proj2 (proj2 (proj2 (H1 w' E))))).
Defined.





Lemma registry_stays_tidy_witness :
  let ann := sample_event "spotify:user:ann" "spotify:track:1" "Song A" 1700000000000 in
  let bob := sample_event "spotify:user:bob" "spotify:track:2" "Song B" 1700000200000 in
  let w := snd (store_activity narrow_isalnum ann fresh_store) in
  tidy narrow_isalnum (disk w) /\
  tidy narrow_isalnum (disk (snd (store_activity narrow_isalnum bob w))).
Proof.
  intros ann bob w.
  assert (Hy : tidy narrow_isalnum (disk w)).
  { split; intros r Hr; vm_compute in Hr; destruct Hr as [<-|[]];
      exists (py "spotify:user:ann"); split; try (vm_compute; reflexivity).
    vm_compute. eexists. reflexivity. }
  assert (Ht : tx w = None) by (vm_compute; reflexivity).
  split; [exact Hy|].
  exact (proj1 (proj2 (registry_stays_tidy narrow_isalnum w Ht Hy))
           bob _ _ (surjective_pairing _)).
Defined.

Lemma registry_insert_lock_orphans_table_witness :
  let w := set_faults [None; None; None; locked] fresh_store in
  exists w',
    create_user_table narrow_isalnum (JStr (py "spotify:user:ann")) w
    = (Ok (py "user_ann_listening_activity"), w') /\
    streams (disk w') !! py "user_ann_listening_activity"
    = Some (StreamTable (py "user_ann_listening_activity") [] 0) /\
    user_tables (disk w') = Some [].
Proof.
  intros w.
  assert (Hr : is_Some (user_tables (disk w))) by (eexists; reflexivity).
  assert (Hc : storable (clock w))
    by (unfold storable; vm_compute; split; [discriminate|reflexivity]).
  assert (Hs : streams (disk w)
                 !! sql_fold (table_name_of narrow_isalnum
                                (last_item (split_on colon (py "spotify:user:ann"))))
               = None) by (vm_compute; reflexivity).
  destruct (registry_insert_lock_orphans_table narrow_isalnum
              (py "spotify:user:ann") w eq_refl eq_refl Hr Hc Hs)
    as (w' & E & H1 & H2 & _).
  exists w'. split; [exact E|]. split; [exact H1|exact H2].
Defined.


Lemma run_collection_loop_pace_witness :
  let feed := [Ok [sample_event "spotify:user:ann" "spotify:track:1" "Song A"
                     1700000000000; event_without_timestamp];
               Raise TypeError; Ok []] in
  clock fresh_store + 540
  <= clock (snd (run_collection_loop narrow_isalnum 180 feed fresh_store)).
Proof.
  intros feed.
  assert (Hi : 0 <= 180) by lia.
  exact (proj1 (run_collection_loop_pace narrow_isalnum 180 feed fresh_store Hi)).
Defined.

Lemma analyzer_init_establishes_witness :
  exists w',
    analyzer_init narrow_isalnum orphaned_store = (Ok tt, w') /\
    tidy narrow_isalnum (disk w') /\
    kept (disk orphaned_store) (disk w').
Proof.
  assert (Hd : derived_registry narrow_isalnum (disk orphaned_store)).
  { intros r Hr. vm_compute in Hr. destruct Hr as [<-|[]].
    exists (py "spotify:user:ann"). split; vm_compute; reflexivity. }
  assert (Hc : storable (clock orphaned_store))
    by (unfold storable; vm_compute; split; [discriminate|reflexivity]).
  destruct (analyzer_init_establishes narrow_isalnum orphaned_store eq_refl Hd)
    as [H1 H2].
  destruct (H2 eq_refl Hc) as (w' & E).
  destruct (H1 w' E) as (_ & _ & Hy & Hk).
  exists w'. split; [exact E|]. split; [exact Hy|exact Hk].
Defined.

Lemma store_activity_succeeds_witness :
  let e := sample_event "spotify:user:ann" "spotify:track:1" "Song A" 1700000000000 in
  exists w',
    store_activity narrow_isalnum e fresh_store = (Ok tt, w') /\
    content (py "user_ann_listening_activity") (disk w')
    = ([ActivityRow 1 (VInt 1700000000000) (VText (py "spotify:track:1"))
          VNull VNull VNull], 1) /\
    slept w' = slept fresh_store.
Proof.
  intros e.
  assert (He : rows_of_event e
               = Some (py "spotify:user:ann",
                       UserRow (VText (py "spotify:user:ann")) (VText (py "Ann")) VNull,
                       TrackRow (VText (py "spotify:track:1")) (VText (py "Song A"))
                         VNull VNull VNull VNull VNull,
                       (VInt 1700000000000, VText (py "spotify:track:1"),
                        VNull, VNull, VNull)))
    by (vm_compute; reflexivity).
  assert (Hc : core_tables_exist (disk fresh_store))
    by (unfold core_tables_exist; vm_compute; repeat split; eexists; reflexivity).
  assert (Hs : storable (clock fresh_store))
    by (unfold storable; vm_compute; split; [discriminate|reflexivity]).
  destruct (store_activity_succeeds narrow_isalnum e _ _ _ _ _ _ _ _ fresh_store
              He eq_refl eq_refl eq_refl eq_refl Hc Hs)
    as (w' & Hr & Hi & _ & _ & Hsl); try (cbn; discriminate).
  exists w'. split; [exact Hr|]. split; [|exact Hsl].
  clear Hr Hsl. revert Hi. generalize (disk w'). intros d Hi.
  vm_compute in Hi. injection Hi as <-. vm_compute. reflexivity.
Defined.
